(** * checkin.py: an executable model of the check-in run and its properties

    The development follows the layout of [checkin.py]: the values of the
    Python run time the script computes with (strings, binary64 numbers,
    JSON documents, exceptions), the collaborators it calls (browser, HTTP
    client, configuration, webhook) as a record of outcomes, and then one
    definition per function of the script, under the function's own name.
    Statements about the functions come last. *)

From Stdlib Require Import ZArith String Ascii.
From stdpp Require Import gmap list sorting.

Set Warnings "-register-all".
Local Open Scope Z_scope.

(** ** Strings

    A Python [str] is a sequence of code points.  Literals of the script are
    written as they stand in the source and decoded from UTF-8. *)

Definition str := list N.

Fixpoint utf8_go (bs : list N) (need : nat) (acc : N) : str :=
  match bs with
  | [] => []
  | b :: rest =>
      match need with
      | O =>
          if (b <? 128)%N then b :: utf8_go rest 0 0%N
          else if (b <? 224)%N then utf8_go rest 1 (b - 192)%N
          else if (b <? 240)%N then utf8_go rest 2 (b - 224)%N
          else utf8_go rest 3 (b - 240)%N
      | S O => (acc * 64 + (b - 128))%N :: utf8_go rest 0 0%N
      | S n => utf8_go rest n (acc * 64 + (b - 128))%N
      end
  end.

Definition utf8 (s : string) : str :=
  utf8_go (map N_of_ascii (list_ascii_of_string s)) 0 0%N.

Definition str_eqb (a b : str) : bool := bool_decide (a = b).

(** [needle in hay] on strings. *)
Fixpoint is_prefix (p s : str) : bool :=
  match p, s with
  | [], _ => true
  | _ :: _, [] => false
  | a :: p', b :: s' => (a =? b)%N && is_prefix p' s'
  end.

Fixpoint str_contains (needle hay : str) : bool :=
  is_prefix needle hay ||
  match hay with
  | [] => false
  | _ :: hay' => str_contains needle hay'
  end.

(** [s.split(sep)] for a one-character separator. *)
Fixpoint split_on (sep : N) (s : str) : list str :=
  match s with
  | [] => [[]]
  | c :: s' =>
      if (c =? sep)%N then [] :: split_on sep s'
      else match split_on sep s' with
           | [] => [[c]]
           | w :: ws => (c :: w) :: ws
           end
  end.

(** [s.split(sep, 1)]: cut at the first separator, if there is one. *)
Fixpoint split_once (sep : N) (s : str) : str * option str :=
  match s with
  | [] => ([], None)
  | c :: s' =>
      if (c =? sep)%N then ([], Some s')
      else let '(a, b) := split_once sep s' in (c :: a, b)
  end.

(** The code points for which [str.isspace] holds; [strip] removes them at
    both ends. *)
Definition is_space (c : N) : bool :=
  ((9 <=? c) && (c <=? 13) || (28 <=? c) && (c <=? 32)
   || (c =? 133) || (c =? 160) || (c =? 5760)
   || (8192 <=? c) && (c <=? 8202)
   || (c =? 8232) || (c =? 8233) || (c =? 8239) || (c =? 8287)
   || (c =? 12288))%N.

Fixpoint lstrip (s : str) : str :=
  match s with
  | c :: s' => if is_space c then lstrip s' else s
  | [] => []
  end.

Definition strip (s : str) : str := rev (lstrip (rev (lstrip s))).

(** Lower-casing of the ASCII range.  [str.lower] itself follows the Unicode
    tables of the interpreter and is taken from the run time (see [World]);
    on ASCII text the two agree. *)
Definition ascii_lower (s : str) : str :=
  map (fun c => if ((65 <=? c) && (c <=? 90))%N then (c + 32)%N else c) s.

(** Decimal digits of an integer, as [str(n)] prints them. *)
Fixpoint digits_fuel (fuel : nat) (n : Z) (acc : str) : str :=
  match fuel with
  | O => acc
  | S fuel' =>
      let acc' := (48 + Z.to_N (n mod 10))%N :: acc in
      if n <? 10 then acc' else digits_fuel fuel' (n / 10) acc'
  end.

Definition str_of_nonneg (n : Z) : str :=
  digits_fuel (S (Z.to_nat (Z.log2 n))) n [].

Definition str_of_int (n : Z) : str :=
  if n <? 0 then 45%N :: str_of_nonneg (- n) else str_of_nonneg n.

(** ** Binary64 numbers

    Python's [float] is IEEE-754 binary64.  A finite non-zero value is
    [(-1)^neg * m * 2^e] with [2^52 <= m < 2^53] and [-1074 <= e <= 971],
    or [m < 2^52] and [e = -1074] for the subnormal ones.  The operations
    below are the correctly rounded ones (ties to even), written out over
    the integers. *)

Module Float.

Inductive float :=
| FNan
| FInf (neg : bool)
| FZero (neg : bool)
| FFinite (neg : bool) (m : positive) (e : Z).

Definition float_eqb (x y : float) : bool :=
  match x, y with
  | FNan, FNan => true
  | FInf a, FInf b => Bool.eqb a b
  | FZero a, FZero b => Bool.eqb a b
  | FFinite a m e, FFinite b m' e' =>
      Bool.eqb a b && (Z.pos m =? Z.pos m') && (e =? e')
  | _, _ => false
  end.

(** The integer nearest to [n / d], for [0 <= n] and [0 < d]. *)
Definition round_half_even (n d : Z) : Z :=
  let k := n / d in
  let r := n mod d in
  if 2 * r <? d then k
  else if d <? 2 * r then k + 1
  else if Z.even k then k else k + 1.

(** [p / (q * 2^e)] as the fraction [scale_num p e / scale_den q e]. *)
Definition scale_num (p e : Z) : Z := p * 2 ^ Z.max 0 (- e).
Definition scale_den (q e : Z) : Z := q * 2 ^ Z.max 0 e.

(** The exponent [e] with [2^52 <= p / (q * 2^e) < 2^53], not below the
    subnormal exponent. *)
Definition binade (p q : Z) : Z :=
  let e0 := Z.log2 p - Z.log2 q - 52 in
  let e1 :=
    if scale_num p e0 <? scale_den q e0 * 2 ^ 52 then e0 - 1 else e0 in
  Z.max e1 (-1074).

(** The binary64 value nearest to [p / q], for [0 < p] and [0 < q]; an
    infinity when the rounded value is out of range. *)
Definition nearest_double (neg : bool) (p q : Z) : float :=
  let e := binade p q in
  let m := round_half_even (scale_num p e) (scale_den q e) in
  let '(m, e) := if m =? 2 ^ 53 then (2 ^ 52, e + 1) else (m, e) in
  if m =? 0 then FZero neg
  else if 971 <? e then FInf neg
  else FFinite neg (Z.to_pos m) e.

(** [round(x, 2)]: the decimal with two places nearest to [x] (decided on
    the exact value of [x]), read back as a binary64 value.  Infinities,
    NaN and zeros round to themselves. *)
Definition py_round2 (x : float) : float :=
  match x with
  | FFinite neg m e =>
      let k :=
        round_half_even (scale_num (Z.pos m * 100) (- e)) (scale_den 1 (- e)) in
      if k =? 0 then FZero neg else nearest_double neg k 100
  | _ => x
  end.

(** Truth value of a float: everything but the two zeros. *)
Definition float_truthy (x : float) : bool :=
  match x with
  | FZero _ => false
  | _ => true
  end.

(** [x == z] for a float and an integer: equality of the exact values. *)
Definition float_eq_int (x : float) (z : Z) : bool :=
  match x with
  | FZero _ => z =? 0
  | FFinite neg m e =>
      let v := if neg then - Z.pos m else Z.pos m in
      scale_num v (- e) =? scale_den z (- e)
  | _ => false
  end.

(** [float(z)]: the nearest binary64 value, none when out of range. *)
Definition int_to_float (z : Z) : option float :=
  if z =? 0 then Some (FZero false)
  else match nearest_double (z <? 0) (Z.abs z) 1 with
       | FInf _ => None
       | f => Some f
       end.

(** [a / b] on integers: the correctly rounded quotient; none when the
    quotient is out of range.  [b] is not zero. *)
Definition int_div (a b : Z) : option float :=
  let neg := xorb (a <? 0) (b <? 0) in
  if a =? 0 then Some (FZero neg)
  else match nearest_double neg (Z.abs a) (Z.abs b) with
       | FInf _ => None
       | f => Some f
       end.

(** [x / y] on floats, for [y] not a zero. *)
Definition float_div (x y : float) : float :=
  match x, y with
  | FNan, _ | _, FNan => FNan
  | FInf _, FInf _ => FNan
  | FInf sx, FFinite sy _ _ => FInf (xorb sx sy)
  | FInf sx, FZero sy => FInf (xorb sx sy)
  | FZero sx, FInf sy | FZero sx, FFinite sy _ _ | FZero sx, FZero sy =>
      FZero (xorb sx sy)
  | FFinite sx _ _, FInf sy => FZero (xorb sx sy)
  | FFinite sx _ _, FZero sy => FInf (xorb sx sy)
  | FFinite sx mx ex, FFinite sy my ey =>
      nearest_double (xorb sx sy)
        (scale_num (Z.pos mx) (ey - ex)) (scale_den (Z.pos my) (ey - ex))
  end.

(** *** [repr]

    The shortest decimal that reads back as the same value, in fixed
    notation for exponents from [-4] to [16] and in exponent notation
    outside. *)

Definition pow10_num (p k : Z) : Z := p * 10 ^ Z.max 0 (- k).
Definition pow10_den (q k : Z) : Z := q * 10 ^ Z.max 0 k.

Fixpoint ilog10_up (fuel : nat) (p q k : Z) : Z :=
  match fuel with
  | O => k
  | S fuel' =>
      if pow10_den q (k + 1) <=? pow10_num p (k + 1)
      then ilog10_up fuel' p q (k + 1) else k
  end.

(** [k] with [10^k <= p / q < 10^(k+1)]: a lower estimate from the binary
    logarithms, then counted up. *)
Definition ilog10 (p q : Z) : Z :=
  ilog10_up 6 p q ((Z.log2 p - Z.log2 q - 1) * 1233 / 4096 - 1).

Definition round_trips (m : positive) (e c t : Z) : bool :=
  float_eqb (nearest_double false (pow10_num c (- t)) (pow10_den 1 (- t)))
            (FFinite false m e).

(** The [n]-digit decimal [c * 10^t] next to [m * 2^e] that reads back as
    it, the nearer one when both neighbours do. *)
Definition shortest_at (m : positive) (e k n : Z) : option (Z * Z) :=
  let t := k - n + 1 in
  let num := pow10_num (scale_num (Z.pos m) (- e)) t in
  let den := pow10_den (scale_den 1 (- e)) t in
  let lo := num / den in
  let r := num mod den in
  let hi := lo + 1 in
  let oklo := round_trips m e lo t in
  let okhi := round_trips m e hi t in
  if oklo && okhi then
    if 2 * r <? den then Some (lo, t)
    else if den <? 2 * r then Some (hi, t)
    else if Z.even lo then Some (lo, t) else Some (hi, t)
  else if oklo then Some (lo, t)
  else if okhi then Some (hi, t)
  else None.

Fixpoint shortest_from (fuel : nat) (m : positive) (e k n : Z) : Z * Z :=
  match fuel with
  | O => (Z.pos m, 0)
  | S fuel' =>
      match shortest_at m e k n with
      | Some r => r
      | None => shortest_from fuel' m e k (n + 1)
      end
  end.

Fixpoint strip_zeros (fuel : nat) (c t : Z) : Z * Z :=
  match fuel with
  | O => (c, t)
  | S fuel' =>
      if c mod 10 =? 0 then strip_zeros fuel' (c / 10) (t + 1) else (c, t)
  end.

(** Digits and position of the decimal point: the value is
    [0.d1d2...dn * 10^decpt]. *)
Definition shortest_digits (m : positive) (e : Z) : str * Z :=
  let k := ilog10 (scale_num (Z.pos m) (- e)) (scale_den 1 (- e)) in
  let '(c, t) := shortest_from 17 m e k 1 in
  let '(c, t) := strip_zeros 20 c t in
  let ds := str_of_nonneg c in
  (ds, Z.of_nat (length ds) + t).

Definition zeros (n : Z) : str := repeat 48%N (Z.to_nat n).

Definition format_short (ds : str) (decpt : Z) : str :=
  let n := Z.of_nat (length ds) in
  if (decpt <=? -4) || (16 <? decpt) then
    let ex := decpt - 1 in
    let mant :=
      match ds with
      | [] => []
      | [d] => [d]
      | d :: rest => d :: 46%N :: rest
      end in
    let exs := str_of_nonneg (Z.abs ex) in
    let exs := if Z.abs ex <? 10 then 48%N :: exs else exs in
    mant ++ [101%N; if ex <? 0 then 45%N else 43%N] ++ exs
  else if decpt <=? 0 then
    utf8 "0." ++ zeros (- decpt) ++ ds
  else if n <=? decpt then
    ds ++ zeros (decpt - n) ++ utf8 ".0"
  else
    take (Z.to_nat decpt) ds ++ utf8 "." ++ drop (Z.to_nat decpt) ds.

Definition float_repr (x : float) : str :=
  match x with
  | FNan => utf8 "nan"
  | FInf neg => (if neg then utf8 "-" else []) ++ utf8 "inf"
  | FZero neg => (if neg then utf8 "-" else []) ++ utf8 "0.0"
  | FFinite neg m e =>
      let '(ds, decpt) := shortest_digits m e in
      (if neg then utf8 "-" else []) ++ format_short ds decpt
  end.

End Float.
Export Float.


(** ** Python values

    The values the script handles: what [json] decodes a document to, the
    raw cookie payload of an account, the cookies a browser reports.  A
    [dict] with string keys is a finite map. *)

Inductive pyval :=
| PNone
| PBool (b : bool)
| PInt (z : Z)
| PFloat (f : float)
| PStr (s : str)
| PList (l : list pyval)
| PDict (d : gmap str pyval).

Abbreviation dict := (gmap str pyval).

(** Exceptions, all of them instances of [Exception]; [str(e)] is the
    message.  Signals outside [Exception] (a keyboard interrupt) are not
    part of the model. *)
Inductive exn_class :=
| NameError
| AttributeError
| TypeError
| OverflowError
| ZeroDivisionError
| KeyError
| ValueError
| RecursionError
| UnicodeEncodeError
| UnicodeDecodeError
| JSONDecodeError
| OtherException.

Record exn := Exn { exn_cls : exn_class; exn_msg : str }.

Inductive result (A : Type) :=
| Ok (a : A)
| Raise (e : exn).
Arguments Ok {A} a.
Arguments Raise {A} e.

Definition is_json_decode_error (e : exn) : bool :=
  match exn_cls e with
  | JSONDecodeError => true
  | _ => false
  end.

Definition type_name (v : pyval) : str :=
  match v with
  | PNone => utf8 "NoneType"
  | PBool _ => utf8 "bool"
  | PInt _ => utf8 "int"
  | PFloat _ => utf8 "float"
  | PStr _ => utf8 "str"
  | PList _ => utf8 "list"
  | PDict _ => utf8 "dict"
  end.

(** [bool(v)]. *)
Definition py_truthy (v : pyval) : bool :=
  match v with
  | PNone => false
  | PBool b => b
  | PInt z => negb (z =? 0)
  | PFloat f => float_truthy f
  | PStr s => negb (bool_decide (s = []))
  | PList l => negb (bool_decide (length l = 0%nat))
  | PDict d => negb (bool_decide (d = ∅))
  end.

(** [v.get(key, default)]: only a dict has the method. *)
Definition py_get (v : pyval) (key : str) (dflt : pyval) : result pyval :=
  match v with
  | PDict d => Ok (default dflt (d !! key))
  | _ =>
      Raise (Exn AttributeError
               (utf8 "'" ++ type_name v ++ utf8 "' object has no attribute 'get'"))
  end.

(** [v == z] for an integer constant [z]: numbers compare by value, a bool
    counts as 0 or 1, anything else is different. *)
Definition py_eq_int (v : pyval) (z : Z) : bool :=
  match v with
  | PBool b => (if b then 1 else 0) =? z
  | PInt a => a =? z
  | PFloat f => float_eq_int f z
  | _ => false
  end.

(** [v == s] for a string constant [s]. *)
Definition py_eq_str (v : pyval) (s : str) : bool :=
  match v with
  | PStr a => str_eqb a s
  | _ => false
  end.

(** [v / b] for an integer constant [b]. *)
Definition py_truediv (v : pyval) (b : Z) : result float :=
  let int_case (a : Z) :=
    if b =? 0 then Raise (Exn ZeroDivisionError (utf8 "division by zero"))
    else match int_div a b with
         | Some f => Ok f
         | None =>
             Raise (Exn OverflowError
                      (utf8 "integer division result too large for a float"))
         end in
  match v with
  | PInt a => int_case a
  | PBool a => int_case (if a then 1 else 0)
  | PFloat x =>
      match int_to_float b with
      | None =>
          Raise (Exn OverflowError (utf8 "int too large to convert to float"))
      | Some (FZero _) =>
          Raise (Exn ZeroDivisionError (utf8 "float division by zero"))
      | Some y => Ok (float_div x y)
      end
  | _ =>
      Raise (Exn TypeError
               (utf8 "unsupported operand type(s) for /: '" ++ type_name v
                ++ utf8 "' and 'int'"))
  end.

(** ** Text files

    [balance_hash.txt] is opened in text mode with the UTF-8 codec.  What
    the file holds is a sequence of bytes; reading decodes them and turns
    every line ending into a line feed, writing turns line feeds into the
    line separator of the platform and encodes. *)

Definition bytes := list N.

Definition is_surrogate (c : N) : bool := ((55296 <=? c) && (c <=? 57343))%N.

(** The bytes of one code point; the code points of a Python [str] are
    below [0x110000]. *)
Definition encode_char (c : N) : bytes :=
  (if c <? 128 then [c]
   else if c <? 2048 then [192 + c / 64; 128 + c mod 64]
   else if c <? 65536 then
     [224 + c / 4096; 128 + (c / 64) mod 64; 128 + c mod 64]
   else
     [240 + c / 262144; 128 + (c / 4096) mod 64; 128 + (c / 64) mod 64;
      128 + c mod 64])%N.

Definition hex_digit (n : N) : N := (if n <? 10 then 48 + n else 87 + n)%N.

Definition hex4 (c : N) : str :=
  [hex_digit (c / 4096 mod 16); hex_digit (c / 256 mod 16);
   hex_digit (c / 16 mod 16); hex_digit (c mod 16)]%N.

Fixpoint leading_surrogates (s : str) : nat :=
  match s with
  | c :: rest => if is_surrogate c then S (leading_surrogates rest) else O
  | [] => O
  end.

(** The [UnicodeEncodeError] for a run of [S more] surrogates that starts
    at [pos] with the code point [c]. *)
Definition surrogate_error (c : N) (pos more : nat) : exn :=
  Exn UnicodeEncodeError
    (utf8 "'utf-8' codec can't encode "
     ++ match more with
        | O =>
            utf8 "character '\u" ++ hex4 c ++ utf8 "' in position "
            ++ str_of_int (Z.of_nat pos)
        | S _ =>
            utf8 "characters in position " ++ str_of_int (Z.of_nat pos)
            ++ utf8 "-" ++ str_of_int (Z.of_nat (pos + more))
        end
     ++ utf8 ": surrogates not allowed").

(** [text.encode('utf-8')]: the first run of surrogates, if there is one,
    is the error. *)
Fixpoint encode_from (pos : nat) (s : str) : result bytes :=
  match s with
  | [] => Ok []
  | c :: rest =>
      if is_surrogate c
      then Raise (surrogate_error c pos (leading_surrogates rest))
      else match encode_from (S pos) rest with
           | Ok bs => Ok (encode_char c ++ bs)
           | Raise e => Raise e
           end
  end.

Definition encode_utf8 (s : str) : result bytes := encode_from 0 s.

Definition is_continuation (b : N) : bool := ((128 <=? b) && (b <=? 191))%N.

(** Strict decoding: no overlong forms, no surrogates, nothing above
    [0x10FFFF]; [None] stands for the [UnicodeDecodeError]. *)
Fixpoint decode_utf8 (bs : bytes) : option str :=
  match bs with
  | [] => Some []
  | b0 :: r0 =>
      if (b0 <? 128)%N then option_map (cons b0) (decode_utf8 r0)
      else if ((194 <=? b0) && (b0 <=? 223))%N then
        match r0 with
        | b1 :: r1 =>
            if is_continuation b1
            then option_map (cons ((b0 - 192) * 64 + (b1 - 128))%N)
                            (decode_utf8 r1)
            else None
        | _ => None
        end
      else if ((224 <=? b0) && (b0 <=? 239))%N then
        match r0 with
        | b1 :: b2 :: r2 =>
            if is_continuation b1 && is_continuation b2
               && (negb (b0 =? 224)%N || (160 <=? b1)%N)
               && (negb (b0 =? 237)%N || (b1 <=? 159)%N)
            then option_map
                   (cons ((b0 - 224) * 4096 + (b1 - 128) * 64
                          + (b2 - 128))%N)
                   (decode_utf8 r2)
            else None
        | _ => None
        end
      else if ((240 <=? b0) && (b0 <=? 244))%N then
        match r0 with
        | b1 :: b2 :: b3 :: r3 =>
            if is_continuation b1 && is_continuation b2
               && is_continuation b3
               && (negb (b0 =? 240)%N || (144 <=? b1)%N)
               && (negb (b0 =? 244)%N || (b1 <=? 143)%N)
            then option_map
                   (cons ((b0 - 240) * 262144 + (b1 - 128) * 4096
                          + (b2 - 128) * 64 + (b3 - 128))%N)
                   (decode_utf8 r3)
            else None
        | _ => None
        end
      else None
  end.

(** Reading in text mode: [\r\n] and [\r] come back as [\n]. *)
Fixpoint universal_newlines (s : str) : str :=
  match s with
  | [] => []
  | c :: rest =>
      if (c =? 13)%N then
        10%N :: match rest with
                | c' :: rest' =>
                    if (c' =? 10)%N then universal_newlines rest'
                    else universal_newlines rest
                | [] => []
                end
      else c :: universal_newlines rest
  end.

(** Writing in text mode: every [\n] goes out as the line separator. *)
Definition write_newlines (linesep : str) (s : str) : str :=
  concat (map (fun c => if (c =? 10)%N then linesep else [c]) s).

(** ** SHA-256

    [hashlib.sha256(data).hexdigest()], on 32-bit words. *)

Definition add32 (a b : N) : N := ((a + b) mod 4294967296)%N.

Definition rotr (n x : N) : N :=
  N.lor (N.shiftr x n) (N.shiftl x (32 - n) mod 4294967296)%N.

Definition ch (x y z : N) : N :=
  N.lxor (N.land x y) (N.land (N.lxor x 4294967295) z).

Definition maj (x y z : N) : N :=
  N.lxor (N.lxor (N.land x y) (N.land x z)) (N.land y z).

Definition big_sigma0 (x : N) : N :=
  N.lxor (N.lxor (rotr 2 x) (rotr 13 x)) (rotr 22 x).

Definition big_sigma1 (x : N) : N :=
  N.lxor (N.lxor (rotr 6 x) (rotr 11 x)) (rotr 25 x).

Definition small_sigma0 (x : N) : N :=
  N.lxor (N.lxor (rotr 7 x) (rotr 18 x)) (N.shiftr x 3).

Definition small_sigma1 (x : N) : N :=
  N.lxor (N.lxor (rotr 17 x) (rotr 19 x)) (N.shiftr x 10).

Definition sha256_k : list N :=
  [1116352408; 1899447441; 3049323471; 3921009573; 961987163; 1508970993;
   2453635748; 2870763221; 3624381080; 310598401; 607225278; 1426881987;
   1925078388; 2162078206; 2614888103; 3248222580; 3835390401; 4022224774;
   264347078; 604807628; 770255983; 1249150122; 1555081692; 1996064986;
   2554220882; 2821834349; 2952996808; 3210313671; 3336571891; 3584528711;
   113926993; 338241895; 666307205; 773529912; 1294757372; 1396182291;
   1695183700; 1986661051; 2177026350; 2456956037; 2730485921; 2820302411;
   3259730800; 3345764771; 3516065817; 3600352804; 4094571909; 275423344;
   430227734; 506948616; 659060556; 883997877; 958139571; 1322822218;
   1537002063; 1747873779; 1955562222; 2024104815; 2227730452; 2361852424;
   2428436474; 2756734187; 3204031479; 3329325298]%N.

Definition sha256_init : list N :=
  [1779033703; 3144134277; 1013904242; 2773480762;
   1359893119; 2600822924; 528734635; 1541459225]%N.

(** The message followed by [0x80], zeros, and its length in bits on eight
    bytes: a whole number of 64-byte blocks. *)
Definition be64 (n : N) : bytes :=
  map (fun i => (n / 256 ^ i mod 256)%N) [7; 6; 5; 4; 3; 2; 1; 0]%N.

Definition sha256_pad (data : bytes) : bytes :=
  let len := length data in
  data ++ [128%N]
  ++ repeat 0%N ((64 - (len + 9) mod 64) mod 64)%nat
  ++ be64 (8 * N.of_nat len).

(** The first [n] big-endian words of a block. *)
Fixpoint be_words (n : nat) (bs : bytes) : list N :=
  match n with
  | O => []
  | S n' =>
      match bs with
      | b0 :: b1 :: b2 :: b3 :: rest =>
          (b0 * 16777216 + b1 * 65536 + b2 * 256 + b3)%N :: be_words n' rest
      | _ => []
      end
  end.

(** The schedule, latest word first: [n] more words after those given. *)
Fixpoint sha256_schedule (n : nat) (ws : list N) : list N :=
  match n with
  | O => ws
  | S n' =>
      sha256_schedule n'
        (add32 (add32 (small_sigma1 (nth 1 ws 0%N)) (nth 6 ws 0%N))
               (add32 (small_sigma0 (nth 14 ws 0%N)) (nth 15 ws 0%N))
         :: ws)
  end.

Definition sha256_round (st : list N) (kw : N * N) : list N :=
  match st with
  | [a; b; c; d; e; f; g; h] =>
      let t1 :=
        add32 (add32 (add32 h (big_sigma1 e)) (add32 (ch e f g) (fst kw)))
              (snd kw) in
      let t2 := add32 (big_sigma0 a) (maj a b c) in
      [add32 t1 t2; a; b; c; add32 d t1; e; f; g]
  | _ => st
  end.

Definition sha256_block (st : list N) (block : bytes) : list N :=
  let ws := rev (sha256_schedule 48 (rev (be_words 16 block))) in
  zip_with add32 st (foldl sha256_round st (zip sha256_k ws)).

Fixpoint sha256_blocks (n : nat) (st : list N) (data : bytes) : list N :=
  match n with
  | O => st
  | S n' => sha256_blocks n' (sha256_block st (take 64 data)) (drop 64 data)
  end.

Definition sha256 (data : bytes) : list N :=
  let padded := sha256_pad data in
  sha256_blocks (length padded / 64) sha256_init padded.

Definition sha256_hexdigest (data : bytes) : str :=
  concat (map (fun w => hex4 (w / 65536) ++ hex4 (w mod 65536))%N
              (sha256 data)).

(** ** JSON text

    [json.dumps(v, sort_keys=True, separators=(',', ':'))]: no white space,
    the keys of an object in the order of [sorted], every character outside
    printable ASCII escaped, so that the text is ASCII. *)

Definition json_char (c : N) : str :=
  (if c =? 34 then [92; 34]
   else if c =? 92 then [92; 92]
   else if c =? 10 then [92; 110]
   else if c =? 13 then [92; 114]
   else if c =? 9 then [92; 116]
   else if c =? 12 then [92; 102]
   else if c =? 8 then [92; 98]
   else if (32 <=? c) && (c <=? 126) then [c]
   else if c <? 65536 then [92; 117] ++ hex4 c
   else
     [92; 117] ++ hex4 (55296 + (c - 65536) / 1024)
     ++ [92; 117] ++ hex4 (56320 + (c - 65536) mod 1024))%N.

Definition json_string (s : str) : str :=
  [34%N] ++ concat (map json_char s) ++ [34%N].

Definition json_float (f : float) : str :=
  match f with
  | FNan => utf8 "NaN"
  | FInf neg => if neg then utf8 "-Infinity" else utf8 "Infinity"
  | _ => float_repr f
  end.

(** An [int] is written in decimal; the interpreter refuses a conversion
    that needs more than [max_digits] digits ([sys.get_int_max_str_digits()],
    4300 unless changed; 0 switches the limit off). *)
Definition int_digits_error (max_digits : N) : exn :=
  Exn ValueError
    (utf8 "Exceeds the limit (" ++ str_of_int (Z.of_N max_digits)
     ++ utf8 " digits) for integer string conversion; use sys.set_int_max_str_digits() to increase the limit").

Definition json_int (max_digits : N) (z : Z) : result str :=
  if (0 <? max_digits)%N && (10 ^ Z.of_N max_digits <=? Z.abs z)
  then Raise (int_digits_error max_digits)
  else Ok (str_of_int z).

Definition recursion_error : exn :=
  Exn RecursionError
    (utf8 "maximum recursion depth exceeded while encoding a JSON object").

(** [a <= b] on strings: by code point, a prefix first. *)
Fixpoint str_leb (a b : str) : bool :=
  match a, b with
  | [], _ => true
  | _ :: _, [] => false
  | x :: a', y :: b' => (x <? y)%N || ((x =? y)%N && str_leb a' b')
  end.

Definition key_le (x y : str * pyval) : Prop := str_leb x.1 y.1 = true.

#[global] Instance key_le_dec : RelDecision key_le :=
  fun x y => decide (str_leb x.1 y.1 = true).

(** The items of a dict as [sort_keys] orders them. *)
Definition sorted_items (d : gmap str pyval) : list (str * pyval) :=
  merge_sort key_le (map_to_list d).

(** The members of a container, separated by commas; they are written in
    order, and the first one that fails is the outcome. *)
Fixpoint json_join (parts : list (result str)) : result str :=
  match parts with
  | [] => Ok []
  | [p] => p
  | p :: rest =>
      match p, json_join rest with
      | Ok s, Ok r => Ok (s ++ 44%N :: r)
      | Raise e, _ | Ok _, Raise e => Raise e
      end
  end.

Definition json_wrap (l r : N) (body : result str) : result str :=
  match body with
  | Ok s => Ok ([l] ++ s ++ [r])
  | Raise e => Raise e
  end.

(** [depth] is the number of containers, one inside the other, that the
    encoder can still enter before the interpreter's recursion limit stops
    it. *)
Fixpoint json_encode (max_digits : N) (depth : nat) (v : pyval)
    : result str :=
  match v with
  | PNone => Ok (utf8 "null")
  | PBool b => Ok (if b then utf8 "true" else utf8 "false")
  | PInt z => json_int max_digits z
  | PFloat f => Ok (json_float f)
  | PStr s => Ok (json_string s)
  | PList l =>
      match depth with
      | O => Raise recursion_error
      | S depth' =>
          json_wrap 91 93 (json_join (map (json_encode max_digits depth') l))
      end
  | PDict d =>
      match depth with
      | O => Raise recursion_error
      | S depth' =>
          json_wrap 123 125
            (json_join
               (map (fun kv : str * pyval =>
                       match json_encode max_digits depth' kv.2 with
                       | Ok s => Ok (json_string kv.1 ++ 58%N :: s)
                       | Raise e => Raise e
                       end)
                    (sorted_items d)))
      end
  end.

(** ** Configuration

    Modelled from the spec: the classes [AccountConfig], [ProviderConfig]
    and [AppConfig] of [utils/config.py], which the script imports and which
    is not among the sources at hand.  Accounts and providers are read-only
    records with the fields the spec lists; the methods the script calls on
    them ([needs_waf_cookies()], [needs_manual_check_in()],
    [get_display_name(index)], [get_provider(name)]) read these records and
    do nothing else. *)

Record ProviderConfig := {
  domain : str;
  login_path : str;
  user_info_path : str;
  sign_in_path : str;
  api_user_key : str;
  needs_waf_cookies : bool;
  needs_manual_check_in : bool
}.

Record AccountConfig := {
  provider : str;
  cookies : pyval;
  api_user : str;
  get_display_name : nat -> str
}.

Record AppConfig := { providers : gmap str ProviderConfig }.

Definition get_provider (c : AppConfig) (name : str) : option ProviderConfig :=
  providers c !! name.

(** ** Effects

    What a run does to the outside is recorded as a trace of events.  A
    printed line keeps the shape of its f-string: literal text and the
    values put into it. *)

Inductive piece :=
| Lit (s : string)
| Str (s : str)
| Num (z : Z)
| Val (v : pyval)
| Err (e : exn)
| Names (l : list str).

Inductive event :=
| Print (line : list piece)
| PlaywrightStart
| PlaywrightStop
| TempDirCreate
| TempDirCleanup
| Launch
| NewPage
| Goto (url : str)
| WaitForFunction
| WaitForTimeout
| ContextCookies
| ContextClose
| ClientNew
| ClientClose
| Get (url : str) (headers : gmap str str) (jar : dict)
| Post (url : str) (headers : gmap str str) (jar : dict)
| WebhookPost (url : str) (content : str)
| FileRead
| FileWrite (content : str).

(** The state a run threads: the trace so far and the bytes of
    [balance_hash.txt], if the file exists. *)
Record state := State {
  trace : list event;
  hash_file : option bytes
}.

Definition M (A : Type) : Type := state -> result A * state.

Definition ret {A} (a : A) : M A := fun s => (Ok a, s).

Definition bind {A B} (m : M A) (k : A -> M B) : M B :=
  fun s =>
    match m s with
    | (Ok a, s') => k a s'
    | (Raise e, s') => (Raise e, s')
    end.

Notation "x <- m ;; k" := (bind m (fun x => k))
  (at level 100, m at next level, right associativity,
   format "'[v' x  <-  m  ;; '/' k ']'").
Notation "m ;;; k" := (bind m (fun _ => k))
  (at level 100, right associativity, format "'[v' m  ;;; '/' k ']'").

Definition lift {A} (r : result A) : M A := fun s => (r, s).

Definition emit (ev : event) : M unit :=
  fun s => (Ok tt, State (trace s ++ [ev]) (hash_file s)).

Definition print (line : list piece) : M unit := emit (Print line).

(** A call to a collaborator: the call is recorded, its outcome is the
    outcome the world gives. *)
Definition call {A} (ev : event) (r : result A) : M A := emit ev ;;; lift r.

(** [try: m except Exception as e: h e]. *)
Definition try_except {A} (m : M A) (h : exn -> M A) : M A :=
  fun s =>
    match m s with
    | (Ok a, s') => (Ok a, s')
    | (Raise e, s') => h e s'
    end.

(** [try: m except C as e: h e] for the exceptions [catches] selects. *)
Definition try_except_if {A} (catches : exn -> bool) (m : M A)
    (h : exn -> M A) : M A :=
  fun s =>
    match m s with
    | (Ok a, s') => (Ok a, s')
    | (Raise e, s') => if catches e then h e s' else (Raise e, s')
    end.

(** [try: m finally: f], also the exit of a [with] block. *)
Definition finally {A} (m : M A) (f : M unit) : M A :=
  fun s =>
    match m s with
    | (r, s') =>
        match f s' with
        | (Ok _, s'') => (r, s'')
        | (Raise e, s'') => (Raise e, s'')
        end
    end.

(** ** The world

    The outcomes of everything the script asks of its collaborators. *)

Record Response := {
  status_code : Z;
  json : result pyval;
  text : str
}.

(** One browser session, call by call. *)
Record Browser := {
  playwright_start : result unit;
  temp_dir : result unit;
  launch_persistent_context : result unit;
  new_page : result unit;
  goto : result unit;
  wait_for_function : result unit;
  wait_for_timeout : result unit;
  context_cookies : result (list dict);
  context_close : result unit
}.

Record World := {
  (** the name [true], free in [get_waf_cookies_with_playwright]: the
      module neither defines nor imports it, so its value is whatever the
      run time resolves it to; under the module as written that is a
      [NameError] *)
  global_true : result pyval;
  browser : str -> Browser;
  new_client : result unit;
  client_get : str -> gmap str str -> dict -> result Response;
  client_post : str -> gmap str str -> dict -> result Response;
  str_lower : str -> str;
  (** [os.linesep] *)
  os_linesep : str;
  (** [sys.get_int_max_str_digits()]: 0, or at least 640 *)
  int_max_str_digits : N;
  (** how many containers deep the JSON encoder can go before the
      recursion limit of the interpreter stops it *)
  json_depth : nat;
  open_read : result unit;
  open_write : result unit;
  getenv_webhook : option str;
  requests_post : str -> str -> result Z;
  now : str;
  load_from_env : result AppConfig;
  load_accounts_config : result (option (list AccountConfig))
}.

(** The lookup of [true] when nothing binds the name. *)
Definition name_error_true : exn :=
  Exn NameError (utf8 "name 'true' is not defined").

(** ** The script, function by function *)

Definition quote : str := [34%N].

(** *** Balance digest helpers *)

(** What reading [balance_hash.txt] as UTF-8 text gives.  The message of a
    decoding error names the offending byte; nothing in the script reads
    it, and it is left empty here. *)
Definition read_text (data : bytes) : result str :=
  match decode_utf8 data with
  | Some content => Ok (universal_newlines content)
  | None => Raise (Exn UnicodeDecodeError [])
  end.

Definition load_balance_hash (w : World) : M (option str) :=
  try_except
    (fun s =>
       match hash_file s with
       | Some data =>
           (call FileRead (open_read w) ;;;
            content <- lift (read_text data) ;;
            ret (Some (strip content))) s
       | None => ret None s
       end)
    (fun _ => ret None).

Definition write_file (data : bytes) : M unit :=
  fun s => (Ok tt, State (trace s) (Some data)).

(** Opening for writing empties the file; the text is encoded when it is
    written, and the bytes are in the file when the [with] block is left.
    A device that fails between the two is not modelled. *)
Definition save_balance_hash (w : World) (balance_hash : str) : M unit :=
  try_except
    (call (FileWrite balance_hash) (open_write w) ;;;
     write_file [] ;;;
     data <- lift (encode_utf8 (write_newlines (os_linesep w) balance_hash)) ;;
     write_file data)
    (fun e => print [Lit "Warning: Failed to save balance hash: "; Err e]).

(** [balances] maps an account name to a dict with a ['quota'] entry; the
    digest is the first 16 hexadecimal digits of the SHA-256 of the compact
    JSON text of name to quota with sorted keys. *)
Definition generate_balance_hash (w : World) (balances : option (gmap str dict))
    : result str :=
  let simple_balances : result dict :=
    match balances with
    | None => Ok ∅
    | Some b =>
        if decide (map_Forall (fun _ v => is_Some (v !! utf8 "quota")) b)
        then Ok (omap (fun v : dict => v !! utf8 "quota") b)
        else Raise (Exn KeyError (utf8 "'quota'"))
    end in
  match simple_balances with
  | Ok d =>
      match json_encode (int_max_str_digits w) (json_depth w) (PDict d) with
      | Ok balance_json =>
          match encode_utf8 balance_json with
          | Ok data => Ok (take 16 (sha256_hexdigest data))
          | Raise e => Raise e
          end
      | Raise e => Raise e
      end
  | Raise e => Raise e
  end.

(** *** Cookies *)

Definition add_cookie (cookies_dict : dict) (cookie : str) : dict :=
  if str_contains (utf8 "=") cookie then
    match split_once 61 (strip cookie) with
    | (key, Some value) => <[key := PStr value]> cookies_dict
    | (_, None) => cookies_dict
    end
  else cookies_dict.

Definition parse_cookies (cookies_data : pyval) : dict :=
  match cookies_data with
  | PDict d => d
  | PStr s => foldl add_cookie ∅ (split_on 59 s)
  | _ => ∅
  end.

(** [d.update(new)], entry by entry; [{**a, **b}] builds a fresh dict from
    the entries of [a] and then those of [b]. *)
Definition dict_update (d new : dict) : dict :=
  map_fold (fun k v acc => <[k := v]> acc) d new.

Definition dict_unpack2 (a b : dict) : dict :=
  dict_update (dict_update ∅ a) b.

(** *** WAF cookies through the browser *)

Definition required : list str :=
  [utf8 "acw_tc"; utf8 "cdn_sec_tc"; utf8 "acw_sc__v2"].

Definition keep_waf_cookie (waf_cookies : dict) (cookie : dict) : dict :=
  let name := default PNone (cookie !! utf8 "name") in
  let value := default PNone (cookie !! utf8 "value") in
  match name with
  | PStr n =>
      if bool_decide (n ∈ required) && py_truthy value
      then <[n := value]> waf_cookies
      else waf_cookies
  | _ => waf_cookies
  end.

Definition missing_from (waf_cookies : dict) : list str :=
  filter (fun c => waf_cookies !! c = None) required.

(** The [try] statement of [get_waf_cookies_with_playwright], from the page
    visit to the three [return]s. *)
Definition waf_page_visit (br : Browser) (account_name login_url : str)
    : M (option dict) :=
  try_except
    (print [Lit "[PROCESSING] "; Str account_name;
            Lit ": Access login page to get initial cookies..."] ;;;
     call (Goto login_url) (goto br) ;;;
     try_except (call WaitForFunction (wait_for_function br))
                (fun _ => call WaitForTimeout (wait_for_timeout br)) ;;;
     cookies <- call ContextCookies (context_cookies br) ;;
     let waf_cookies := foldl keep_waf_cookie ∅ cookies in
     print [Lit "[INFO] "; Str account_name; Lit ": Got ";
            Num (Z.of_nat (size waf_cookies)); Lit " WAF cookies"] ;;;
     let missing := missing_from waf_cookies in
     match missing with
     | _ :: _ =>
         print [Lit "[FAILED] "; Str account_name;
                Lit ": Missing WAF cookies: "; Names missing] ;;;
         call ContextClose (context_close br) ;;;
         ret None
     | [] =>
         print [Lit "[SUCCESS] "; Str account_name;
                Lit ": Successfully got all WAF cookies"] ;;;
         call ContextClose (context_close br) ;;;
         ret (Some waf_cookies)
     end)
    (fun e =>
       print [Lit "[FAILED] "; Str account_name;
              Lit ": Error occurred while getting WAF cookies: "; Err e] ;;;
       call ContextClose (context_close br) ;;;
       ret None).

Definition get_waf_cookies_with_playwright (w : World)
    (account_name login_url : str) : M (option dict) :=
  let br := browser w login_url in
  print [Lit "[PROCESSING] "; Str account_name;
         Lit ": Starting browser to get WAF cookies..."] ;;;
  call PlaywrightStart (playwright_start br) ;;;
  finally
    (call TempDirCreate (temp_dir br) ;;;
     finally
       (_ <- lift (global_true w) ;;
        call Launch (launch_persistent_context br) ;;;
        call NewPage (new_page br) ;;;
        waf_page_visit br account_name login_url)
       (emit TempDirCleanup))
    (emit PlaywrightStop).

(** *** User information and check-in *)

(** The dict [get_user_info] returns has one of two shapes:
    [{'success': True, 'quota', 'used_quota', 'display'}] or
    [{'success': False, 'error'}]. *)
Inductive BalanceInfo :=
| Balance (quota used_quota : float) (display : str)
| Failure (error : str).

Definition info_success (info : BalanceInfo) : bool :=
  match info with
  | Balance _ _ _ => true
  | Failure _ => false
  end.

(** [round(v / 500000, 2)]. *)
Definition normalize (v : pyval) : result float :=
  match py_truediv v 500000 with
  | Ok f => Ok (py_round2 f)
  | Raise e => Raise e
  end.

Definition balance_line (quota used_quota : float) : str :=
  utf8 "💰 当前余额: $" ++ float_repr quota
  ++ utf8 "，已使用: $" ++ float_repr used_quota.

Definition balance_unavailable : str := utf8 "💰 当前余额信息暂不可用".

(** The test of the [elif]:
    [data.get('status') in ('ok', 'success') or data.get('code') == 0]. *)
Definition is_agentrouter_format (data : pyval) : result bool :=
  match py_get data (utf8 "status") PNone with
  | Raise e => Raise e
  | Ok status =>
      if py_eq_str status (utf8 "ok") || py_eq_str status (utf8 "success")
      then Ok true
      else match py_get data (utf8 "code") PNone with
           | Raise e => Raise e
           | Ok code => Ok (py_eq_int code 0)
           end
  end.

(** [f'获取用户信息失败: HTTP {response.status_code}'] *)
Definition http_failure_text (status : Z) : str :=
  utf8 "获取用户信息失败: HTTP " ++ str_of_int status.

(** [f'获取用户信息异常: {str(e)[:50]}...'] *)
Definition exception_text (e : exn) : str :=
  utf8 "获取用户信息异常: " ++ take 50 (exn_msg e) ++ utf8 "...".

Definition get_user_info (w : World) (jar : dict) (headers : gmap str str)
    (user_info_url : str) : M BalanceInfo :=
  try_except
    (response <- call (Get user_info_url headers jar)
                      (client_get w user_info_url headers jar) ;;
     let http_failure :=
       ret (Failure (http_failure_text (status_code response))) in
     if status_code response =? 200 then
       data <- lift (json response) ;;
       success <- lift (py_get data (utf8 "success") PNone) ;;
       if py_truthy success then
         user_data <- lift (py_get data (utf8 "data") (PDict ∅)) ;;
         raw_quota <- lift (py_get user_data (utf8 "quota") (PInt 0)) ;;
         quota <- lift (normalize raw_quota) ;;
         raw_used <- lift (py_get user_data (utf8 "used_quota") (PInt 0)) ;;
         used_quota <- lift (normalize raw_used) ;;
         ret (Balance quota used_quota (balance_line quota used_quota))
       else
         agentrouter <- lift (is_agentrouter_format data) ;;
         if agentrouter then
           credit <- lift (py_get data (utf8 "credit") (PInt 0)) ;;
           quota <- lift (normalize credit) ;;
           usage <- lift (py_get data (utf8 "usage") (PInt 0)) ;;
           used_quota <- lift (normalize usage) ;;
           let msg :=
             if float_truthy quota || float_truthy used_quota
             then balance_line quota used_quota
             else balance_unavailable in
           ret (Balance quota used_quota msg)
         else http_failure
     else http_failure)
    (fun e => ret (Failure (exception_text e))).

Definition prepare_cookies (w : World) (account_name : str)
    (provider_config : ProviderConfig) (user_cookies : dict)
    : M (option dict) :=
  if needs_waf_cookies provider_config then
    let login_url := domain provider_config ++ login_path provider_config in
    waf_cookies <- get_waf_cookies_with_playwright w account_name login_url ;;
    match waf_cookies with
    | None =>
        print [Lit "[FAILED] "; Str account_name;
               Lit ": Unable to get WAF cookies"] ;;;
        ret None
    | Some waf =>
        if bool_decide (waf = ∅) then
          print [Lit "[FAILED] "; Str account_name;
                 Lit ": Unable to get WAF cookies"] ;;;
          ret None
        else ret (Some (dict_unpack2 waf user_cookies))
    end
  else
    print [Lit "[INFO] "; Str account_name;
           Lit ": Bypass WAF not required, using user cookies directly"] ;;;
    ret (Some (dict_unpack2 ∅ user_cookies)).

Definition checkin_success (account_name : str) : M bool :=
  print [Lit "[SUCCESS] "; Str account_name; Lit ": 签到成功！"] ;;; ret true.

(** [headers.copy()] updated with the two check-in headers. *)
Definition with_checkin_headers (headers : gmap str str) : gmap str str :=
  <[utf8 "X-Requested-With" := utf8 "XMLHttpRequest"]>
    (<[utf8 "Content-Type" := utf8 "application/json"]> headers).

Definition sign_in_url_of (provider_config : ProviderConfig) : str :=
  domain provider_config ++ sign_in_path provider_config.

(** What [execute_check_in] does with the response: lines 187 to 206. *)
Definition classify_check_in (w : World) (account_name : str)
    (response : Response) : M bool :=
  print [Lit "[RESPONSE] "; Str account_name; Lit ": Response status code ";
         Num (status_code response)] ;;;
  if status_code response =? 200 then
    try_except_if is_json_decode_error
      (result <- lift (json response) ;;
       ret_field <- lift (py_get result (utf8 "ret") PNone) ;;
       if py_eq_int ret_field 1 then checkin_success account_name
       else
         code <- lift (py_get result (utf8 "code") PNone) ;;
         if py_eq_int code 0 then checkin_success account_name
         else
           success <- lift (py_get result (utf8 "success") PNone) ;;
           if py_truthy success then checkin_success account_name
           else
             msg <- lift (py_get result (utf8 "msg")
                                 (PStr (utf8 "Unknown error"))) ;;
             print [Lit "[FAILED] "; Str account_name; Lit ": 签到失败 - ";
                    Val msg] ;;;
             ret false)
      (fun _ =>
         if str_contains (utf8 "success") (str_lower w (text response))
         then checkin_success account_name
         else
           print [Lit "[FAILED] "; Str account_name;
                  Lit ": 签到失败 - 返回格式无效"] ;;;
           ret false)
  else
    print [Lit "[FAILED] "; Str account_name; Lit ": 签到失败 - HTTP ";
           Num (status_code response)] ;;;
    ret false.

Definition execute_check_in (w : World) (jar : dict) (account_name : str)
    (provider_config : ProviderConfig) (headers : gmap str str) : M bool :=
  print [Lit "[NETWORK] "; Str account_name; Lit ": Executing check-in"] ;;;
  let checkin_headers := with_checkin_headers headers in
  let sign_in_url := sign_in_url_of provider_config in
  response <- call (Post sign_in_url checkin_headers jar)
                   (client_post w sign_in_url checkin_headers jar) ;;
  classify_check_in w account_name response.

(** *** One account *)

(** The [headers] dict literal of [check_in_account]. *)
Definition session_headers (provider : ProviderConfig)
    (account : AccountConfig) : gmap str str :=
  <[api_user_key provider := api_user account]>
    (<[utf8 "Accept" := utf8 "application/json, text/plain, */*"]>
       (<[utf8 "User-Agent" := utf8 "Mozilla/5.0"]> ∅)).

Definition info_url_of (provider : ProviderConfig) : str :=
  domain provider ++ user_info_path provider.

(** The [try] statement of [check_in_account], with its [except] and
    [finally] clauses: everything after the client has been created. *)
Definition check_in_session (w : World) (name : str) (account : AccountConfig)
    (provider : ProviderConfig) (all_cookies : dict)
    : M (bool * option BalanceInfo) :=
  finally
    (try_except
       (let jar := dict_update ∅ all_cookies in
        let headers := session_headers provider account in
        let info_url := info_url_of provider in
        info <- get_user_info w jar headers info_url ;;
        (match info with
         | Balance _ _ display => print [Str display]
         | Failure _ =>
             print [Lit "[INFO] "; Str name; Lit ": 未能获取余额信息"]
         end) ;;;
        if needs_manual_check_in provider then
          success <- execute_check_in w jar name provider headers ;;
          ret (success, Some info)
        else
          print [Lit "[INFO] "; Str name; Lit ": 自动签到完成"] ;;;
          ret (true, Some info))
       (fun e =>
          print [Lit "[FAILED] "; Str name; Lit ": 签到过程异常 - "; Err e] ;;;
          ret (false, None)))
    (emit ClientClose).

Definition check_in_account (w : World) (account : AccountConfig) (idx : nat)
    (app_config : AppConfig) : M (bool * option BalanceInfo) :=
  let name := get_display_name account idx in
  let provider_id := provider account in
  print [Lit "
[PROCESSING] 开始处理 "; Str name] ;;;
  match get_provider app_config provider_id with
  | None =>
      print [Lit "[FAILED] "; Str name; Lit ": 未找到 provider 配置 ";
             Str provider_id] ;;;
      ret (false, None)
  | Some provider =>
      print [Lit "[INFO] "; Str name; Lit ": Using provider "; Str quote;
             Str provider_id; Str quote; Lit " (";
             Str (domain provider); Lit ")"] ;;;
      let cookies := parse_cookies (cookies account) in
      if bool_decide (cookies = ∅) then
        print [Lit "[FAILED] "; Str name; Lit ": cookies 配置无效"] ;;;
        ret (false, None)
      else
        all_cookies <- prepare_cookies w name provider cookies ;;
        match all_cookies with
        | None => ret (false, None)
        | Some all_cookies =>
            if bool_decide (all_cookies = ∅) then ret (false, None)
            else
              call ClientNew (new_client w) ;;;
              check_in_session w name account provider all_cookies
        end
  end.

(** *** Notification and entry point *)

(** A row of the summary: [{"name", "balance", "used"}]. *)
Record Row := { row_name : str; row_balance : float; row_used : float }.

Definition join_lines (lines : list str) : str :=
  match lines with
  | [] => []
  | l :: ls => l ++ concat (map (fun x => 10%N :: x) ls)
  end.

Definition send_dingtalk_message (w : World) (accounts_info : list Row)
    (success fail total : Z) : M unit :=
  match getenv_webhook w with
  | None | Some [] =>
      print [Lit "***DingTalk***: 未配置 DINGDING_WEBHOOK，跳过推送"]
  | Some webhook =>
      let msg_lines :=
        [utf8 "📢 AnyRouter / AgentRouter 自动签到通知";
         utf8 "🕒 执行时间：" ++ now w;
         [];
         utf8 "💰【账户余额信息】"]
        ++ map (fun acc =>
                  utf8 "🔹 " ++ row_name acc ++ utf8 "：当前余额 $"
                  ++ float_repr (row_balance acc) ++ utf8 "，已使用 $"
                  ++ float_repr (row_used acc)) accounts_info
        ++ [[];
            utf8 "📊【统计结果】";
            utf8 "✅ 成功：" ++ str_of_int success ++ utf8 "/" ++ str_of_int total;
            utf8 "❌ 失败：" ++ str_of_int fail ++ utf8 "/" ++ str_of_int total;
            if fail =? 0 then utf8 "🎉 所有账户签到成功！"
            else utf8 "⚠️ 部分账户签到失败，请检查日志。"] in
      let content := join_lines msg_lines in
      try_except
        (status <- call (WebhookPost webhook content)
                        (requests_post w webhook content) ;;
         if status =? 200 then print [Lit "***DingTalk***: ✅ 推送成功"]
         else print [Lit "***DingTalk***: ❌ 推送失败 "; Num status])
        (fun e => print [Lit "***DingTalk***: ❌ 推送异常: "; Err e])
  end.

(** The [for] loop of [main]: accounts in order, one at a time. *)
Fixpoint check_in_all (w : World) (app_config : AppConfig)
    (accounts : list AccountConfig) (i : nat) (success : Z)
    (balances : list Row) : M (Z * list Row) :=
  match accounts with
  | [] => ret (success, balances)
  | account :: rest =>
      outcome <- check_in_account w account i app_config ;;
      let '(ok, info) := outcome in
      let success := if ok : bool then success + 1 else success in
      let balances :=
        match info with
        | Some (Balance quota used_quota _) =>
            balances ++ [{| row_name := get_display_name account i;
                            row_balance := quota;
                            row_used := used_quota |}]
        | _ => balances
        end in
      check_in_all w app_config rest (S i) success balances
  end.

(** [main] ends in [sys.exit(code)]; the value of the model is that code. *)
Definition main (w : World) : M Z :=
  print [Lit "[SYSTEM] AnyRouter.top 多账号自动签到脚本启动"] ;;;
  print [Lit "[TIME] 当前执行时间: "; Str (now w)] ;;;
  app_config <- lift (load_from_env w) ;;
  accounts <- lift (load_accounts_config w) ;;
  match accounts with
  | None | Some [] =>
      print [Lit "[FAILED] 无法加载账户配置，程序退出"] ;;;
      ret 1
  | Some accounts =>
      let total := Z.of_nat (length accounts) in
      tally <- check_in_all w app_config accounts 0 0 [] ;;
      let '(success, balances) := tally in
      let fail := total - success in
      send_dingtalk_message w balances success fail total ;;;
      ret (if 0 <? success then 0 else 1)
  end.

(** [run_main]: the exit code of the process. *)
Definition run_main (w : World) : state -> Z * state :=
  fun s =>
    match main w s with
    | (Ok code, s') => (code, s')
    | (Raise e, s') =>
        (1, State (trace s' ++ [Print [Lit "
[FAILED] 执行出错: "; Err e]]) (hash_file s'))
    end.

(** ** Reading a trace *)

(** The cookie jar a request was sent with. *)
Definition request_jar (ev : event) : option dict :=
  match ev with
  | Get _ _ jar | Post _ _ jar => Some jar
  | _ => None
  end.

Definition is_print (ev : event) : bool :=
  match ev with
  | Print _ => true
  | _ => false
  end.

Definition is_file_event (ev : event) : bool :=
  match ev with
  | FileRead | FileWrite _ => true
  | _ => false
  end.

(** Events that are neither a request nor an access to the state file. *)
Definition quiet (ev : event) : Prop :=
  request_jar ev = None /\ is_file_event ev = false.

Definition has_waf_cookies (jar : dict) : Prop :=
  forall c, c ∈ required -> is_Some (jar !! c).

(** [appends P Q m]: from any state, [m] leaves [balance_hash.txt] alone
    and adds to the trace only events that satisfy [P]; when it returns a
    value, the value satisfies [Q]. *)
Definition appends {A} (P : event -> Prop) (Q : A -> Prop) (m : M A) : Prop :=
  forall t h, exists r evs,
    m (State t h) = (r, State (t ++ evs) h)
    /\ Forall P evs
    /\ forall a, r = Ok a -> Q a.

(** [ignores_file m]: what [m] returns and adds to the trace is the same
    whatever [balance_hash.txt] holds, and [m] leaves the file as it is. *)
Definition ignores_file {A} (m : M A) : Prop :=
  forall t h h', exists r t',
    m (State t h) = (r, State t' h) /\ m (State t h') = (r, State t' h').

(** ** Sample data *)

Definition anyrouter : ProviderConfig := {|
  domain := utf8 "https://anyrouter.top";
  login_path := utf8 "/login";
  user_info_path := utf8 "/api/user/self";
  sign_in_path := utf8 "/api/user/sign_in";
  api_user_key := utf8 "new-api-user";
  needs_waf_cookies := true;
  needs_manual_check_in := true
|}.

Definition agentrouter : ProviderConfig := {|
  domain := utf8 "https://agentrouter.org";
  login_path := utf8 "/login";
  user_info_path := utf8 "/api/user/self";
  sign_in_path := utf8 "/api/user/sign_in";
  api_user_key := utf8 "new-api-user";
  needs_waf_cookies := false;
  needs_manual_check_in := true
|}.

Definition sample_config : AppConfig :=
  {| providers := {[ utf8 "anyrouter" := anyrouter;
                     utf8 "agentrouter" := agentrouter ]} |}.

Definition account_a : AccountConfig := {|
  provider := utf8 "anyrouter";
  cookies := PStr (utf8 "session=xyz");
  api_user := utf8 "42";
  get_display_name := fun _ => utf8 "A"
|}.

Definition account_b : AccountConfig := {|
  provider := utf8 "agentrouter";
  cookies := PDict {[ utf8 "session" := PStr (utf8 "abc") ]};
  api_user := utf8 "43";
  get_display_name := fun _ => utf8 "B"
|}.

(** An account whose cookie payload is [None]. *)
Definition account_none : AccountConfig := {|
  provider := utf8 "agentrouter";
  cookies := PNone;
  api_user := utf8 "44";
  get_display_name := fun _ => utf8 "C"
|}.

Definition browser_cookie (name value : string) : dict :=
  {[ utf8 "name" := PStr (utf8 name); utf8 "value" := PStr (utf8 value) ]}.

(** A browser in which every step works and the page sets [cs]. *)
Definition browser_with (cs : list dict) : Browser := {|
  playwright_start := Ok tt;
  temp_dir := Ok tt;
  launch_persistent_context := Ok tt;
  new_page := Ok tt;
  goto := Ok tt;
  wait_for_function := Ok tt;
  wait_for_timeout := Ok tt;
  context_cookies := Ok cs;
  context_close := Ok tt
|}.

Definition three_waf_cookies : list dict :=
  [browser_cookie "acw_tc" "1"; browser_cookie "cdn_sec_tc" "2";
   browser_cookie "acw_sc__v2" "3"].

Definition http_200 (body : pyval) : Response :=
  {| status_code := 200; json := Ok body; text := [] |}.

Definition http_200_text (body : string) : Response :=
  {| status_code := 200;
     json := Raise (Exn JSONDecodeError (utf8 "Expecting value"));
     text := utf8 body |}.

(** A world with the given binding of [true], page cookies, answers to the
    two requests and account list; everything else works. *)
Definition world_with (true_binding : result pyval) (cs : list dict)
    (user_info sign_in : result Response) (accounts : list AccountConfig)
    : World := {|
  global_true := true_binding;
  browser := fun _ => browser_with cs;
  new_client := Ok tt;
  client_get := fun _ _ _ => user_info;
  client_post := fun _ _ _ => sign_in;
  str_lower := ascii_lower;
  os_linesep := [10%N];
  int_max_str_digits := 4300;
  json_depth := 990;
  open_read := Ok tt;
  open_write := Ok tt;
  getenv_webhook := None;
  requests_post := fun _ _ => Ok 200;
  now := utf8 "2025-01-01 00:00:00";
  load_from_env := Ok sample_config;
  load_accounts_config := Ok (Some accounts)
|}.

Definition anyrouter_data : dict :=
  {[ utf8 "quota" := PInt 1234567; utf8 "used_quota" := PInt 2500 ]}.

Definition anyrouter_doc : dict :=
  {[ utf8 "success" := PBool true; utf8 "data" := PDict anyrouter_data ]}.

Definition anyrouter_user_info : pyval := PDict anyrouter_doc.

Definition sign_in_ret_1 : pyval := PDict {[ utf8 "ret" := PInt 1 ]}.

Definition connection_error : exn :=
  Exn OtherException (utf8 "[Errno 111] Connection refused").

(** The module as written: nothing binds [true]. *)
Definition world_as_written (accounts : list AccountConfig) : World :=
  world_with (Raise name_error_true) three_waf_cookies
             (Ok (http_200 anyrouter_user_info)) (Ok (http_200 sign_in_ret_1))
             accounts.

Definition start : state := State [] None.

(** An exception whose text has 60 characters. *)
Definition long_error : exn := Exn OtherException (repeat 120%N 60).

(** A user-info document in the first format whose quota is [10^400]. *)
Definition huge_quota_user_info : pyval :=
  PDict {[ utf8 "success" := PBool true;
           utf8 "data" := PDict {[ utf8 "quota" := PInt (10 ^ 400);
                                   utf8 "used_quota" := PInt 0 ]} ]}.

(** A document that carries both a true [success] and [status] ["ok"],
    with [credit] and [usage] zero. *)
Definition both_formats_user_info : pyval :=
  PDict {[ utf8 "success" := PBool true;
           utf8 "status" := PStr (utf8 "ok");
           utf8 "credit" := PInt 0;
           utf8 "usage" := PInt 0 ]}.

(** A document of the second format only, with [credit] and [usage] zero. *)
Definition agentrouter_zero_doc : dict :=
  {[ utf8 "status" := PStr (utf8 "ok");
     utf8 "credit" := PInt 0;
     utf8 "usage" := PInt 0 ]}.

Definition agentrouter_zero_user_info : pyval := PDict agentrouter_zero_doc.

(** A world that answers the user-info request with [user_info]. *)
Definition world_answering (user_info : result Response) : World :=
  world_with (Ok (PBool true)) three_waf_cookies user_info
             (Ok (http_200 sign_in_ret_1)) [account_b].

(** Check-in answers: [{"code": 1, "msg": "already signed"}]. *)
Definition already_signed_doc : dict :=
  {[ utf8 "code" := PInt 1; utf8 "msg" := PStr (utf8 "already signed") ]}.

(** A check-in answer whose bytes are not UTF-8, [b'\xffsuccess']:
    [response.json()] cannot decode them, [response.text] replaces the
    first. *)
Definition undecodable_error : exn :=
  Exn UnicodeDecodeError
    (utf8 "'utf-8' codec can't decode byte 0xff in position 0: invalid start byte").

Definition undecodable_success : Response :=
  {| status_code := 200;
     json := Raise undecodable_error;
     text := 65533%N :: utf8 "success" |}.

(** A world that answers the check-in request with [sign_in]. *)
Definition world_signing (sign_in : result Response) : World :=
  world_with (Ok (PBool true)) three_waf_cookies
             (Ok (http_200 anyrouter_user_info)) sign_in [account_b].

Definition two_waf_cookies : list dict :=
  [browser_cookie "acw_tc" "1"; browser_cookie "cdn_sec_tc" "2"].

(** A world in which [true] is bound and the page sets [cs]. *)
Definition world_with_cookies (cs : list dict) : World :=
  world_with (Ok (PBool true)) cs (Ok (http_200 anyrouter_user_info))
             (Ok (http_200 sign_in_ret_1)) [account_a].

(** A world in which the user-info request fails to connect. *)
Definition world_offline_balance : World :=
  world_with (Ok (PBool true)) three_waf_cookies (Raise connection_error)
             (Ok (http_200 sign_in_ret_1)) [account_b].

(** What Playwright answers to the keyword of line 80. *)
Definition unexpected_keyword : exn :=
  Exn TypeError
    (utf8 "BrowserType.launch_persistent_context() got an unexpected keyword argument 'ignorg_https_errors'").

Definition browser_rejecting_keyword (cs : list dict) : Browser := {|
  playwright_start := Ok tt;
  temp_dir := Ok tt;
  launch_persistent_context := Raise unexpected_keyword;
  new_page := Ok tt;
  goto := Ok tt;
  wait_for_function := Ok tt;
  wait_for_timeout := Ok tt;
  context_cookies := Ok cs;
  context_close := Ok tt
|}.

(** A world in which [true] is bound, and Playwright is as it is. *)
Definition world_true_bound : World := {|
  global_true := Ok (PBool true);
  browser := fun _ => browser_rejecting_keyword two_waf_cookies;
  new_client := Ok tt;
  client_get := fun _ _ _ => Ok (http_200 anyrouter_user_info);
  client_post := fun _ _ _ => Ok (http_200 sign_in_ret_1);
  str_lower := ascii_lower;
  os_linesep := [10%N];
  int_max_str_digits := 4300;
  json_depth := 990;
  open_read := Ok tt;
  open_write := Ok tt;
  getenv_webhook := None;
  requests_post := fun _ _ => Ok 200;
  now := utf8 "2025-01-01 00:00:00";
  load_from_env := Ok sample_config;
  load_accounts_config := Ok (Some [account_a])
|}.

Definition account_b_cookies : dict :=
  {[ utf8 "session" := PStr (utf8 "abc") ]}.

(** The state file as an earlier run could have left it. *)
Definition old_digest : str := utf8 "0123456789abcdef".

Definition start_with_digest : state := State [] (Some old_digest).

(** ** More sample data *)

(** The characters of [hexdigest()]: digits and the letters [a] to [f]. *)
Definition is_hex_digit (c : N) : bool :=
  ((48 <=? c) && (c <=? 57) || (97 <=? c) && (c <=? 102))%N.

(** The values [json] writes without entering a container, and the
    integers with more digits than the interpreter converts. *)
Definition is_scalar (v : pyval) : bool :=
  match v with
  | PList _ | PDict _ => false
  | _ => true
  end.

Definition exceeds_digits (max_digits : N) (v : pyval) : bool :=
  match v with
  | PInt z => (0 <? max_digits)%N && (10 ^ Z.of_N max_digits <=? Z.abs z)
  | _ => false
  end.

(** A user-info answer with another status, and one with status 200 whose
    document is of neither format. *)
Definition http_404 : Response :=
  {| status_code := 404; json := Ok (PDict ∅); text := [] |}.

Definition unauthorized_doc : dict :=
  {[ utf8 "message" := PStr (utf8 "unauthorized") ]}.

(** A document of the first format without [data], and one whose [data]
    is [null]. *)
Definition success_only_doc : dict := {[ utf8 "success" := PBool true ]}.

Definition null_data_doc : dict :=
  {[ utf8 "success" := PBool true; utf8 "data" := PNone ]}.

(** A document of the second format with small amounts. *)
Definition agentrouter_small_doc : dict :=
  {[ utf8 "code" := PInt 0; utf8 "credit" := PInt 2499;
     utf8 "usage" := PInt (-120) ]}.

(** The integers from [lo], [n] of them. *)
Definition range_from (lo : Z) (n : nat) : list Z :=
  map (fun i => lo + Z.of_nat i) (seq 0 n).

Definition normalizes_to_zero (a : Z) : bool :=
  match normalize (PInt a) with
  | Ok (FZero _) => true
  | _ => false
  end.

(** The line [check_in_account] prints about the balance, lines 240 to
    243: the display text, or the notice that there is none. *)
Definition balance_report (name : str) (info : BalanceInfo) : list piece :=
  match info with
  | Balance _ _ display => [Str display]
  | Failure _ => [Lit "[INFO] "; Str name; Lit ": 未能获取余额信息"]
  end.

(** A provider like [agentrouter] whose check-in happens with the
    user-info request. *)
Definition automatic : ProviderConfig := {|
  domain := utf8 "https://agentrouter.org";
  login_path := utf8 "/login";
  user_info_path := utf8 "/api/user/self";
  sign_in_path := utf8 "/api/user/sign_in";
  api_user_key := utf8 "new-api-user";
  needs_waf_cookies := false;
  needs_manual_check_in := false
|}.

(** A world in which the check-in request fails to connect. *)
Definition world_offline_check_in : World :=
  world_with (Ok (PBool true)) three_waf_cookies
             (Ok (http_200 anyrouter_user_info)) (Raise connection_error)
             [account_b].

(** The events of the browser session. *)
Definition is_browser_event (ev : event) : bool :=
  match ev with
  | PlaywrightStart | PlaywrightStop | TempDirCreate | TempDirCleanup
  | Launch | NewPage | Goto _ | WaitForFunction | WaitForTimeout
  | ContextCookies | ContextClose => true
  | _ => false
  end.

(** An account whose provider is not configured. *)
Definition account_unknown : AccountConfig := {|
  provider := utf8 "elsewhere";
  cookies := PStr (utf8 "session=xyz");
  api_user := utf8 "45";
  get_display_name := fun i => utf8 "Account " ++ str_of_int (Z.of_nat i + 1)
|}.

(** A world with a webhook that answers with [status]. *)
Definition world_with_webhook (status : result Z) : World := {|
  global_true := Ok (PBool true);
  browser := fun _ => browser_with three_waf_cookies;
  new_client := Ok tt;
  client_get := fun _ _ _ => Ok (http_200 anyrouter_user_info);
  client_post := fun _ _ _ => Ok (http_200 sign_in_ret_1);
  str_lower := ascii_lower;
  os_linesep := [10%N];
  int_max_str_digits := 4300;
  json_depth := 990;
  open_read := Ok tt;
  open_write := Ok tt;
  getenv_webhook := Some (utf8 "https://oapi.dingtalk.com/robot/send");
  requests_post := fun _ _ => status;
  now := utf8 "2025-01-01 00:00:00";
  load_from_env := Ok sample_config;
  load_accounts_config := Ok (Some [account_b; account_unknown])
|}.

(** A world in which no account is configured. *)
Definition world_without_accounts : World := {|
  global_true := Ok (PBool true);
  browser := fun _ => browser_with three_waf_cookies;
  new_client := Ok tt;
  client_get := fun _ _ _ => Ok (http_200 anyrouter_user_info);
  client_post := fun _ _ _ => Ok (http_200 sign_in_ret_1);
  str_lower := ascii_lower;
  os_linesep := [10%N];
  int_max_str_digits := 4300;
  json_depth := 990;
  open_read := Ok tt;
  open_write := Ok tt;
  getenv_webhook := None;
  requests_post := fun _ _ => Ok 200;
  now := utf8 "2025-01-01 00:00:00";
  load_from_env := Ok sample_config;
  load_accounts_config := Ok None
|}.


(** * Properties *)

(** ** Rules for [appends] *)

Section Appends.
Context {A : Type} (P : event -> Prop).

Lemma appends_ret (Q : A -> Prop) (a : A) : Q a -> appends P Q (ret a).
Proof.
  intros HQ t h. exists (Ok a), []. rewrite app_nil_r.
  repeat split; [constructor|]. by intros ? [= <-].
Qed.

Lemma appends_lift (Q : A -> Prop) (r : result A) :
  (forall a, r = Ok a -> Q a) -> appends P Q (lift r).
Proof.
  intros HQ t h. exists r, []. rewrite app_nil_r.
  repeat split; [constructor|done].
Qed.

Lemma appends_weaken (Q Q' : A -> Prop) (m : M A) :
  (forall a, Q a -> Q' a) -> appends P Q m -> appends P Q' m.
Proof.
  intros HQ Hm t h. destruct (Hm t h) as (r & evs & ? & ? & ?).
  exists r, evs. naive_solver.
Qed.

Lemma appends_bind {B} (Q1 : B -> Prop) (Q2 : A -> Prop) (m : M B)
    (k : B -> M A) :
  appends P Q1 m -> (forall b, Q1 b -> appends P Q2 (k b)) ->
  appends P Q2 (bind m k).
Proof.
  intros Hm Hk t h. destruct (Hm t h) as (r & evs & Hrun & Hevs & Hr).
  unfold bind. rewrite Hrun. destruct r as [b|e].
  - destruct (Hk b (Hr b eq_refl) (t ++ evs) h)
      as (r' & evs' & Hrun' & Hevs' & Hr').
    exists r', (evs ++ evs'). rewrite Hrun', app_assoc.
    repeat split; [by apply Forall_app|done].
  - exists (Raise e), evs. repeat split; [done|]. by intros ? [=].
Qed.

Lemma appends_try_except (Q : A -> Prop) (m : M A) (hd : exn -> M A) :
  appends P Q m -> (forall e, appends P Q (hd e)) ->
  appends P Q (try_except m hd).
Proof.
  intros Hm Hh t h. destruct (Hm t h) as (r & evs & Hrun & Hevs & Hr).
  unfold try_except. rewrite Hrun. destruct r as [a|e].
  - exists (Ok a), evs. done.
  - destruct (Hh e (t ++ evs) h) as (r' & evs' & Hrun' & Hevs' & Hr').
    exists r', (evs ++ evs'). rewrite Hrun', app_assoc.
    repeat split; [by apply Forall_app|done].
Qed.

Lemma appends_try_except_if (Q : A -> Prop) (c : exn -> bool) (m : M A)
    (hd : exn -> M A) :
  appends P Q m -> (forall e, appends P Q (hd e)) ->
  appends P Q (try_except_if c m hd).
Proof.
  intros Hm Hh t h. destruct (Hm t h) as (r & evs & Hrun & Hevs & Hr).
  unfold try_except_if. rewrite Hrun. destruct r as [a|e].
  - exists (Ok a), evs. done.
  - destruct (c e).
    + destruct (Hh e (t ++ evs) h) as (r' & evs' & Hrun' & Hevs' & Hr').
      exists r', (evs ++ evs'). rewrite Hrun', app_assoc.
      repeat split; [by apply Forall_app|done].
    + exists (Raise e), evs. repeat split; [done|]. by intros ? [=].
Qed.

Lemma appends_finally (Q : A -> Prop) (m : M A) (f : M unit) :
  appends P Q m -> appends P (fun _ => True) f -> appends P Q (finally m f).
Proof.
  intros Hm Hf t h. destruct (Hm t h) as (r & evs & Hrun & Hevs & Hr).
  unfold finally. rewrite Hrun.
  destruct (Hf (t ++ evs) h) as (r' & evs' & Hrun' & Hevs' & _).
  rewrite Hrun', <- app_assoc. destruct r' as [[]|e].
  - exists r, (evs ++ evs'). repeat split; [by apply Forall_app|done].
  - exists (Raise e), (evs ++ evs').
    repeat split; [by apply Forall_app|]. by intros ? [=].
Qed.
End Appends.

Lemma appends_emit (P : event -> Prop) (Q : unit -> Prop) (ev : event) :
  P ev -> Q tt -> appends P Q (emit ev).
Proof.
  intros HP HQ t h. exists (Ok tt), [ev].
  repeat split; [by repeat constructor|]. by intros [] _.
Qed.

Lemma appends_call {A} (P : event -> Prop) (Q : A -> Prop) (ev : event)
    (r : result A) :
  P ev -> (forall a, r = Ok a -> Q a) -> appends P Q (call ev r).
Proof.
  intros HP HQ. unfold call.
  eapply appends_bind; [by apply (appends_emit P (fun _ => True))|].
  intros _ _. by apply appends_lift.
Qed.

Lemma appends_print (P : event -> Prop) (Q : unit -> Prop) (line : list piece) :
  P (Print line) -> Q tt -> appends P Q (print line).
Proof. apply appends_emit. Qed.

(** ** Running the model by cases *)

(** Texts and numbers stay folded while a run is unfolded. *)
Arguments utf8 : simpl never.
Arguments str_of_int : simpl never.
Arguments http_failure_text : simpl never.
Arguments exception_text : simpl never.
Arguments balance_line : simpl never.
Arguments float_repr : simpl never.
Arguments normalize : simpl never.
Arguments py_truthy : simpl never.
Arguments py_eq_int : simpl never.
Arguments py_eq_str : simpl never.
Arguments is_agentrouter_format : simpl never.
Arguments dict_update : simpl never.
Arguments dict_unpack2 : simpl never.
Arguments parse_cookies : simpl never.
Arguments str_contains : simpl never.
Arguments with_checkin_headers : simpl never.
Arguments session_headers : simpl never.

Ltac step :=
  match goal with
  | |- context [match ?x with _ => _ end] =>
      lazymatch x with
      | context [match _ with _ => _ end] => fail
      | _ => destruct x eqn:?; simpl
      end
  end.

Ltac run :=
  unfold try_except, try_except_if, finally, bind, call, print, emit, lift,
    ret; simpl.

(** ** Dictionaries *)

Lemma dict_update_lookup (d new : dict) (k : str) :
  dict_update d new !! k =
  match new !! k with Some v => Some v | None => d !! k end.
Proof.
  unfold dict_update.
  apply (map_fold_weak_ind
           (fun (r : dict) (m : dict) =>
              r !! k = match m !! k with Some v => Some v | None => d !! k end)).
  - by rewrite lookup_empty.
  - intros i x m r Hi IH.
    destruct (decide (i = k)) as [->|Hne].
    + by rewrite !lookup_insert_eq.
    + by rewrite !lookup_insert_ne.
Qed.

Lemma dict_update_union (d new : dict) : dict_update d new = new ∪ d.
Proof.
  apply map_eq; intros k. rewrite dict_update_lookup, lookup_union.
  destruct (new !! k), (d !! k); reflexivity.
Qed.

Lemma dict_update_empty (d : dict) : dict_update ∅ d = d.
Proof. rewrite dict_update_union. apply (right_id_L ∅ (∪)). Qed.

Lemma dict_unpack2_union (a b : dict) : dict_unpack2 a b = b ∪ a.
Proof.
  unfold dict_unpack2. by rewrite dict_update_empty, dict_update_union.
Qed.

(** [{**a, **b}] has the keys of both; a key of [b] has the value of [b],
    any other key the value of [a]. *)
Lemma dict_unpack2_lookup (a b : dict) (k : str) :
  dict_unpack2 a b !! k
  = match b !! k with
    | Some v => Some v
    | None => a !! k
    end.
Proof.
  rewrite dict_unpack2_union, lookup_union.
  destruct (b !! k), (a !! k); reflexivity.
Qed.

Lemma dict_unpack2_dom (a b : dict) :
  dom (dict_unpack2 a b) = dom a ∪ dom b.
Proof. rewrite dict_unpack2_union, dom_union_L. apply (comm_L (∪)). Qed.

Lemma dict_unpack2_unique (a b all : dict) :
  (forall k, all !! k = match b !! k with
                        | Some v => Some v
                        | None => a !! k
                        end) ->
  all = dict_unpack2 a b.
Proof.
  intros H. apply map_eq; intros k. by rewrite H, dict_unpack2_lookup.
Qed.

(** C7.  [prepare_cookies] returns session cookies exactly when the WAF
    cookies are there: the non-empty mapping the browser session returned
    for a provider behind the WAF, the empty mapping for any other
    provider.  The session cookies are then [{**waf_cookies,
    **user_cookies}]: their keys are the keys of both mappings; a name the
    user supplies has the user's value, any other name its WAF value. *)
Theorem session_cookies_user_over_waf (w : World) (name : str)
    (pc : ProviderConfig) (user_cookies all_cookies : dict) (s s' : state) :
  prepare_cookies w name pc user_cookies s = (Ok (Some all_cookies), s')
  <-> exists waf_cookies,
        (if needs_waf_cookies pc
         then get_waf_cookies_with_playwright w name
                (domain pc ++ login_path pc) s
              = (Ok (Some waf_cookies), s')
              /\ waf_cookies <> ∅
         else waf_cookies = ∅
              /\ s' = State
                        (trace s
                         ++ [Print [Lit "[INFO] "; Str name;
                                    Lit ": Bypass WAF not required, using user cookies directly"]])
                        (hash_file s))
        /\ dom all_cookies = dom waf_cookies ∪ dom user_cookies
        /\ forall k,
             all_cookies !! k
             = match user_cookies !! k with
               | Some v => Some v
               | None => waf_cookies !! k
               end.
Proof.
  unfold prepare_cookies. destruct (needs_waf_cookies pc).
  - unfold bind at 1.
    destruct (get_waf_cookies_with_playwright w name
                (domain pc ++ login_path pc) s) as [[[waf|]|e] s1] eqn:Hwaf.
    + case_bool_decide as Hempty; run.
      * split; [intros ?; simplify_eq|].
        intros (waf' & [? ?] & _); simplify_eq.
      * split.
        -- intros ?; simplify_eq. exists waf. split; [done|].
           split; [apply dict_unpack2_dom|apply dict_unpack2_lookup].
        -- intros (waf' & [? ?] & _ & Hall); simplify_eq.
           by rewrite (dict_unpack2_unique waf' user_cookies all_cookies).
    + run. split; [intros ?; simplify_eq|].
      intros (waf' & [? ?] & _); simplify_eq.
    + split; [intros ?; simplify_eq|].
      intros (waf' & [? ?] & _); simplify_eq.
  - run. split.
    + intros ?; simplify_eq. exists ∅. split; [by destruct s|].
      split; [apply dict_unpack2_dom|apply dict_unpack2_lookup].
    + intros (waf' & [-> ->] & _ & Hall).
      by rewrite (dict_unpack2_unique ∅ user_cookies all_cookies).
Qed.

(** The example of the spec: three WAF cookies and one user cookie give
    four keys. *)
Example merge_three_and_one :
  dom (dict_unpack2
         {[ utf8 "acw_tc" := PStr (utf8 "1");
            utf8 "cdn_sec_tc" := PStr (utf8 "2");
            utf8 "acw_sc__v2" := PStr (utf8 "3") ]}
         {[ utf8 "session" := PStr (utf8 "xyz") ]})
  = {[ utf8 "acw_tc"; utf8 "cdn_sec_tc"; utf8 "acw_sc__v2"; utf8 "session" ]}.
Proof. vm_compute. reflexivity. Qed.

(** The same through [prepare_cookies], where the browser session returns
    the three cookies; and for a provider that is not behind the WAF, on the
    module as written. *)
Example prepare_cookies_three_and_one :
  fst (prepare_cookies (world_with_cookies three_waf_cookies) (utf8 "A")
         anyrouter {[ utf8 "session" := PStr (utf8 "xyz") ]} start)
  = Ok (Some {[ utf8 "acw_tc" := PStr (utf8 "1");
                utf8 "cdn_sec_tc" := PStr (utf8 "2");
                utf8 "acw_sc__v2" := PStr (utf8 "3");
                utf8 "session" := PStr (utf8 "xyz") ]}).
Proof. vm_compute. reflexivity. Qed.

Example prepare_cookies_without_waf :
  prepare_cookies (world_as_written [account_b]) (utf8 "B") agentrouter
    account_b_cookies start
  = (Ok (Some account_b_cookies),
     State [Print [Lit "[INFO] "; Str (utf8 "B");
                   Lit ": Bypass WAF not required, using user cookies directly"]]
           None).
Proof. vm_compute. reflexivity. Qed.

(** ** User information *)

Lemma take_50_length (s : str) : (length (take 50 s) <= 50)%nat.
Proof. rewrite length_take. lia. Qed.

Lemma exception_text_length (e : exn) :
  length (exception_text e) = (13 + length (take 50 (exn_msg e)))%nat.
Proof.
  unfold exception_text. rewrite !length_app.
  change (length (utf8 "获取用户信息异常: ")) with 10%nat.
  change (length (utf8 "...")) with 3%nat. lia.
Qed.

(** C9, as amended.  [get_user_info] returns a value on every input: the
    request is sent once and whatever goes wrong comes back as a failure.
    When the request raises [e] the error reads
    ['获取用户信息异常: ' + str(e)[:50] + '...'], and so does every failure
    that is not the one about the HTTP status: the excerpt of the exception
    has at most 50 characters, the whole text 13 more. *)
Theorem get_user_info_never_raises (w : World) (jar : dict)
    (headers : gmap str str) (url : str) (t : list event) (h : option str) :
  (exists info,
     get_user_info w jar headers url (State t h)
     = (Ok info, State (t ++ [Get url headers jar]) h)
     /\ match client_get w url headers jar with
        | Raise e => info = Failure (exception_text e)
        | Ok resp =>
            match info with
            | Balance _ _ _ => True
            | Failure err =>
                err = http_failure_text (status_code resp)
                \/ exists e, err = exception_text e
            end
        end)
  /\ forall e,
       (length (take 50 (exn_msg e)) <= 50)%nat
       /\ length (exception_text e)
          = (13 + length (take 50 (exn_msg e)))%nat.
Proof.
  split; [|intros e; split;
            [apply take_50_length | apply exception_text_length]].
  unfold get_user_info; run.
  repeat step; eexists; (split; [reflexivity|]);
    lazymatch goal with
    | |- match Balance _ _ _ with _ => _ end => exact I
    | |- match Failure (http_failure_text _) with _ => _ end =>
        left; reflexivity
    | |- match Failure (exception_text ?e) with _ => _ end =>
        right; exists e; reflexivity
    | |- Failure _ = Failure _ => reflexivity
    end.
Qed.

(** C9, the claim as stated fails: an exception with a text of 60
    characters comes back as an error description of 63 characters. *)
Lemma user_info_error_exceeds_50 :
  fst (get_user_info (world_answering (Raise long_error)) ∅ ∅ [] start)
  = Ok (Failure (exception_text long_error))
  /\ length (exception_text long_error) = 63%nat
  /\ ~ (length (exception_text long_error) <= 50)%nat.
Proof.
  split; [reflexivity|]. split; [reflexivity|].
  change (length (exception_text long_error)) with 63%nat. lia.
Qed.

Lemma normalize_int (a : Z) :
  normalize (PInt a) =
  match int_div a 500000 with
  | Some f => Ok (py_round2 f)
  | None =>
      Raise (Exn OverflowError
               (utf8 "integer division result too large for a float"))
  end.
Proof. unfold normalize, py_truediv. simpl. by destruct (int_div a 500000). Qed.

(** Below [2^1000] in magnitude, the quotient by 500000 is in range. *)
Lemma int_div_in_range (a : Z) :
  Z.abs a < 2 ^ 1000 -> exists f, int_div a 500000 = Some f.
Proof.
  intros Ha. unfold int_div. destruct (a =? 0) eqn:E0; [eauto|].
  apply Z.eqb_neq in E0.
  assert (Hb : binade (Z.abs a) (Z.abs 500000) <= 929).
  { unfold binade. change (Z.log2 (Z.abs 500000)) with 18.
    assert (Z.log2 (Z.abs a) < 1000) by (apply Z.log2_lt_pow2; lia).
    destruct (_ <? _); lia. }
  unfold nearest_double.
  set (e := binade (Z.abs a) (Z.abs 500000)) in *.
  set (m := round_half_even _ _).
  destruct (m =? 2 ^ 53).
  - destruct (2 ^ 52 =? 0); [eauto|].
    destruct (971 <? e + 1) eqn:E; [apply Z.ltb_lt in E; lia|eauto].
  - destruct (m =? 0); [eauto|].
    destruct (971 <? e) eqn:E; [apply Z.ltb_lt in E; lia|eauto].
Qed.

(** C6, as amended.  For a document of the first format (true [success],
    a [data] object with integer [quota] and [used_quota]) whose two
    quotients by 500000 are in the range of a float, [get_user_info]
    succeeds with [quota = round(raw_quota / 500000, 2)] and
    [used_quota = round(raw_used_quota / 500000, 2)]. *)
Theorem anyrouter_balance_normalized (w : World) (jar : dict)
    (headers : gmap str str) (url : str) (t : list event) (h : option str)
    (resp : Response) (d user_data : dict) (raw_quota raw_used : Z)
    (quota used : float) :
  client_get w url headers jar = Ok resp ->
  status_code resp = 200 ->
  json resp = Ok (PDict d) ->
  py_truthy (default PNone (d !! utf8 "success")) = true ->
  d !! utf8 "data" = Some (PDict user_data) ->
  user_data !! utf8 "quota" = Some (PInt raw_quota) ->
  user_data !! utf8 "used_quota" = Some (PInt raw_used) ->
  int_div raw_quota 500000 = Some quota ->
  int_div raw_used 500000 = Some used ->
  get_user_info w jar headers url (State t h)
  = (Ok (Balance (py_round2 quota) (py_round2 used)
                 (balance_line (py_round2 quota) (py_round2 used))),
     State (t ++ [Get url headers jar]) h).
Proof.
  intros Hget Hst Hjs Hsucc Hdata Hq Hu Hdq Hdu.
  unfold get_user_info; run.
  rewrite Hget; simpl. rewrite Hst; simpl. rewrite Hjs; simpl.
  rewrite Hsucc; simpl. rewrite Hdata; simpl. rewrite Hq; simpl.
  rewrite normalize_int, Hdq; simpl. rewrite Hu; simpl.
  rewrite normalize_int, Hdu; simpl. reflexivity.
Qed.

Lemma anyrouter_balance_normalized_witness :
  client_get (world_answering (Ok (http_200 anyrouter_user_info))) [] ∅ ∅
  = Ok (http_200 anyrouter_user_info)
  /\ int_div 1234567 500000 = Some (FFinite false 5559995481163911 (-51))
  /\ int_div 2500 500000 = Some (FFinite false 5764607523034235 (-60))
  /\ get_user_info (world_answering (Ok (http_200 anyrouter_user_info)))
       ∅ ∅ [] start
     = (Ok (Balance (py_round2 (FFinite false 5559995481163911 (-51)))
                    (py_round2 (FFinite false 5764607523034235 (-60)))
                    (balance_line
                       (py_round2 (FFinite false 5559995481163911 (-51)))
                       (py_round2 (FFinite false 5764607523034235 (-60))))),
        State ([] ++ [Get [] ∅ ∅]) None).
Proof.
  split; [reflexivity|]. split; [reflexivity|]. split; [reflexivity|].
  apply (anyrouter_balance_normalized
           (world_answering (Ok (http_200 anyrouter_user_info))) ∅ ∅ [] []
           None (http_200 anyrouter_user_info) anyrouter_doc anyrouter_data
           1234567 2500);
    reflexivity.
Defined.

(** The same document, evaluated: 1234567 and 2500 units read as 2.47 and
    0.01. *)
Example anyrouter_balance_display :
  fst (get_user_info (world_answering (Ok (http_200 anyrouter_user_info)))
         ∅ ∅ [] start)
  = Ok (Balance (FFinite false 5561945539802563 (-51))
                (FFinite false 5764607523034235 (-59))
                (utf8 "💰 当前余额: $2.47，已使用: $0.01")).
Proof. vm_compute. reflexivity. Qed.

(** Out of range, the same document is a failure: the [OverflowError] of
    the division is caught like any other exception. *)
Lemma anyrouter_overflow_is_failure (w : World) (jar : dict)
    (headers : gmap str str) (url : str) (t : list event) (h : option str)
    (resp : Response) (d user_data : dict) (raw_quota : Z) :
  client_get w url headers jar = Ok resp ->
  status_code resp = 200 ->
  json resp = Ok (PDict d) ->
  py_truthy (default PNone (d !! utf8 "success")) = true ->
  d !! utf8 "data" = Some (PDict user_data) ->
  user_data !! utf8 "quota" = Some (PInt raw_quota) ->
  int_div raw_quota 500000 = None ->
  fst (get_user_info w jar headers url (State t h))
  = Ok (Failure
          (exception_text
             (Exn OverflowError
                (utf8 "integer division result too large for a float")))).
Proof.
  intros Hget Hst Hjs Hsucc Hdata Hq Hdq.
  unfold get_user_info; run.
  rewrite Hget; simpl. rewrite Hst; simpl. rewrite Hjs; simpl.
  rewrite Hsucc; simpl. rewrite Hdata; simpl. rewrite Hq; simpl.
  rewrite normalize_int, Hdq; simpl. reflexivity.
Qed.

(** C6, the claim as stated fails: with [quota = 10^400] the division
    raises [OverflowError] and the document is reported as a failure. *)
Lemma huge_quota_is_a_failure :
  huge_quota_user_info
  = PDict {[ utf8 "success" := PBool true;
             utf8 "data" := PDict {[ utf8 "quota" := PInt (10 ^ 400);
                                     utf8 "used_quota" := PInt 0 ]} ]}
  /\ fst (get_user_info
            (world_answering (Ok (http_200 huge_quota_user_info))) ∅ ∅ []
            start)
     = Ok (Failure
             (exception_text
                (Exn OverflowError
                   (utf8 "integer division result too large for a float")))).
Proof. split; [reflexivity|]. vm_compute. reflexivity. Qed.

Lemma float_falsy_is_zero (x : float) :
  float_truthy x = false -> exists neg, x = FZero neg.
Proof. destruct x; try discriminate. eauto. Qed.

Lemma unavailable_is_not_a_balance_line (a b : bool) :
  balance_unavailable <> balance_line (FZero a) (FZero b).
Proof. destruct a, b; vm_compute; discriminate. Qed.

(** C5, as amended.  For a document that [get_user_info] reads in the
    second format (no true [success], and [status] ["ok"]/["success"] or
    [code == 0]) whose normalised [credit] and [usage] are both zero, the
    result is a success with both values zero and the display text says
    that the balance is unavailable; it is not the line with the two
    amounts. *)
Theorem agentrouter_zero_balance_unavailable (w : World) (jar : dict)
    (headers : gmap str str) (url : str) (t : list event) (h : option str)
    (resp : Response) (d : dict) (quota used : float) :
  client_get w url headers jar = Ok resp ->
  status_code resp = 200 ->
  json resp = Ok (PDict d) ->
  py_truthy (default PNone (d !! utf8 "success")) = false ->
  is_agentrouter_format (PDict d) = Ok true ->
  normalize (default (PInt 0) (d !! utf8 "credit")) = Ok quota ->
  normalize (default (PInt 0) (d !! utf8 "usage")) = Ok used ->
  float_truthy quota = false ->
  float_truthy used = false ->
  get_user_info w jar headers url (State t h)
  = (Ok (Balance quota used balance_unavailable),
     State (t ++ [Get url headers jar]) h)
  /\ balance_unavailable <> balance_line quota used
  /\ py_eq_int (PFloat quota) 0 = true
  /\ py_eq_int (PFloat used) 0 = true.
Proof.
  intros Hget Hst Hjs Hsucc Hfmt Hq Hu Hzq Hzu.
  split.
  - unfold get_user_info; run.
    rewrite Hget; simpl. rewrite Hst; simpl. rewrite Hjs; simpl.
    rewrite Hsucc; simpl. rewrite Hfmt; simpl. rewrite Hq; simpl.
    rewrite Hu; simpl. rewrite Hzq, Hzu. reflexivity.
  - destruct (float_falsy_is_zero _ Hzq) as [a ->].
    destruct (float_falsy_is_zero _ Hzu) as [b ->].
    split; [apply unavailable_is_not_a_balance_line|]. split; reflexivity.
Qed.

Lemma agentrouter_zero_balance_unavailable_witness :
  client_get (world_answering (Ok (http_200 agentrouter_zero_user_info)))
    [] ∅ ∅ = Ok (http_200 agentrouter_zero_user_info)
  /\ is_agentrouter_format (PDict agentrouter_zero_doc) = Ok true
  /\ normalize (PInt 0) = Ok (FZero false)
  /\ get_user_info (world_answering (Ok (http_200 agentrouter_zero_user_info)))
       ∅ ∅ [] start
     = (Ok (Balance (FZero false) (FZero false) balance_unavailable),
        State ([] ++ [Get [] ∅ ∅]) None).
Proof.
  split; [reflexivity|]. split; [reflexivity|]. split; [reflexivity|].
  apply (agentrouter_zero_balance_unavailable
           (world_answering (Ok (http_200 agentrouter_zero_user_info)))
           ∅ ∅ [] [] None (http_200 agentrouter_zero_user_info)
           agentrouter_zero_doc (FZero false) (FZero false));
    reflexivity.
Defined.

(** C5, the claim as stated fails: a document with [status] ["ok"], zero
    [credit] and [usage], and also a true [success] is read in the first
    format, and the display shows [$0.0] twice. *)
Lemma both_formats_shows_zero_amounts :
  is_agentrouter_format both_formats_user_info = Ok true
  /\ fst (get_user_info
            (world_answering (Ok (http_200 both_formats_user_info))) ∅ ∅ []
            start)
     = Ok (Balance (FZero false) (FZero false)
                   (utf8 "💰 当前余额: $0.0，已使用: $0.0"))
  /\ utf8 "💰 当前余额: $0.0，已使用: $0.0" <> balance_unavailable.
Proof.
  split; [vm_compute; reflexivity|]. split; [vm_compute; reflexivity|].
  vm_compute. discriminate.
Qed.

(** ** Check-in *)

(** The answers that are classified: success and failure. *)
Lemma check_in_success_cases (w : World) (jar : dict) (name : str)
    (pc : ProviderConfig) (headers : gmap str str) (t : list event)
    (h : option str) (resp : Response) :
  client_post w (sign_in_url_of pc) (with_checkin_headers headers) jar
  = Ok resp ->
  (fst (execute_check_in w jar name pc headers (State t h)) = Ok true <->
   status_code resp = 200 /\
   ((exists d, json resp = Ok (PDict d) /\
       (py_eq_int (default PNone (d !! utf8 "ret")) 1 = true \/
        py_eq_int (default PNone (d !! utf8 "code")) 0 = true \/
        py_truthy (default PNone (d !! utf8 "success")) = true))
    \/ (exists e, json resp = Raise e /\ is_json_decode_error e = true /\
          str_contains (utf8 "success") (str_lower w (text resp)) = true)))
  /\ (forall d,
        status_code resp = 200 ->
        json resp = Ok (PDict d) ->
        py_eq_int (default PNone (d !! utf8 "ret")) 1 = false ->
        py_eq_int (default PNone (d !! utf8 "code")) 0 = false ->
        py_truthy (default PNone (d !! utf8 "success")) = false ->
        exists evs,
          execute_check_in w jar name pc headers (State t h)
          = (Ok false, State (t ++ evs) h)
          /\ last evs
             = Some (Print [Lit "[FAILED] "; Str name; Lit ": 签到失败 - ";
                            Val (default (PStr (utf8 "Unknown error"))
                                   (d !! utf8 "msg"))])).
Proof.
  intros Hpost. unfold execute_check_in, classify_check_in, checkin_success; run.
  rewrite Hpost; simpl.
  destruct (status_code resp =? 200) eqn:Hs; simpl.
  2: { apply Z.eqb_neq in Hs. split; [split|]; [intros [=] | tauto | tauto]. }
  apply Z.eqb_eq in Hs.
  destruct (json resp) as [v|e] eqn:Hj; simpl.
  - destruct v as [| | | | | |d]; simpl; try (split; [split|]; [intros [=] | | ];
      [intros (_ & [(? & [=] & _) | (? & [=] & _)]) | intros ? _ [=]]).
    destruct (py_eq_int (default PNone (d !! utf8 "ret")) 1) eqn:Hret; simpl.
    { split; [split; [|done]|intros d' _ [= <-]; congruence].
      intros _. split; [done|]. left. exists d. auto. }
    destruct (py_eq_int (default PNone (d !! utf8 "code")) 0) eqn:Hcode; simpl.
    { split; [split; [|done]|intros d' _ [= <-]; congruence].
      intros _. split; [done|]. left. exists d. auto. }
    destruct (py_truthy (default PNone (d !! utf8 "success"))) eqn:Hsucc; simpl.
    { split; [split; [|done]|intros d' _ [= <-]; congruence].
      intros _. split; [done|]. left. exists d. auto. }
    split.
    + split; [intros [=]|].
      intros (_ & [(d' & [= <-] & Hor) | (? & [=] & _)]).
      destruct Hor as [?|[?|?]]; congruence.
    + intros d' _ [= <-] _ _ _. eexists. rewrite <- !app_assoc. simpl.
      split; reflexivity.
  - destruct (is_json_decode_error e) eqn:Hde; simpl.
    + destruct (str_contains (utf8 "success") (str_lower w (text resp)))
        eqn:Hc; simpl.
      * split; [split; [|done]|intros ? _ [=]].
        intros _. split; [done|]. right. exists e. auto.
      * split; [split; [intros [=]|]|intros ? _ [=]].
        intros (_ & [(? & [=] & _) | (e' & [= <-] & _ & ?)]). congruence.
    + split; [split; [intros [=]|]|intros ? _ [=]].
      intros (_ & [(? & [=] & _) | (e' & [= <-] & ? & _)]). congruence.
Qed.

(** The answers that are not: the exception leaves [execute_check_in]
    once the status line is printed. *)
Lemma check_in_escape_cases (w : World) (jar : dict) (name : str)
    (pc : ProviderConfig) (headers : gmap str str) (t : list event)
    (h : option str) (resp : Response) (e : exn) :
  client_post w (sign_in_url_of pc) (with_checkin_headers headers) jar
  = Ok resp ->
  status_code resp = 200 ->
  (exists v, json resp = Ok v /\ (forall d, v <> PDict d)
             /\ e = Exn AttributeError
                      (utf8 "'" ++ type_name v
                       ++ utf8 "' object has no attribute 'get'"))
  \/ (json resp = Raise e /\ is_json_decode_error e = false) ->
  execute_check_in w jar name pc headers (State t h)
  = (Raise e,
     State (t ++ [Print [Lit "[NETWORK] "; Str name;
                         Lit ": Executing check-in"];
                  Post (sign_in_url_of pc) (with_checkin_headers headers) jar;
                  Print [Lit "[RESPONSE] "; Str name;
                         Lit ": Response status code ";
                         Num (status_code resp)]]) h).
Proof.
  intros Hpost Hs Hcase.
  unfold execute_check_in, classify_check_in, checkin_success; run.
  rewrite Hpost; simpl. rewrite Hs; simpl.
  destruct Hcase as [(v & Hj & Hv & ->)|[Hj He]]; rewrite Hj; simpl.
  - destruct v as [| | | | | |d]; simpl;
      try (by rewrite <- !app_assoc). by destruct (Hv d).
  - rewrite He. by rewrite <- !app_assoc.
Qed.

(** C4, as amended.  The check-in is classified as a success exactly when
    the status is 200 and either the body decodes to an object that has
    [ret == 1], [code == 0] or a true [success], or decoding fails with
    [JSONDecodeError] and the lower-cased body contains [success].  A
    decoded object with none of the three is a failure, and the line
    printed last carries its [msg], or ["Unknown error"] when there is
    none.  A body with status 200 that decodes to something else than an
    object, or whose decoding fails with another exception, is not
    classified: the [AttributeError] of [.get], or the exception of the
    decoding, leaves [execute_check_in] once the status line is printed. *)
Theorem check_in_classified (w : World) (jar : dict) (name : str)
    (pc : ProviderConfig) (headers : gmap str str) (t : list event)
    (h : option str) (resp : Response) :
  client_post w (sign_in_url_of pc) (with_checkin_headers headers) jar
  = Ok resp ->
  (fst (execute_check_in w jar name pc headers (State t h)) = Ok true <->
   status_code resp = 200 /\
   ((exists d, json resp = Ok (PDict d) /\
       (py_eq_int (default PNone (d !! utf8 "ret")) 1 = true \/
        py_eq_int (default PNone (d !! utf8 "code")) 0 = true \/
        py_truthy (default PNone (d !! utf8 "success")) = true))
    \/ (exists e, json resp = Raise e /\ is_json_decode_error e = true /\
          str_contains (utf8 "success") (str_lower w (text resp)) = true)))
  /\ (forall d,
        status_code resp = 200 ->
        json resp = Ok (PDict d) ->
        py_eq_int (default PNone (d !! utf8 "ret")) 1 = false ->
        py_eq_int (default PNone (d !! utf8 "code")) 0 = false ->
        py_truthy (default PNone (d !! utf8 "success")) = false ->
        exists evs,
          execute_check_in w jar name pc headers (State t h)
          = (Ok false, State (t ++ evs) h)
          /\ last evs
             = Some (Print [Lit "[FAILED] "; Str name; Lit ": 签到失败 - ";
                            Val (default (PStr (utf8 "Unknown error"))
                                   (d !! utf8 "msg"))]))
  /\ (forall v,
        status_code resp = 200 ->
        json resp = Ok v ->
        (forall d, v <> PDict d) ->
        execute_check_in w jar name pc headers (State t h)
        = (Raise (Exn AttributeError
                    (utf8 "'" ++ type_name v
                     ++ utf8 "' object has no attribute 'get'")),
           State (t ++ [Print [Lit "[NETWORK] "; Str name;
                               Lit ": Executing check-in"];
                        Post (sign_in_url_of pc)
                             (with_checkin_headers headers) jar;
                        Print [Lit "[RESPONSE] "; Str name;
                               Lit ": Response status code ";
                               Num (status_code resp)]]) h))
  /\ (forall e,
        status_code resp = 200 ->
        json resp = Raise e ->
        is_json_decode_error e = false ->
        execute_check_in w jar name pc headers (State t h)
        = (Raise e,
           State (t ++ [Print [Lit "[NETWORK] "; Str name;
                               Lit ": Executing check-in"];
                        Post (sign_in_url_of pc)
                             (with_checkin_headers headers) jar;
                        Print [Lit "[RESPONSE] "; Str name;
                               Lit ": Response status code ";
                               Num (status_code resp)]]) h)).
Proof.
  intros Hpost.
  destruct (check_in_success_cases w jar name pc headers t h resp Hpost)
    as [Hiff Hfail].
  split; [exact Hiff|]. split; [exact Hfail|]. split.
  - intros v Hs Hj Hv.
    apply (check_in_escape_cases w jar name pc headers t h resp _ Hpost Hs).
    left. by exists v.
  - intros e Hs Hj He.
    apply (check_in_escape_cases w jar name pc headers t h resp _ Hpost Hs).
    by right.
Qed.

Lemma check_in_classified_witness :
  client_post (world_signing (Ok (http_200 sign_in_ret_1)))
    (sign_in_url_of agentrouter) (with_checkin_headers ∅) ∅
  = Ok (http_200 sign_in_ret_1)
  /\ fst (execute_check_in (world_signing (Ok (http_200 sign_in_ret_1))) ∅
            (utf8 "B") agentrouter ∅ start) = Ok true
  /\ client_post (world_signing (Ok (http_200 (PDict already_signed_doc))))
       (sign_in_url_of agentrouter) (with_checkin_headers ∅) ∅
     = Ok (http_200 (PDict already_signed_doc))
  /\ exists evs,
       execute_check_in
         (world_signing (Ok (http_200 (PDict already_signed_doc)))) ∅
         (utf8 "B") agentrouter ∅ (State [] None)
       = (Ok false, State ([] ++ evs) None)
       /\ last evs
          = Some (Print [Lit "[FAILED] "; Str (utf8 "B");
                         Lit ": 签到失败 - ";
                         Val (default (PStr (utf8 "Unknown error"))
                                (already_signed_doc !! utf8 "msg"))]).
Proof.
  split; [reflexivity|]. split.
  { apply (check_in_classified (world_signing (Ok (http_200 sign_in_ret_1)))
             ∅ (utf8 "B") agentrouter ∅ [] None (http_200 sign_in_ret_1)
             eq_refl).
    split; [reflexivity|]. left. eexists. split; [reflexivity|].
    left. reflexivity. }
  split; [reflexivity|].
  apply (proj1 (proj2 (check_in_classified
                         (world_signing
                            (Ok (http_200 (PDict already_signed_doc))))
                         ∅ (utf8 "B") agentrouter ∅ [] None
                         (http_200 (PDict already_signed_doc)) eq_refl)));
    reflexivity.
Defined.

(** C4, the claim as stated fails.  A body that decodes to a list matches
    none of the three conditions, and the check-in ends with an
    [AttributeError], not with a failure that shows ["Unknown error"]: the
    account is reported as failed by the handler of [check_in_account],
    whose line with the text of the exception is the last one printed.  And a body that cannot be decoded
    because its bytes are not UTF-8 makes [response.json()] raise a
    [UnicodeDecodeError], which is not a [JSONDecodeError]: the text
    contains [success], and the check-in is not a success. *)
Lemma check_in_body_not_classified :
  execute_check_in (world_signing (Ok (http_200 (PList [])))) ∅ (utf8 "B")
    agentrouter ∅ start
  = (Raise (Exn AttributeError
              (utf8 "'list' object has no attribute 'get'")),
     State [Print [Lit "[NETWORK] "; Str (utf8 "B");
                   Lit ": Executing check-in"];
            Post (sign_in_url_of agentrouter) (with_checkin_headers ∅) ∅;
            Print [Lit "[RESPONSE] "; Str (utf8 "B");
                   Lit ": Response status code "; Num 200]] None)
  /\ fst (check_in_account (world_signing (Ok (http_200 (PList []))))
            account_b 0 sample_config start)
     = Ok (false, None)
  /\ drop 9 (trace (snd (check_in_account
                           (world_signing (Ok (http_200 (PList []))))
                           account_b 0 sample_config start)))
     = [Print [Lit "[FAILED] "; Str (utf8 "B"); Lit ": 签到过程异常 - ";
               Err (Exn AttributeError
                      (utf8 "'list' object has no attribute 'get'"))];
        ClientClose]
  /\ json undecodable_success = Raise undecodable_error
  /\ str_contains (utf8 "success") (ascii_lower (text undecodable_success))
     = true
  /\ fst (execute_check_in (world_signing (Ok undecodable_success)) ∅
            (utf8 "B") agentrouter ∅ start)
     = Raise undecodable_error
  /\ fst (check_in_account (world_signing (Ok undecodable_success))
            account_b 0 sample_config start)
     = Ok (false, None).
Proof.
  split; [vm_compute; reflexivity|]. split; [vm_compute; reflexivity|].
  split; [vm_compute; reflexivity|]. split; [reflexivity|].
  split; [vm_compute; reflexivity|]. split; vm_compute; reflexivity.
Qed.


(** The examples of the spec. *)
Example check_in_ret_1 :
  fst (execute_check_in (world_signing (Ok (http_200 sign_in_ret_1))) ∅
         (utf8 "B") agentrouter ∅ start) = Ok true.
Proof. vm_compute. reflexivity. Qed.

Example check_in_already_signed :
  exists evs,
    execute_check_in
      (world_signing (Ok (http_200 (PDict already_signed_doc)))) ∅
      (utf8 "B") agentrouter ∅ start
    = (Ok false, State evs None)
    /\ last evs
       = Some (Print [Lit "[FAILED] "; Str (utf8 "B"); Lit ": 签到失败 - ";
                      Val (PStr (utf8 "already signed"))]).
Proof. eexists. split; vm_compute; reflexivity. Qed.

Example check_in_plain_success :
  fst (execute_check_in (world_signing (Ok (http_200_text "Success!"))) ∅
         (utf8 "B") agentrouter ∅ start) = Ok true.
Proof. vm_compute. reflexivity. Qed.

Example check_in_plain_other :
  fst (execute_check_in (world_signing (Ok (http_200_text "<html>"))) ∅
         (utf8 "B") agentrouter ∅ start) = Ok false.
Proof. vm_compute. reflexivity. Qed.

(** ** What a run appends *)

Ltac appends_step :=
  lazymatch goal with
  | |- appends _ _ (ret _) => apply appends_ret; exact I
  | |- appends _ _ (print _) => apply appends_print; [solve [auto] | exact I]
  | |- appends _ _ (emit _) => apply appends_emit; [solve [auto] | exact I]
  | |- appends _ _ (call _ _) => apply appends_call; [solve [auto] | done]
  | |- appends _ _ (lift _) => apply appends_lift; done
  | |- appends _ _ (bind _ _) =>
      eapply (appends_bind _ (fun _ => True)); [ | intros ? _ ]
  | |- appends _ _ (try_except_if _ _ _) =>
      apply appends_try_except_if; [ | intros ? ]
  | |- appends _ _ (try_except _ _) => apply appends_try_except; [ | intros ? ]
  | |- appends _ _ (finally _ _) => apply appends_finally
  | |- appends _ _ (if ?c then _ else _) => destruct c
  | |- appends _ _ (match ?c with _ => _ end) => destruct c
  end.

Ltac appends_auto := repeat appends_step.

Lemma quiet_print (line : list piece) : quiet (Print line).
Proof. by split. Qed.

Lemma get_user_info_appends (P : event -> Prop) (w : World) (jar : dict)
    (headers : gmap str str) (url : str) :
  P (Get url headers jar) ->
  appends P (fun _ => True) (get_user_info w jar headers url).
Proof.
  intros HP. unfold get_user_info. appends_auto.
Qed.

Lemma execute_check_in_appends (P : event -> Prop) (w : World) (jar : dict)
    (name : str) (pc : ProviderConfig) (headers : gmap str str) :
  (forall ev, quiet ev -> P ev) ->
  P (Post (sign_in_url_of pc) (with_checkin_headers headers) jar) ->
  appends P (fun _ => True) (execute_check_in w jar name pc headers).
Proof.
  intros Hq HP.
  assert (forall line, P (Print line)) by (intros; apply Hq, quiet_print).
  unfold execute_check_in, classify_check_in, checkin_success. appends_auto.
Qed.

(** *** The browser *)

Lemma missing_from_nil (waf_cookies : dict) :
  missing_from waf_cookies = [] -> has_waf_cookies waf_cookies.
Proof.
  intros Hnil c Hc. destruct (waf_cookies !! c) eqn:E; [eauto|].
  exfalso. apply (not_elem_of_nil c). rewrite <- Hnil.
  unfold missing_from. by apply list_elem_of_filter.
Qed.

Lemma has_waf_cookies_unpack (waf user_cookies : dict) :
  has_waf_cookies waf -> has_waf_cookies (dict_unpack2 waf user_cookies).
Proof.
  intros Hw c Hc. rewrite dict_unpack2_union.
  apply lookup_union_is_Some. right. by apply Hw.
Qed.

Lemma waf_page_visit_appends (P : event -> Prop) (br : Browser)
    (name url : str) :
  (forall ev, quiet ev -> P ev) ->
  appends P (fun r => forall waf, r = Some waf -> has_waf_cookies waf)
          (waf_page_visit br name url).
Proof.
  intros Hq.
  assert (forall line, P (Print line)) by (intros; apply Hq; by split).
  assert (P ContextClose /\ P ContextCookies /\ P WaitForFunction
          /\ P WaitForTimeout /\ forall u, P (Goto u)) as (?&?&?&?&?)
    by (repeat split; intros; apply Hq; by split).
  unfold waf_page_visit.
  apply appends_try_except.
  - eapply (appends_bind _ (fun _ => True)); [appends_auto|intros _ _].
    eapply (appends_bind _ (fun _ => True)); [appends_auto|intros _ _].
    eapply (appends_bind _ (fun _ => True)); [appends_auto|intros _ _].
    eapply (appends_bind _ (fun _ => True)); [appends_auto|intros cs _].
    eapply (appends_bind _ (fun _ => True)); [appends_auto|intros _ _].
    destruct (missing_from (foldl keep_waf_cookie ∅ cs)) eqn:Hm.
    + eapply (appends_bind _ (fun _ => True)); [appends_auto|intros _ _].
      eapply (appends_bind _ (fun _ => True)); [appends_auto|intros _ _].
      apply appends_ret. intros waf [= <-]. by apply missing_from_nil.
    + eapply (appends_bind _ (fun _ => True)); [appends_auto|intros _ _].
      eapply (appends_bind _ (fun _ => True)); [appends_auto|intros _ _].
      apply appends_ret. by intros waf [=].
  - intros e.
    eapply (appends_bind _ (fun _ => True)); [appends_auto|intros _ _].
    eapply (appends_bind _ (fun _ => True)); [appends_auto|intros _ _].
    apply appends_ret. by intros waf [=].
Qed.

Lemma get_waf_cookies_appends (P : event -> Prop) (w : World)
    (name url : str) :
  (forall ev, quiet ev -> P ev) ->
  appends P (fun r => forall waf, r = Some waf -> has_waf_cookies waf)
          (get_waf_cookies_with_playwright w name url).
Proof.
  intros Hq.
  assert (forall line, P (Print line)) by (intros; apply Hq; by split).
  assert (P PlaywrightStart /\ P PlaywrightStop /\ P TempDirCreate
          /\ P TempDirCleanup /\ P Launch /\ P NewPage) as (?&?&?&?&?&?)
    by (repeat split; apply Hq; by split).
  unfold get_waf_cookies_with_playwright.
  eapply (appends_bind _ (fun _ => True)); [appends_auto|intros _ _].
  eapply (appends_bind _ (fun _ => True)); [appends_auto|intros _ _].
  apply appends_finally; [|appends_auto].
  eapply (appends_bind _ (fun _ => True)); [appends_auto|intros _ _].
  apply appends_finally; [|appends_auto].
  eapply (appends_bind _ (fun _ => True)); [appends_auto|intros _ _].
  eapply (appends_bind _ (fun _ => True)); [appends_auto|intros _ _].
  eapply (appends_bind _ (fun _ => True)); [appends_auto|intros _ _].
  by apply waf_page_visit_appends.
Qed.

Lemma prepare_cookies_appends (P : event -> Prop) (w : World) (name : str)
    (pc : ProviderConfig) (user_cookies : dict) :
  (forall ev, quiet ev -> P ev) ->
  appends P (fun r => forall all_cookies, r = Some all_cookies ->
                      needs_waf_cookies pc = true ->
                      has_waf_cookies all_cookies)
          (prepare_cookies w name pc user_cookies).
Proof.
  intros Hq.
  assert (forall line, P (Print line)) by (intros; apply Hq; by split).
  unfold prepare_cookies. destruct (needs_waf_cookies pc).
  - eapply appends_bind; [by apply get_waf_cookies_appends|].
    intros [waf|] Hwaf; simpl.
    + destruct (bool_decide (waf = ∅)).
      * eapply (appends_bind _ (fun _ => True)); [appends_auto|intros _ _].
        apply appends_ret. by intros ? [=].
      * apply appends_ret. intros ? [= <-] _.
        apply has_waf_cookies_unpack. by apply Hwaf.
    + eapply (appends_bind _ (fun _ => True)); [appends_auto|intros _ _].
      apply appends_ret. by intros ? [=].
  - eapply (appends_bind _ (fun _ => True)); [appends_auto|intros _ _].
    apply appends_ret. by intros ? _ [=].
Qed.

(** *** One account and the whole run *)

Lemma check_in_session_appends (P : event -> Prop) (w : World) (name : str)
    (account : AccountConfig) (pc : ProviderConfig) (all_cookies : dict) :
  (forall ev, quiet ev -> P ev) ->
  (forall u hd, P (Get u hd all_cookies) /\ P (Post u hd all_cookies)) ->
  appends P (fun _ => True) (check_in_session w name account pc all_cookies).
Proof.
  intros Hq HP.
  assert (forall line, P (Print line)) by (intros; apply Hq; by split).
  assert (P ClientClose) by (apply Hq; by split).
  unfold check_in_session. rewrite dict_update_empty.
  apply appends_finally; [|appends_auto].
  apply appends_try_except; [|intros; appends_auto].
  eapply (appends_bind _ (fun _ => True));
    [apply get_user_info_appends, HP|intros info _].
  eapply (appends_bind _ (fun _ => True)); [appends_auto|intros _ _].
  destruct (needs_manual_check_in pc); [|appends_auto].
  eapply (appends_bind _ (fun _ => True));
    [apply execute_check_in_appends; [done|apply HP]|intros; appends_auto].
Qed.

Lemma check_in_account_appends (P : event -> Prop) (w : World)
    (account : AccountConfig) (idx : nat) (cfg : AppConfig) :
  (forall ev, quiet ev -> P ev) ->
  (forall pc jar u hd,
     get_provider cfg (provider account) = Some pc ->
     (needs_waf_cookies pc = true -> has_waf_cookies jar) ->
     P (Get u hd jar) /\ P (Post u hd jar)) ->
  appends P (fun _ => True) (check_in_account w account idx cfg).
Proof.
  intros Hq HP.
  assert (forall line, P (Print line)) by (intros; apply Hq; by split).
  assert (P ClientNew) by (apply Hq; by split).
  unfold check_in_account.
  eapply (appends_bind _ (fun _ => True)); [appends_auto|intros _ _].
  destruct (get_provider cfg (provider account)) as [pc|] eqn:Hpc;
    [|appends_auto].
  eapply (appends_bind _ (fun _ => True)); [appends_auto|intros _ _].
  destruct (bool_decide (parse_cookies (cookies account) = ∅));
    [appends_auto|].
  eapply appends_bind; [by apply prepare_cookies_appends|].
  intros [all_cookies|] Hall; simpl; [|appends_auto].
  destruct (bool_decide (all_cookies = ∅)); [appends_auto|].
  eapply (appends_bind _ (fun _ => True)); [appends_auto|intros _ _].
  apply check_in_session_appends; [done|].
  intros u hd. apply (HP pc); [done|]. by apply Hall.
Qed.

Ltac in_list :=
  repeat first [apply list_elem_of_here | apply list_elem_of_further].

Lemma get_user_info_runs (w : World) (jar : dict) (headers : gmap str str)
    (url : str) (t : list event) (h : option str) :
  exists info,
    get_user_info w jar headers url (State t h)
    = (Ok info, State (t ++ [Get url headers jar]) h).
Proof.
  unfold get_user_info; run.
  repeat step; eexists; reflexivity.
Qed.





(** The same account, run: the balance is missing and the check-in
    succeeds. *)
Example offline_balance_still_checks_in :
  fst (check_in_account world_offline_balance account_b 0 sample_config start)
  = Ok (true, Some (Failure (exception_text connection_error))).
Proof. vm_compute. reflexivity. Qed.

(** ** Cookie payloads *)

(** The example of the spec: a piece without [=] is dropped. *)
Example parse_cookies_example :
  parse_cookies (PStr (utf8 "acw_tc=abc; foo=bar; broken"))
  = {[ utf8 "acw_tc" := PStr (utf8 "abc"); utf8 "foo" := PStr (utf8 "bar") ]}.
Proof. vm_compute. reflexivity. Qed.

(** C10.  A cookie payload that is neither a dict nor a string parses to
    the empty dict, and [check_in_account] then returns [(False, None)]
    having done nothing but print: no browser, no client, no request.  When
    the provider exists, the line printed last is the one about the invalid
    cookie configuration. *)
Theorem non_mapping_cookies_rejected (w : World) (account : AccountConfig)
    (idx : nat) (cfg : AppConfig) (t : list event) (h : option str) :
  (forall d, cookies account <> PDict d) ->
  (forall s, cookies account <> PStr s) ->
  parse_cookies (cookies account) = ∅
  /\ exists evs,
       check_in_account w account idx cfg (State t h)
       = (Ok (false, None), State (t ++ evs) h)
       /\ forallb is_print evs = true
       /\ (is_Some (get_provider cfg (provider account)) ->
           last evs
           = Some (Print [Lit "[FAILED] "; Str (get_display_name account idx);
                          Lit ": cookies 配置无效"])).
Proof.
  intros Hd Hs.
  assert (parse_cookies (cookies account) = ∅) as Hparse.
  { unfold parse_cookies. destruct (cookies account); try reflexivity.
    - by destruct (Hs s).
    - by destruct (Hd d). }
  split; [done|].
  unfold check_in_account; run.
  destruct (get_provider cfg (provider account)) as [pc|]; simpl.
  - rewrite Hparse. case_bool_decide; [|done]. simpl.
    eexists. rewrite <- !app_assoc. simpl.
    split; [reflexivity|]. split; reflexivity.
  - eexists. rewrite <- !app_assoc. simpl.
    split; [reflexivity|]. split; [reflexivity|]. by intros [? [=]].
Qed.

Lemma non_mapping_cookies_rejected_witness :
  cookies account_none = PNone
  /\ parse_cookies (cookies account_none) = ∅
  /\ exists evs,
       check_in_account (world_as_written [account_none]) account_none 0
         sample_config (State [] None)
       = (Ok (false, None), State ([] ++ evs) None)
       /\ forallb is_print evs = true
       /\ (is_Some (get_provider sample_config (provider account_none)) ->
           last evs
           = Some (Print [Lit "[FAILED] ";
                          Str (get_display_name account_none 0);
                          Lit ": cookies 配置无效"])).
Proof.
  split; [reflexivity|].
  apply (non_mapping_cookies_rejected (world_as_written [account_none])
           account_none 0 sample_config [] None); intros; discriminate.
Defined.

(** ** WAF cookies *)

(** The check of the three names, where it is reached.  For an account
    whose provider needs WAF cookies, every request [check_in_account]
    sends carries the three WAF cookies; and in a run time that binds
    [true] and launches the browser, when the session reaches the harvest
    and one of the three names is missing from it, the acquisition prints
    the missing names and returns nothing, and [check_in_account] returns
    [(False, None)] without sending any request. *)
Theorem waf_cookies_required (w : World) (account : AccountConfig)
    (idx : nat) (cfg : AppConfig) (pc : ProviderConfig) (t : list event)
    (h : option str) :
  get_provider cfg (provider account) = Some pc ->
  needs_waf_cookies pc = true ->
  (exists r evs,
     check_in_account w account idx cfg (State t h)
     = (r, State (t ++ evs) h)
     /\ Forall (fun ev => forall jar, request_jar ev = Some jar ->
                          has_waf_cookies jar) evs)
  /\ (forall cs v,
        let name := get_display_name account idx in
        let login_url := domain pc ++ login_path pc in
        let br := browser w login_url in
        parse_cookies (cookies account) <> ∅ ->
        playwright_start br = Ok tt ->
        temp_dir br = Ok tt ->
        global_true w = Ok v ->
        launch_persistent_context br = Ok tt ->
        new_page br = Ok tt ->
        goto br = Ok tt ->
        wait_for_function br = Ok tt \/ wait_for_timeout br = Ok tt ->
        context_cookies br = Ok cs ->
        context_close br = Ok tt ->
        missing_from (foldl keep_waf_cookie ∅ cs) <> [] ->
        (forall t0, exists evs0,
           get_waf_cookies_with_playwright w name login_url (State t0 h)
           = (Ok None, State (t0 ++ evs0) h)
           /\ Print [Lit "[FAILED] "; Str name; Lit ": Missing WAF cookies: ";
                     Names (missing_from (foldl keep_waf_cookie ∅ cs))]
              ∈ evs0)
        /\ exists evs,
             check_in_account w account idx cfg (State t h)
             = (Ok (false, None), State (t ++ evs) h)
             /\ Forall (fun ev => request_jar ev = None) evs).
Proof.
  intros Hpc Hwaf. split.
  - destruct (check_in_account_appends
                (fun ev => forall jar, request_jar ev = Some jar ->
                           has_waf_cookies jar)
                w account idx cfg) with (t := t) (h := h)
      as (r & evs & Hrun & Hevs & _).
    + intros ev [Hnone _] jar Hjar. congruence.
    + intros pc' jar u hd Hpc' Hjar. rewrite Hpc in Hpc'.
      injection Hpc' as <-.
      split; intros jar' [= <-]; by apply Hjar.
    + by exists r, evs.
  - intros cs v name login_url br Hparse Hstart Htmp Htrue Hlaunch Hpage
      Hgoto Hwait Hcs Hclose Hmiss.
    assert (forall t0, exists evs0,
              get_waf_cookies_with_playwright w name login_url (State t0 h)
              = (Ok None, State (t0 ++ evs0) h)
              /\ Print [Lit "[FAILED] "; Str name;
                        Lit ": Missing WAF cookies: ";
                        Names (missing_from (foldl keep_waf_cookie ∅ cs))]
                 ∈ evs0
              /\ Forall (fun ev => request_jar ev = None) evs0) as Hacq.
    { intros t0.
      unfold get_waf_cookies_with_playwright, waf_page_visit; run.
      fold br. rewrite Hstart, Htmp, Htrue, Hlaunch, Hpage, Hgoto; simpl.
      destruct (missing_from (foldl keep_waf_cookie ∅ cs)) as [|c l] eqn:Hm;
        [done|].
      destruct (wait_for_function br) as [[]|e] eqn:Hwf; simpl.
      - rewrite Hcs; simpl. rewrite Hm; simpl. rewrite Hclose; simpl.
        eexists. rewrite <- !app_assoc. simpl.
        split; [reflexivity|]. split; [in_list|repeat constructor].
      - destruct Hwait as [[=]|Hwt]. rewrite Hwt; simpl.
        rewrite Hcs; simpl. rewrite Hm; simpl. rewrite Hclose; simpl.
        eexists. rewrite <- !app_assoc. simpl.
        split; [reflexivity|]. split; [in_list|repeat constructor]. }
    split.
    + intros t0. destruct (Hacq t0) as (evs0 & ? & ? & _). eauto.
    + unfold check_in_account; run. rewrite Hpc; simpl.
      case_bool_decide; [done|]. simpl.
      unfold prepare_cookies. rewrite Hwaf. unfold bind at 1.
      fold name. fold login_url.
      match goal with
      | |- context [get_waf_cookies_with_playwright w name login_url
                      (State ?t0 h)] =>
          destruct (Hacq t0) as (evs0 & -> & _ & Hnone)
      end.
      run. eexists. rewrite <- !app_assoc. simpl.
      split; [reflexivity|].
      repeat (apply Forall_cons; split; [reflexivity|]).
      apply Forall_app. split; [done|repeat constructor].
Qed.

Lemma parse_cookies_account_a : parse_cookies (cookies account_a) <> ∅.
Proof.
  intros H. apply (f_equal (fun m : dict => m !! utf8 "session")) in H.
  vm_compute in H. discriminate.
Qed.

Lemma waf_cookies_required_witness :
  get_provider sample_config (provider account_a) = Some anyrouter
  /\ needs_waf_cookies anyrouter = true
  /\ global_true (world_with_cookies two_waf_cookies) = Ok (PBool true)
  /\ missing_from (foldl keep_waf_cookie ∅ two_waf_cookies)
     = [utf8 "acw_sc__v2"]
  /\ exists evs,
       check_in_account (world_with_cookies two_waf_cookies) account_a 0
         sample_config (State [] None)
       = (Ok (false, None), State ([] ++ evs) None)
       /\ Forall (fun ev => request_jar ev = None) evs.
Proof.
  split; [reflexivity|]. split; [reflexivity|]. split; [reflexivity|].
  split; [vm_compute; reflexivity|].
  destruct (waf_cookies_required (world_with_cookies two_waf_cookies)
              account_a 0 sample_config anyrouter [] None eq_refl eq_refl)
    as [_ Hmissing].
  apply (Hmissing two_waf_cookies (PBool true)); try reflexivity.
  - apply parse_cookies_account_a.
  - left. reflexivity.
  - vm_compute. discriminate.
Defined.



(** The same with a binding for [true]: the launch rejects the keyword, and
    although the page would set only two of the three cookies, the account
    does not end as a failure: it raises. *)
Example misspelt_keyword_escapes :
  check_in_account world_true_bound account_a 0 sample_config start
  = (Raise unexpected_keyword,
     State
       [Print [Lit "
[PROCESSING] 开始处理 "; Str (utf8 "A")];
        Print [Lit "[INFO] "; Str (utf8 "A"); Lit ": Using provider ";
               Str quote; Str (utf8 "anyrouter"); Str quote; Lit " (";
               Str (utf8 "https://anyrouter.top"); Lit ")"];
        Print [Lit "[PROCESSING] "; Str (utf8 "A");
               Lit ": Starting browser to get WAF cookies..."];
        PlaywrightStart; TempDirCreate; Launch; TempDirCleanup;
        PlaywrightStop]
       None).
Proof. vm_compute. reflexivity. Qed.

(** With all three cookies harvested the account goes through, and the
    check-in is sent with the three WAF cookies and the user's own. *)
Example waf_account_checks_in :
  exists evs hd,
    check_in_account (world_with_cookies three_waf_cookies) account_a 0
      sample_config start
    = (Ok (true,
           Some (Balance (FFinite false 5561945539802563 (-51))
                         (FFinite false 5764607523034235 (-59))
                         (utf8 "💰 当前余额: $2.47，已使用: $0.01"))),
       State evs None)
    /\ Post (sign_in_url_of anyrouter) hd
            {[ utf8 "acw_tc" := PStr (utf8 "1");
               utf8 "cdn_sec_tc" := PStr (utf8 "2");
               utf8 "acw_sc__v2" := PStr (utf8 "3");
               utf8 "session" := PStr (utf8 "xyz") ]} ∈ evs.
Proof.
  eexists. eexists. split; [vm_compute; reflexivity|].
  vm_compute. in_list.
Qed.

(** ** The whole run *)

Lemma send_dingtalk_message_appends (P : event -> Prop) (w : World)
    (rows : list Row) (success fail total : Z) :
  (forall ev, quiet ev -> P ev) ->
  appends P (fun _ => True) (send_dingtalk_message w rows success fail total).
Proof.
  intros Hq.
  assert (forall line, P (Print line)) by (intros; apply Hq; by split).
  assert (forall u c, P (WebhookPost u c)) by (intros; apply Hq; by split).
  unfold send_dingtalk_message.
  destruct (getenv_webhook w) as [[|c webhook]|]; appends_auto.
Qed.

Lemma check_in_all_appends (P : event -> Prop) (w : World) (cfg : AppConfig)
    (accounts : list AccountConfig) :
  (forall ev, quiet ev -> P ev) ->
  (forall jar u hd, P (Get u hd jar) /\ P (Post u hd jar)) ->
  forall i success balances,
    appends P (fun _ => True)
            (check_in_all w cfg accounts i success balances).
Proof.
  intros Hq HP. induction accounts as [|account rest IH]; intros; simpl.
  - by apply appends_ret.
  - eapply (appends_bind _ (fun _ => True)).
    + apply check_in_account_appends; [done|]. intros; apply HP.
    + intros [ok info] _. apply IH.
Qed.

Lemma main_appends (P : event -> Prop) (w : World) :
  (forall ev, quiet ev -> P ev) ->
  (forall jar u hd, P (Get u hd jar) /\ P (Post u hd jar)) ->
  appends P (fun _ => True) (main w).
Proof.
  intros Hq HP.
  assert (forall line, P (Print line)) by (intros; apply Hq; by split).
  unfold main.
  eapply (appends_bind _ (fun _ => True)); [appends_auto|intros _ _].
  eapply (appends_bind _ (fun _ => True)); [appends_auto|intros _ _].
  eapply (appends_bind _ (fun _ => True)); [appends_auto|intros cfg _].
  eapply (appends_bind _ (fun _ => True)); [appends_auto|intros accounts _].
  destruct accounts as [[|a accounts]|]; [appends_auto| |appends_auto].
  eapply (appends_bind _ (fun _ => True));
    [by apply check_in_all_appends|intros [success balances] _].
  eapply (appends_bind _ (fun _ => True));
    [by apply send_dingtalk_message_appends|intros; appends_auto].
Qed.

(** ** A run and the state file *)

Section IgnoresFile.
Context {A : Type}.

Lemma ignores_file_ret (a : A) : ignores_file (ret a).
Proof. intros t h h'. by exists (Ok a), t. Qed.

Lemma ignores_file_lift (r : result A) : ignores_file (lift r).
Proof. intros t h h'. by exists r, t. Qed.

Lemma ignores_file_bind {B} (m : M B) (k : B -> M A) :
  ignores_file m -> (forall b, ignores_file (k b)) -> ignores_file (bind m k).
Proof.
  intros Hm Hk t h h'. destruct (Hm t h h') as (r & t' & H1 & H2).
  unfold bind. rewrite H1, H2. destruct r as [b|e]; [apply Hk|].
  by exists (Raise e), t'.
Qed.

Lemma ignores_file_try_except_if (c : exn -> bool) (m : M A)
    (hd : exn -> M A) :
  ignores_file m -> (forall e, ignores_file (hd e)) ->
  ignores_file (try_except_if c m hd).
Proof.
  intros Hm Hh t h h'. destruct (Hm t h h') as (r & t' & H1 & H2).
  unfold try_except_if. rewrite H1, H2. destruct r as [a|e].
  - by exists (Ok a), t'.
  - destruct (c e); [apply Hh|]. by exists (Raise e), t'.
Qed.

Lemma ignores_file_try_except (m : M A) (hd : exn -> M A) :
  ignores_file m -> (forall e, ignores_file (hd e)) ->
  ignores_file (try_except m hd).
Proof.
  intros Hm Hh t h h'. destruct (Hm t h h') as (r & t' & H1 & H2).
  unfold try_except. rewrite H1, H2. destruct r as [a|e]; [|apply Hh].
  by exists (Ok a), t'.
Qed.

Lemma ignores_file_finally (m : M A) (f : M unit) :
  ignores_file m -> ignores_file f -> ignores_file (finally m f).
Proof.
  intros Hm Hf t h h'. destruct (Hm t h h') as (r & t' & H1 & H2).
  unfold finally. rewrite H1, H2.
  destruct (Hf t' h h') as (r' & t'' & H3 & H4). rewrite H3, H4.
  destruct r' as [[]|e]; eauto.
Qed.
End IgnoresFile.

Lemma ignores_file_emit (ev : event) : ignores_file (emit ev).
Proof. intros t h h'. by exists (Ok tt), (t ++ [ev]). Qed.

Ltac ignores_file_step :=
  lazymatch goal with
  | |- ignores_file (ret _) => apply ignores_file_ret
  | |- ignores_file (lift _) => apply ignores_file_lift
  | |- ignores_file (emit _) => apply ignores_file_emit
  | |- ignores_file (print _) => apply ignores_file_emit
  | |- ignores_file (call _ _) => unfold call
  | |- ignores_file (bind _ _) => apply ignores_file_bind; [ | intros ? ]
  | |- ignores_file (try_except_if _ _ _) =>
      apply ignores_file_try_except_if; [ | intros ? ]
  | |- ignores_file (try_except _ _) =>
      apply ignores_file_try_except; [ | intros ? ]
  | |- ignores_file (finally _ _) => apply ignores_file_finally
  | |- ignores_file (if ?c then _ else _) => destruct c
  | |- ignores_file (match ?c with _ => _ end) => destruct c
  end.

Ltac ignores_file_auto := repeat ignores_file_step.

Lemma check_in_account_ignores_file (w : World) (account : AccountConfig)
    (idx : nat) (cfg : AppConfig) :
  ignores_file (check_in_account w account idx cfg).
Proof.
  unfold check_in_account, prepare_cookies, get_waf_cookies_with_playwright,
    waf_page_visit, check_in_session, get_user_info,
    execute_check_in, classify_check_in, checkin_success.
  ignores_file_auto.
Qed.

Lemma check_in_all_ignores_file (w : World) (cfg : AppConfig)
    (accounts : list AccountConfig) :
  forall i success balances,
    ignores_file (check_in_all w cfg accounts i success balances).
Proof.
  induction accounts as [|account rest IH]; intros; simpl.
  - apply ignores_file_ret.
  - apply ignores_file_bind; [apply check_in_account_ignores_file|].
    intros [ok info]. apply IH.
Qed.

Lemma main_ignores_file (w : World) : ignores_file (main w).
Proof.
  unfold main, send_dingtalk_message.
  repeat first [apply check_in_all_ignores_file | ignores_file_step].
Qed.

(** C2, as amended.  A run neither loads nor saves a balance digest:
    [main] never opens the state file, for reading or for writing; the
    file holds after the run what it held before (an absent file stays
    absent); and the outcome of the run and everything it prints or sends
    are the same whatever the file holds. *)
Theorem run_leaves_state_file_alone (w : World) (t : list event) :
  exists r evs,
    (forall h : option bytes, main w (State t h) = (r, State (t ++ evs) h))
    /\ Forall (fun ev => is_file_event ev = false) evs.
Proof.
  destruct (main_appends (fun ev => is_file_event ev = false) w)
    with (t := t) (h := @None bytes) as (r & evs & Hrun & Hevs & _).
  - by intros ev [_ ?].
  - by intros.
  - exists r, evs. split; [|done]. intros h.
    destruct (main_ignores_file w t None h) as (r' & t' & H1 & H2).
    rewrite H2. rewrite Hrun in H1. by injection H1 as <- <-.
Qed.

(** The account of the run below: its balance is read as 2.47. *)
Example one_account_balance :
  fst (check_in_account (world_answering (Ok (http_200 anyrouter_user_info)))
         account_b 0 sample_config start)
  = Ok (true,
        Some (Balance (FFinite false 5561945539802563 (-51))
                      (FFinite false 5764607523034235 (-59))
                      (utf8 "💰 当前余额: $2.47，已使用: $0.01"))).
Proof. vm_compute. reflexivity. Qed.

(** C2, the claim as stated fails.  In a run that checks in one account
    and reads its balance, 2.47, the state file is never opened and holds
    at the end what it held at the start, the digest of some earlier run;
    the digest of the balances read in this run is another one.  A run
    that starts without the file ends without it. *)
Lemma run_does_not_save_digest :
  fst (main (world_answering (Ok (http_200 anyrouter_user_info)))
         start_with_digest) = Ok 0
  /\ hash_file (snd (main (world_answering (Ok (http_200 anyrouter_user_info)))
                       start_with_digest)) = Some old_digest
  /\ generate_balance_hash
       (world_answering (Ok (http_200 anyrouter_user_info)))
       (Some {[ utf8 "B" :=
                  {[ utf8 "quota" :=
                       PFloat (FFinite false 5561945539802563 (-51)) ]} ]})
     = Ok (utf8 "d85426643ce31345")
  /\ Some old_digest <> Some (utf8 "d85426643ce31345")
  /\ forallb (fun ev => negb (is_file_event ev))
       (trace (snd (main (world_answering
                            (Ok (http_200 anyrouter_user_info)))
                         start_with_digest))) = true
  /\ hash_file (snd (main (world_answering (Ok (http_200 anyrouter_user_info)))
                       start)) = None.
Proof.
  split; [vm_compute; reflexivity|]. split; [vm_compute; reflexivity|].
  split; [vm_compute; reflexivity|]. split; [vm_compute; discriminate|].
  split; vm_compute; reflexivity.
Qed.

(** ** The digest helpers *)

Lemma encode_from_ascii (s : str) (pos : nat) :
  Forall (fun c => (c < 128)%N) s -> encode_from pos s = Ok s.
Proof.
  intros Hs. revert pos. induction Hs as [|c s Hc Hs IH]; intros pos; simpl.
  - reflexivity.
  - unfold is_surrogate.
    rewrite (proj2 (N.leb_gt 55296 c)) by lia. simpl.
    rewrite IH. unfold encode_char.
    by rewrite (proj2 (N.ltb_lt c 128)) by lia.
Qed.

Lemma encode_utf8_ascii (s : str) :
  Forall (fun c => (c < 128)%N) s -> encode_utf8 s = Ok s.
Proof. apply encode_from_ascii. Qed.

Lemma decode_utf8_ascii (s : str) :
  Forall (fun c => (c < 128)%N) s -> decode_utf8 s = Some s.
Proof.
  induction 1 as [|c s Hc Hs IH]; simpl; [done|].
  rewrite (proj2 (N.ltb_lt c 128)) by lia. by rewrite IH.
Qed.

Lemma write_newlines_none (linesep s : str) :
  Forall (fun c => c <> 10%N) s -> write_newlines linesep s = s.
Proof.
  unfold write_newlines. induction 1 as [|c s Hc Hs IH]; simpl; [done|].
  rewrite (proj2 (N.eqb_neq c 10)) by done. simpl. by f_equal.
Qed.

Lemma universal_newlines_none (s : str) :
  Forall (fun c => c <> 13%N) s -> universal_newlines s = s.
Proof.
  induction 1 as [|c s Hc Hs IH]; simpl; [done|].
  rewrite (proj2 (N.eqb_neq c 13)) by done. by f_equal.
Qed.

(** What the helpers do when they are called: a saved text of ASCII
    characters without line breaks is what a later load returns, up to
    surrounding white space. *)
Lemma load_after_save (w : World) (digest : str) (s : state) :
  Forall (fun c => (c < 128)%N /\ c <> 10%N /\ c <> 13%N) digest ->
  open_read w = Ok tt -> open_write w = Ok tt ->
  fst (load_balance_hash w (snd (save_balance_hash w digest s)))
  = Ok (Some (strip digest)).
Proof.
  intros Hd Hr Hw.
  unfold load_balance_hash, save_balance_hash, write_file, read_text; run.
  rewrite Hw; simpl.
  rewrite write_newlines_none
    by (eapply Forall_impl; [exact Hd|]; naive_solver).
  rewrite encode_utf8_ascii
    by (eapply Forall_impl; [exact Hd|]; naive_solver).
  simpl. rewrite Hr; simpl.
  rewrite decode_utf8_ascii
    by (eapply Forall_impl; [exact Hd|]; naive_solver).
  simpl.
  rewrite universal_newlines_none
    by (eapply Forall_impl; [exact Hd|]; naive_solver).
  reflexivity.
Qed.

Lemma generate_balance_hash_length (w : World) (b : option (gmap str dict))
    (digest : str) :
  generate_balance_hash w b = Ok digest -> (length digest <= 16)%nat.
Proof.
  unfold generate_balance_hash. intros H.
  repeat case_match; simplify_eq; rewrite length_take; lia.
Qed.

(** ** Faults of one account *)

(** Inside the [try] statement every exception is turned into
    [(False, None)]: the block returns a value whatever the requests do. *)
Lemma check_in_session_never_raises (w : World) (name : str)
    (account : AccountConfig) (pc : ProviderConfig) (all_cookies : dict)
    (s : state) :
  exists v s', check_in_session w name account pc all_cookies s = (Ok v, s').
Proof.
  unfold check_in_session, finally, try_except.
  match goal with
  | |- context [bind ?m ?k s] => destruct (bind m k s) as [[v|e] s1]
  end; run; eauto.
Qed.

(** Before the [try] statement nothing is caught: when the name [true] is
    not bound, the exception of the lookup leaves [check_in_account]. *)
Lemma unbound_true_escapes (w : World) (account : AccountConfig) (idx : nat)
    (cfg : AppConfig) (pc : ProviderConfig) (t : list event)
    (h : option str) (e : exn) :
  get_provider cfg (provider account) = Some pc ->
  needs_waf_cookies pc = true ->
  parse_cookies (cookies account) <> ∅ ->
  playwright_start (browser w (domain pc ++ login_path pc)) = Ok tt ->
  temp_dir (browser w (domain pc ++ login_path pc)) = Ok tt ->
  global_true w = Raise e ->
  exists evs,
    check_in_account w account idx cfg (State t h)
    = (Raise e, State (t ++ evs) h).
Proof.
  intros Hpc Hwaf Hparse Hstart Htmp Htrue.
  unfold check_in_account; run. rewrite Hpc; simpl.
  case_bool_decide; [done|]. simpl.
  unfold prepare_cookies. rewrite Hwaf.
  unfold get_waf_cookies_with_playwright; run.
  rewrite Hstart, Htmp, Htrue; simpl.
  eexists. rewrite <- !app_assoc. simpl. reflexivity.
Qed.

(** An exception that leaves [check_in_account] ends the loop of [main]:
    the accounts after it are not processed. *)
Lemma check_in_all_stops (w : World) (cfg : AppConfig)
    (account : AccountConfig) (rest : list AccountConfig) (i : nat)
    (success : Z) (balances : list Row) (s s' : state) (e : exn) :
  check_in_account w account i cfg s = (Raise e, s') ->
  check_in_all w cfg (account :: rest) i success balances s = (Raise e, s').
Proof. intros H. simpl. unfold bind. by rewrite H. Qed.

(** C1, on the module as written (nothing binds [true]) with a first
    account behind the WAF and a second one that needs no WAF: the
    exception of the first account leaves [check_in_account] and [main],
    the second account is never started, and the process exits with 1;
    the second account alone would have been checked in. *)
Theorem waf_fault_aborts_the_run :
  fst (check_in_account (world_as_written [account_a; account_b]) account_a 0
         sample_config start) = Raise name_error_true
  /\ main (world_as_written [account_a; account_b]) start
     = (Raise name_error_true,
        State
          [Print [Lit "[SYSTEM] AnyRouter.top 多账号自动签到脚本启动"];
           Print [Lit "[TIME] 当前执行时间: ";
                  Str (utf8 "2025-01-01 00:00:00")];
           Print [Lit "
[PROCESSING] 开始处理 "; Str (utf8 "A")];
           Print [Lit "[INFO] "; Str (utf8 "A"); Lit ": Using provider ";
                  Str quote; Str (utf8 "anyrouter"); Str quote; Lit " (";
                  Str (utf8 "https://anyrouter.top"); Lit ")"];
           Print [Lit "[PROCESSING] "; Str (utf8 "A");
                  Lit ": Starting browser to get WAF cookies..."];
           PlaywrightStart; TempDirCreate; TempDirCleanup; PlaywrightStop]
          None)
  /\ fst (run_main (world_as_written [account_a; account_b]) start) = 1
  /\ fst (main (world_as_written [account_b]) start) = Ok 0.
Proof.
  split; [vm_compute; reflexivity|]. split; [vm_compute; reflexivity|].
  split; vm_compute; reflexivity.
Qed.

(** For contrast: when the acquisition fails by returning nothing (here a
    world in which [true] is bound and the page sets two of the three
    cookies), the first account ends as a failure and the run goes on to
    the second one. *)
Example missing_cookie_does_not_abort :
  fst (main (world_with (Ok (PBool true)) two_waf_cookies
               (Ok (http_200 anyrouter_user_info))
               (Ok (http_200 sign_in_ret_1)) [account_a; account_b])
         start) = Ok 0.
Proof. vm_compute. reflexivity. Qed.

(** * Further properties, function by function *)

(** ** Strings *)

Lemma str_contains_char (c : N) (s : str) :
  str_contains [c] s = true <-> c ∈ s.
Proof.
  induction s as [|a s IH].
  - split; [discriminate|]. by intros ?%elem_of_nil.
  - change (str_contains [c] (a :: s))
      with ((c =? a)%N && true || str_contains [c] s).
    rewrite elem_of_cons, orb_true_iff, andb_true_r, N.eqb_eq. tauto.
Qed.

Lemma split_on_not_nil (sep : N) (s : str) : split_on sep s <> [].
Proof.
  induction s as [|c s IH]; simpl; [done|].
  destruct (c =? sep)%N; [done|]. by destruct (split_on sep s).
Qed.

Lemma split_on_no_sep (sep : N) (s : str) :
  sep ∉ s -> split_on sep s = [s].
Proof.
  induction s as [|c s IH]; intros Hs; simpl; [done|].
  apply not_elem_of_cons in Hs as [Hc Hs].
  destruct (N.eqb_spec c sep); [congruence|]. by rewrite IH.
Qed.

(** The pieces of [s + sep + seg] are the pieces of [s] and then [seg]. *)
Lemma split_on_app (sep : N) (s seg : str) :
  sep ∉ seg -> split_on sep (s ++ sep :: seg) = split_on sep s ++ [seg].
Proof.
  intros Hseg. induction s as [|c s IH]; simpl.
  - rewrite N.eqb_refl. by rewrite split_on_no_sep.
  - destruct (c =? sep)%N; [by rewrite IH|].
    rewrite IH. pose proof (split_on_not_nil sep s).
    by destruct (split_on sep s).
Qed.

(** A character other than the separator is in [s] exactly when it is in
    one of the pieces. *)
Lemma elem_of_split_on (sep c : N) (s : str) :
  c <> sep -> (c ∈ s <-> Exists (fun seg => c ∈ seg) (split_on sep s)).
Proof.
  intros Hc. induction s as [|a s IH]; simpl.
  - rewrite Exists_cons, Exists_nil. split; [by intros ?%elem_of_nil|].
    by intros [?%elem_of_nil|[]].
  - rewrite elem_of_cons, IH. destruct (N.eqb_spec a sep) as [->|Ha].
    + rewrite Exists_cons. split; [intros [?|?]; [done|by right]|].
      intros [?%elem_of_nil|?]; [done|by right].
    + pose proof (split_on_not_nil sep s).
      destruct (split_on sep s) as [|w ws]; [done|].
      rewrite !Exists_cons, elem_of_cons. tauto.
Qed.

Lemma lstrip_spaces (ws s : str) :
  Forall (fun c => is_space c = true) ws -> lstrip (ws ++ s) = lstrip s.
Proof.
  induction 1 as [|c ws Hc _ IH]; simpl; [done|]. by rewrite Hc.
Qed.

Lemma lstrip_head (s : str) :
  (forall c, head s = Some c -> is_space c = false) -> lstrip s = s.
Proof.
  destruct s as [|c s]; simpl; [done|]. intros H. by rewrite (H c).
Qed.

Lemma elem_of_lstrip (c : N) (s : str) :
  is_space c = false -> c ∈ s -> c ∈ lstrip s.
Proof.
  intros Hc. induction s as [|a s IH]; simpl; [done|].
  intros [->|Hin]%elem_of_cons.
  - rewrite Hc. apply list_elem_of_here.
  - destruct (is_space a); [by apply IH|by apply list_elem_of_further].
Qed.

Lemma elem_of_rev (c : N) (s : str) : c ∈ rev s <-> c ∈ s.
Proof. rewrite !list_elem_of_In. symmetry. apply in_rev. Qed.

(** [strip] keeps every character that is not white space. *)
Lemma elem_of_strip (c : N) (s : str) :
  is_space c = false -> c ∈ s -> c ∈ strip s.
Proof.
  intros Hc Hin. unfold strip.
  apply elem_of_rev, elem_of_lstrip, elem_of_rev, elem_of_lstrip; done.
Qed.

Lemma head_rev (s : str) : head (rev s) = last s.
Proof.
  induction s as [|a s IH] using rev_ind; [done|].
  by rewrite rev_app_distr, last_snoc.
Qed.

(** [strip] removes the white space around a text that neither starts nor
    ends with white space. *)
Lemma strip_surrounded (ws body ws' : str) :
  Forall (fun c => is_space c = true) ws ->
  Forall (fun c => is_space c = true) ws' ->
  (forall c, head body = Some c -> is_space c = false) ->
  (forall c, last body = Some c -> is_space c = false) ->
  body <> [] ->
  strip (ws ++ body ++ ws') = body.
Proof.
  intros Hws Hws' Hhd Hlast Hne. unfold strip.
  rewrite lstrip_spaces by done.
  rewrite (lstrip_head (body ++ ws')).
  2: { destruct body; [by destruct Hne|]. exact Hhd. }
  rewrite rev_app_distr, lstrip_spaces.
  2: { apply Forall_forall. intros c Hc.
       apply (proj1 (elem_of_rev _ _)) in Hc.
       by apply (proj1 (Forall_forall _ _) Hws'). }
  rewrite lstrip_head; [apply rev_involutive|].
  intros c. rewrite head_rev. apply Hlast.
Qed.

Lemma split_once_app (sep : N) (k v : str) :
  sep ∉ k -> split_once sep (k ++ sep :: v) = (k, Some v).
Proof.
  induction k as [|c k IH]; intros Hk; simpl.
  - by rewrite N.eqb_refl.
  - apply not_elem_of_cons in Hk as [Hc Hk].
    destruct (N.eqb_spec c sep); [congruence|]. by rewrite IH.
Qed.

Lemma split_once_elem (sep : N) (s : str) :
  sep ∈ s -> exists k v, split_once sep s = (k, Some v).
Proof.
  intros Hin. apply list_elem_of_split in Hin as (k & v & ->).
  induction k as [|c k IH]; simpl.
  - rewrite N.eqb_refl. eauto.
  - destruct (c =? sep)%N; [eauto|].
    destruct IH as (k' & v' & ->). eauto.
Qed.

(** ** [parse_cookies] *)

Lemma add_cookie_without_equals (d : dict) (seg : str) :
  61%N ∉ seg -> add_cookie d seg = d.
Proof.
  intros Hseg. unfold add_cookie.
  change (utf8 "=") with [61%N].
  destruct (str_contains [61%N] seg) eqn:E; [|done].
  by apply str_contains_char in E.
Qed.

Lemma add_cookie_with_equals (d : dict) (seg : str) :
  61%N ∈ seg -> exists k v, add_cookie d seg = <[k := PStr v]> d.
Proof.
  intros Hseg. unfold add_cookie. change (utf8 "=") with [61%N].
  rewrite (proj2 (str_contains_char 61 seg) Hseg).
  destruct (split_once_elem 61 (strip seg)) as (k & v & ->);
    [by apply elem_of_strip|eauto].
Qed.

Lemma foldl_add_cookie_empty (segs : list str) (d : dict) :
  foldl add_cookie d segs = ∅
  <-> d = ∅ /\ Forall (fun seg => 61%N ∉ seg) segs.
Proof.
  revert d. induction segs as [|seg segs IH]; intros d; simpl.
  - rewrite Forall_nil. tauto.
  - rewrite IH, Forall_cons.
    destruct (decide (61%N ∈ seg)) as [Hin|Hout].
    + destruct (add_cookie_with_equals d seg Hin) as (k & v & ->).
      split; [intros [H _]; by apply insert_non_empty in H|tauto].
    + rewrite add_cookie_without_equals by done. tauto.
Qed.

(** X1.  A cookie payload given as a string parses to the empty dict
    exactly when the string has no [=]: without one no piece passes the
    test ['=' in cookie], and a piece that passes it always adds an
    entry. *)
Theorem parse_cookies_string_empty_iff (s : str) :
  parse_cookies (PStr s) = ∅ <-> 61%N ∉ s.
Proof.
  unfold parse_cookies. rewrite foldl_add_cookie_empty.
  rewrite (elem_of_split_on 59 61 s) by done.
  rewrite <- Forall_Exists_neg. tauto.
Qed.

Lemma parse_cookies_snoc (s seg : str) :
  59%N ∉ seg ->
  parse_cookies (PStr (s ++ 59%N :: seg))
  = add_cookie (parse_cookies (PStr s)) seg.
Proof.
  intros Hseg. unfold parse_cookies.
  by rewrite split_on_app, foldl_app.
Qed.

Lemma is_space_not_semicolon (c : N) : is_space c = true -> c <> 59%N.
Proof. by intros H ->. Qed.

(** X2.  One more piece [; key=value] at the end of the string, with white
    space around it or not, sets [key] to [value] in the dict of the
    string before it: a later piece overrides an earlier one with the same
    key, the white space around the piece is dropped, and the value is
    everything after the first [=], further [=] included. *)
Theorem parse_cookies_last_pair (s ws key value ws' : str) :
  Forall (fun c => is_space c = true) ws ->
  Forall (fun c => is_space c = true) ws' ->
  59%N ∉ key -> 61%N ∉ key -> 59%N ∉ value ->
  (forall c, head key = Some c -> is_space c = false) ->
  (forall c, last value = Some c -> is_space c = false) ->
  parse_cookies (PStr (s ++ 59%N :: ws ++ (key ++ 61%N :: value) ++ ws'))
  = <[key := PStr value]> (parse_cookies (PStr s)).
Proof.
  intros Hws Hws' Hk59 Hk61 Hv59 Hhd Hlast.
  assert (forall l : str, Forall (fun c => is_space c = true) l -> 59%N ∉ l)
    as Hsp.
  { intros l Hl Hin. apply (proj1 (Forall_forall _ _) Hl) in Hin.
    by apply is_space_not_semicolon in Hin. }
  rewrite parse_cookies_snoc.
  2: { rewrite !not_elem_of_app, not_elem_of_cons. auto using Hsp. }
  unfold add_cookie. change (utf8 "=") with [61%N].
  rewrite (proj2 (str_contains_char 61 _)).
  2: { rewrite !elem_of_app, elem_of_cons. auto. }
  rewrite strip_surrounded; try done.
  - by rewrite split_once_app.
  - destruct key as [|c key]; simpl; [by intros ? [= <-]|exact Hhd].
  - intros c. destruct value as [|a value _] using rev_ind.
    + rewrite last_snoc. by intros [= <-].
    + assert (key ++ 61%N :: value ++ [a] = (key ++ 61%N :: value) ++ [a])
        as -> by (by rewrite <- app_assoc).
      rewrite last_snoc.
      intros [= <-]. apply Hlast. by rewrite last_snoc.
  - by destruct key.
Qed.

(** X3.  One more piece without [=] at the end of the string changes
    nothing: the piece is skipped. *)
Theorem parse_cookies_last_skipped (s seg : str) :
  59%N ∉ seg -> 61%N ∉ seg ->
  parse_cookies (PStr (s ++ 59%N :: seg)) = parse_cookies (PStr s).
Proof.
  intros H59 H61. rewrite parse_cookies_snoc by done.
  by apply add_cookie_without_equals.
Qed.

Ltac by_decide := apply (bool_decide_unpack _); vm_compute; exact I.

Lemma parse_cookies_last_pair_witness :
  parse_cookies (PStr (utf8 "sid=1; sid=2=3 "))
  = <[utf8 "sid" := PStr (utf8 "2=3")]> (parse_cookies (PStr (utf8 "sid=1"))).
Proof.
  apply (parse_cookies_last_pair (utf8 "sid=1") (utf8 " ") (utf8 "sid")
           (utf8 "2=3") (utf8 " "));
    try (by repeat constructor);
    try by_decide;
    intros c H; vm_compute in H; injection H as <-; reflexivity.
Defined.

Lemma parse_cookies_last_skipped_witness :
  parse_cookies (PStr (utf8 "sid=1; secure"))
  = parse_cookies (PStr (utf8 "sid=1")).
Proof.
  apply (parse_cookies_last_skipped (utf8 "sid=1") (utf8 " secure"));
    by_decide.
Defined.

(** ** The digest helpers *)

(** X4.  [load_balance_hash] never raises and never changes the state
    file.  When the file exists, can be opened and holds valid UTF-8, it
    returns the text, with every line ending read as a line feed and the
    white space at both ends removed; otherwise nothing.  The file is
    opened only when it exists. *)
Theorem load_balance_hash_returns (w : World) (t : list event)
    (h : option bytes) :
  load_balance_hash w (State t h)
  = (Ok match h, open_read w with
        | Some data, Ok _ =>
            match decode_utf8 data with
            | Some content => Some (strip (universal_newlines content))
            | None => None
            end
        | _, _ => None
        end,
     State (t ++ match h with Some _ => [FileRead] | None => [] end) h).
Proof.
  unfold load_balance_hash, read_text; run. destruct h as [data|]; simpl.
  - destruct (open_read w); simpl; [|done]. by destruct (decode_utf8 data).
  - by rewrite app_nil_r.
Qed.

(** X5.  [save_balance_hash] never raises.  When the file cannot be opened,
    its content stays what it was and the warning with the exception is
    printed.  When it can, the file is emptied; then it holds the UTF-8
    bytes of the text, line feeds written as the line separator of the
    platform, unless the text has a surrogate: then it stays empty, and
    the warning with the [UnicodeEncodeError] is printed. *)
Theorem save_balance_hash_returns (w : World) (digest : str)
    (t : list event) (h : option bytes) :
  save_balance_hash w digest (State t h)
  = match open_write w with
    | Ok _ =>
        match encode_utf8 (write_newlines (os_linesep w) digest) with
        | Ok data => (Ok tt, State (t ++ [FileWrite digest]) (Some data))
        | Raise e =>
            (Ok tt,
             State (t ++ [FileWrite digest;
                          Print [Lit "Warning: Failed to save balance hash: ";
                                 Err e]]) (Some []))
        end
    | Raise e =>
        (Ok tt,
         State (t ++ [FileWrite digest;
                      Print [Lit "Warning: Failed to save balance hash: ";
                             Err e]]) h)
    end.
Proof.
  unfold save_balance_hash, write_file; run.
  destruct (open_write w); simpl; [|by rewrite <- app_assoc].
  destruct (encode_utf8 _); simpl; [done|]. by rewrite <- app_assoc.
Qed.

(** A text with a surrogate is not written: the file is left empty. *)
Example save_surrogate_empties_file :
  save_balance_hash (world_as_written []) [97; 55296]%N start_with_digest
  = (Ok tt,
     State [FileWrite [97; 55296]%N;
            Print [Lit "Warning: Failed to save balance hash: ";
                   Err (Exn UnicodeEncodeError
                          (utf8 "'utf-8' codec can't encode character '\ud800' in position 1: surrogates not allowed"))]]
           (Some [])).
Proof. vm_compute. reflexivity. Qed.

(** Bytes that are not UTF-8 are not a digest; line endings are read as
    line feeds. *)
Example load_undecodable_is_none :
  fst (load_balance_hash (world_as_written []) (State [] (Some [255%N])))
  = Ok None
  /\ fst (load_balance_hash (world_as_written [])
            (State [] (Some [32; 97; 13; 10; 98; 13; 99; 13; 10]%N)))
     = Ok (Some [97; 10; 98; 10; 99]%N).
Proof. split; vm_compute; reflexivity. Qed.

Lemma is_hex_digit_not_space (c : N) :
  is_hex_digit c = true -> is_space c = false.
Proof.
  unfold is_hex_digit, is_space. intros H.
  apply orb_true_iff in H. rewrite !andb_true_iff, !N.leb_le in H.
  repeat match goal with
         | |- context [(?a <=? ?b)%N] =>
             first [rewrite (proj2 (N.leb_le a b)) by lia
                   |rewrite (proj2 (N.leb_gt a b)) by lia]
         | |- context [(?a =? ?b)%N] =>
             rewrite (proj2 (N.eqb_neq a b)) by lia
         end.
  reflexivity.
Qed.

Lemma is_hex_digit_ascii (c : N) :
  is_hex_digit c = true -> (c < 128)%N /\ c <> 10%N /\ c <> 13%N.
Proof.
  unfold is_hex_digit. intros H.
  apply orb_true_iff in H. rewrite !andb_true_iff, !N.leb_le in H. lia.
Qed.

Lemma strip_without_space (s : str) :
  Forall (fun c => is_space c = false) s -> strip s = s.
Proof.
  intros Hs. unfold strip.
  assert (forall l : str, Forall (fun c => is_space c = false) l ->
            lstrip l = l) as Hl.
  { intros l Hl. apply lstrip_head. destruct Hl; [done|].
    by intros ? [= <-]. }
  rewrite (Hl s Hs), Hl; [apply rev_involutive|].
  apply Forall_forall. intros c Hc. apply (proj1 (elem_of_rev _ _)) in Hc.
  by apply (proj1 (Forall_forall _ _) Hs).
Qed.

(** *** The digits of [hexdigest()] *)

Lemma hex_digit_is_hex (n : N) :
  (n < 16)%N -> is_hex_digit (hex_digit n) = true.
Proof.
  intros Hn. unfold hex_digit, is_hex_digit.
  destruct (N.ltb_spec n 10).
  - rewrite (proj2 (N.leb_le 48 (48 + n))), (proj2 (N.leb_le (48 + n) 57))
      by lia. reflexivity.
  - rewrite (proj2 (N.leb_le 97 (87 + n))), (proj2 (N.leb_le (87 + n) 102))
      by lia. apply orb_true_r.
Qed.

Lemma hex4_is_hex (c : N) : Forall (fun d => is_hex_digit d = true) (hex4 c).
Proof.
  unfold hex4.
  repeat (apply Forall_cons; split;
          [apply hex_digit_is_hex, N.mod_lt; lia|]).
  constructor.
Qed.

Lemma sha256_hexdigest_is_hex (data : bytes) :
  Forall (fun d => is_hex_digit d = true) (sha256_hexdigest data).
Proof.
  unfold sha256_hexdigest. induction (sha256 data) as [|x l IH].
  - constructor.
  - cbn [map concat].
    apply Forall_app_2; [apply Forall_app_2; apply hex4_is_hex|exact IH].
Qed.

Lemma sha256_round_length (st : list N) (kw : N * N) :
  length st = 8%nat -> length (sha256_round st kw) = 8%nat.
Proof.
  intros Hst. do 9 (destruct st as [|? st]; try done).
Qed.

Lemma sha256_rounds_length (l : list (N * N)) (st : list N) :
  length st = 8%nat -> length (foldl sha256_round st l) = 8%nat.
Proof.
  revert st. induction l as [|kw l IH]; intros st Hst; simpl; [done|].
  by apply IH, sha256_round_length.
Qed.

Lemma sha256_block_length (st : list N) (block : bytes) :
  length st = 8%nat -> length (sha256_block st block) = 8%nat.
Proof.
  intros Hst. unfold sha256_block.
  rewrite length_zip_with, sha256_rounds_length by done. lia.
Qed.

Lemma sha256_blocks_length (n : nat) (st : list N) (data : bytes) :
  length st = 8%nat -> length (sha256_blocks n st data) = 8%nat.
Proof.
  revert st data. induction n as [|n IH]; intros st data Hst; simpl; [done|].
  by apply IH, sha256_block_length.
Qed.

Lemma sha256_hexdigest_length (data : bytes) :
  length (sha256_hexdigest data) = 64%nat.
Proof.
  unfold sha256_hexdigest.
  assert (length (sha256 data) = 8%nat) as Hlen
    by (by apply sha256_blocks_length).
  revert Hlen. generalize (sha256 data). intros l Hl.
  do 9 (destruct l as [|? l]; try done).
Qed.

(** What [generate_balance_hash] returns is 16 hexadecimal digits. *)
Lemma generate_balance_hash_digits (w : World)
    (balances : option (gmap str dict)) (digest : str) :
  generate_balance_hash w balances = Ok digest ->
  length digest = 16%nat /\ Forall (fun c => is_hex_digit c = true) digest.
Proof.
  unfold generate_balance_hash. intros H.
  repeat case_match; simplify_eq.
  all: split; [rewrite length_take, sha256_hexdigest_length; lia|];
    apply Forall_take, sha256_hexdigest_is_hex.
Qed.

(** X6.  The three helpers together: a digest that [generate_balance_hash]
    produced, saved with [save_balance_hash], is what [load_balance_hash]
    returns afterwards, whatever the file held before.  The digest is made
    of hexadecimal digits, which are written and read back as they are and
    which [strip] leaves alone. *)
Theorem digest_round_trip (w : World) (balances : option (gmap str dict))
    (digest : str) (s : state) :
  open_write w = Ok tt ->
  open_read w = Ok tt ->
  generate_balance_hash w balances = Ok digest ->
  fst (load_balance_hash w (snd (save_balance_hash w digest s)))
  = Ok (Some digest).
Proof.
  intros Hw Hr Hgen.
  apply generate_balance_hash_digits in Hgen as [_ Hhex].
  rewrite load_after_save; [|by eapply Forall_impl;
                                [exact Hhex|apply is_hex_digit_ascii]|done..].
  rewrite strip_without_space; [done|].
  eapply Forall_impl; [exact Hhex|apply is_hex_digit_not_space].
Qed.

Lemma digest_round_trip_witness :
  generate_balance_hash (world_as_written [])
    (Some {[ utf8 "A" := {[ utf8 "quota" := PInt 5 ]} ]})
  = Ok (utf8 "3b73a85e30910334")
  /\ fst (load_balance_hash (world_as_written [])
            (snd (save_balance_hash (world_as_written [])
                    (utf8 "3b73a85e30910334") start_with_digest)))
     = Ok (Some (utf8 "3b73a85e30910334")).
Proof.
  split; [vm_compute; reflexivity|].
  apply (digest_round_trip (world_as_written [])
           (Some {[ utf8 "A" := {[ utf8 "quota" := PInt 5 ]} ]}));
    [reflexivity|reflexivity|vm_compute; reflexivity].
Defined.

(** *** The JSON text *)

Ltac ascii_text := apply (bool_decide_unpack _); vm_compute; exact I.

Lemma digits_fuel_ascii (fuel : nat) (n : Z) (acc : str) :
  Forall (fun c => (c < 128)%N) acc ->
  Forall (fun c => (c < 128)%N) (digits_fuel fuel n acc).
Proof.
  revert n acc. induction fuel as [|fuel IH]; intros n acc Hacc; simpl;
    [done|].
  assert (Forall (fun c => (c < 128)%N)
            ((48 + Z.to_N (n mod 10))%N :: acc)) as Hacc'.
  { constructor; [|done]. pose proof (Z.mod_pos_bound n 10). lia. }
  destruct (n <? 10); [done|]. by apply IH.
Qed.

Lemma str_of_nonneg_ascii (n : Z) :
  Forall (fun c => (c < 128)%N) (str_of_nonneg n).
Proof. apply digits_fuel_ascii. constructor. Qed.

Lemma str_of_int_ascii (n : Z) : Forall (fun c => (c < 128)%N) (str_of_int n).
Proof.
  unfold str_of_int. destruct (n <? 0); [|apply str_of_nonneg_ascii].
  constructor; [lia|apply str_of_nonneg_ascii].
Qed.

Lemma zeros_ascii (n : Z) : Forall (fun c => (c < 128)%N) (zeros n).
Proof.
  unfold zeros. induction (Z.to_nat n); simpl; constructor; [lia|done].
Qed.

Lemma format_short_ascii (ds : str) (decpt : Z) :
  Forall (fun c => (c < 128)%N) ds ->
  Forall (fun c => (c < 128)%N) (format_short ds decpt).
Proof.
  intros Hds. unfold format_short. cbv zeta.
  assert (Forall (fun c => (c < 128)%N) (utf8 "0.")) by ascii_text.
  assert (Forall (fun c => (c < 128)%N) (utf8 ".0")) by ascii_text.
  assert (Forall (fun c => (c < 128)%N) (utf8 ".")) by ascii_text.
  repeat case_match; subst;
    repeat first
      [ assumption
      | apply Forall_app_2
      | apply Forall_cons_2
      | apply Forall_nil_2
      | apply zeros_ascii
      | apply str_of_nonneg_ascii
      | apply Forall_take
      | apply Forall_drop
      | lia
      | match goal with
        | H : Forall _ (_ :: _) |- _ => apply Forall_cons in H as [? ?]
        end ].
Qed.

Lemma float_repr_ascii (x : float) :
  Forall (fun c => (c < 128)%N) (float_repr x).
Proof.
  unfold float_repr. destruct x as [|neg|neg|neg m e].
  - ascii_text.
  - destruct neg; ascii_text.
  - destruct neg; ascii_text.
  - unfold shortest_digits. cbv zeta.
    destruct (shortest_from _ _ _ _ _) as [c t].
    destruct (strip_zeros _ _ _) as [c' t'].
    apply Forall_app_2; [destruct neg; [ascii_text|constructor]|].
    apply format_short_ascii, str_of_nonneg_ascii.
Qed.

Lemma hex4_ascii (c : N) : Forall (fun d => (d < 128)%N) (hex4 c).
Proof.
  eapply Forall_impl; [apply hex4_is_hex|].
  intros d Hd. by apply is_hex_digit_ascii in Hd as [? _].
Qed.

Lemma json_char_ascii (c : N) : Forall (fun d => (d < 128)%N) (json_char c).
Proof.
  unfold json_char.
  repeat case_match;
    repeat first
      [ apply Forall_app_2
      | apply hex4_ascii
      | apply Forall_cons_2
      | apply Forall_nil_2
      | lia ].
  match goal with
  | H : _ && _ = true |- _ =>
      apply andb_true_iff in H as [_ H]; apply N.leb_le in H; lia
  end.
Qed.

Lemma json_string_ascii (s : str) :
  Forall (fun d => (d < 128)%N) (json_string s).
Proof.
  unfold json_string. apply Forall_app_2; [by repeat constructor|].
  apply Forall_app_2; [|by repeat constructor].
  induction s as [|c s IH]; simpl; [constructor|].
  apply Forall_app_2; [apply json_char_ascii|exact IH].
Qed.

(** The members of a container: the text is there when every member has
    one, and an exception is that of one of the members. *)
Lemma json_join_ok (parts : list (result str)) (s : str) :
  json_join parts = Ok s ->
  Forall (fun p => exists s', p = Ok s') parts.
Proof.
  revert s. induction parts as [|p rest IH]; intros s H; [constructor|].
  destruct rest as [|p' rest].
  - simpl in H. subst. repeat constructor. eauto.
  - change (json_join (p :: p' :: rest))
      with (match p, json_join (p' :: rest) with
            | Ok s, Ok r => Ok (s ++ 44%N :: r)
            | Raise e, _ | Ok _, Raise e => Raise e
            end) in H.
    destruct p as [s1|e1]; [|done].
    destruct (json_join (p' :: rest)) as [s2|e2] eqn:Hrest; [|done].
    constructor; [eauto|]. by eapply IH.
Qed.

Lemma json_join_raise (parts : list (result str)) (e : exn) :
  json_join parts = Raise e -> Raise e ∈ parts.
Proof.
  induction parts as [|p rest IH]; intros H; [done|].
  destruct rest as [|p' rest].
  - simpl in H. subst. apply list_elem_of_here.
  - change (json_join (p :: p' :: rest))
      with (match p, json_join (p' :: rest) with
            | Ok s, Ok r => Ok (s ++ 44%N :: r)
            | Raise e, _ | Ok _, Raise e => Raise e
            end) in H.
    destruct p as [s1|e1].
    + destruct (json_join (p' :: rest)) as [s2|e2] eqn:Hrest; [done|].
      injection H as ->. apply list_elem_of_further. by apply IH.
    + injection H as ->. apply list_elem_of_here.
Qed.

Lemma json_join_ascii (parts : list (result str)) (s : str) :
  json_join parts = Ok s ->
  Forall (fun p => forall s', p = Ok s' -> Forall (fun c => (c < 128)%N) s')
         parts ->
  Forall (fun c => (c < 128)%N) s.
Proof.
  revert s. induction parts as [|p rest IH]; intros s H Hparts.
  - injection H as <-. constructor.
  - apply Forall_cons in Hparts as [Hp Hrest].
    destruct rest as [|p' rest].
    + simpl in H. by apply Hp.
    + change (json_join (p :: p' :: rest))
        with (match p, json_join (p' :: rest) with
              | Ok s, Ok r => Ok (s ++ 44%N :: r)
              | Raise e, _ | Ok _, Raise e => Raise e
              end) in H.
      destruct p as [s1|e1]; [|done].
      destruct (json_join (p' :: rest)) as [s2|e2] eqn:Hj; [|done].
      injection H as <-. apply Forall_app_2; [by apply Hp|].
      constructor; [lia|]. by apply IH.
Qed.

Lemma json_wrap_ok (l r : N) (body : result str) (s : str) :
  json_wrap l r body = Ok s -> exists s0, body = Ok s0 /\ s = [l] ++ s0 ++ [r].
Proof. destruct body; [|done]. intros [= <-]. eauto. Qed.

(** The text is ASCII, whatever the value: [.encode('utf-8')] gives its
    characters as bytes. *)
Lemma json_float_ascii (f : float) :
  Forall (fun c => (c < 128)%N) (json_float f).
Proof.
  destruct f as [|neg|neg|neg m e]; unfold json_float.
  - ascii_text.
  - destruct neg; ascii_text.
  - apply float_repr_ascii.
  - apply float_repr_ascii.
Qed.

Lemma json_scalar_ascii (max_digits : N) (depth : nat) (v : pyval) (s : str) :
  is_scalar v = true ->
  json_encode max_digits depth v = Ok s -> Forall (fun c => (c < 128)%N) s.
Proof.
  intros Hv H.
  assert (match v with
          | PNone => Ok (utf8 "null")
          | PBool b => Ok (if b then utf8 "true" else utf8 "false")
          | PInt z => json_int max_digits z
          | PFloat f => Ok (json_float f)
          | PStr x => Ok (json_string x)
          | _ => Ok s
          end = Ok s) as H'
    by (destruct depth, v; try done; exact H).
  clear H. destruct v as [|b|z|f|x|l|d]; try done.
  - injection H' as <-. ascii_text.
  - injection H' as <-. destruct b; ascii_text.
  - unfold json_int in H'. case_match; [done|].
    injection H' as <-. apply str_of_int_ascii.
  - injection H' as <-. apply json_float_ascii.
  - injection H' as <-. apply json_string_ascii.
Qed.

Lemma json_encode_ascii (max_digits : N) (depth : nat) (v : pyval) (s : str) :
  json_encode max_digits depth v = Ok s -> Forall (fun c => (c < 128)%N) s.
Proof.
  revert v s. induction depth as [|depth IH]; intros v s H.
  - destruct (is_scalar v) eqn:Hv; [by eapply json_scalar_ascii|].
    by destruct v.
  - destruct (is_scalar v) eqn:Hv; [by eapply json_scalar_ascii|].
    destruct v as [| | | | |l|d]; try done; cbn [json_encode] in H.
    + apply json_wrap_ok in H as (s0 & Hj & ->).
      apply Forall_app_2; [constructor; [lia|constructor]|].
      apply Forall_app_2; [|constructor; [lia|constructor]].
      apply (json_join_ascii _ _ Hj).
      clear Hj Hv. induction l as [|x l IHl]; cbn [map]; [constructor|].
      constructor; [|done].
      intros s'. apply IH.
    + apply json_wrap_ok in H as (s0 & Hj & ->).
      apply Forall_app_2; [constructor; [lia|constructor]|].
      apply Forall_app_2; [|constructor; [lia|constructor]].
      apply (json_join_ascii _ _ Hj).
      clear Hj Hv. induction (sorted_items d) as [|kv l IHl]; cbn [map];
        [constructor|].
      constructor; [|done].
      intros s'.
      destruct (json_encode max_digits depth kv.2) as [a|] eqn:Hkv; [|done].
      intros Heq.
      assert (s' = json_string kv.1 ++ 58%N :: a) as -> by congruence.
      apply Forall_app_2; [apply json_string_ascii|].
      constructor; [lia|]. by eapply IH.
Qed.

(** The digest is that of the JSON text of name to quota. *)
Lemma generate_balance_hash_json (w : World) (b : gmap str dict) :
  map_Forall (fun _ v => is_Some (v !! utf8 "quota")) b ->
  generate_balance_hash w (Some b)
  = match json_encode (int_max_str_digits w) (json_depth w)
            (PDict (omap (fun v : dict => v !! utf8 "quota") b)) with
    | Ok balance_json => Ok (take 16 (sha256_hexdigest balance_json))
    | Raise e => Raise e
    end.
Proof.
  intros Hall. unfold generate_balance_hash.
  destruct (decide (map_Forall _ b)); [|done].
  destruct (json_encode _ _ _) as [s|e] eqn:Hj; [|done].
  by rewrite (encode_utf8_ascii s) by (by eapply json_encode_ascii).
Qed.

Lemma quota_of_lookup (b : gmap str dict) (k : str) :
  omap (fun v : dict => v !! utf8 "quota") b !! k
  = b !! k ≫= (fun v : dict => v !! utf8 "quota").
Proof. apply lookup_omap. Qed.

(** X7.  The digest depends on the [quota] entries only: two mappings with
    the same account names and the same quota under each name give the
    same result, whatever else their entries hold.  The result is that of
    the JSON encoder, or the first 16 hexadecimal digits of the SHA-256 of
    the JSON text, whose characters are its bytes. *)
Theorem generate_balance_hash_quota_only (w : World)
    (b1 b2 : gmap str dict) :
  map_Forall (fun _ v => is_Some (v !! utf8 "quota")) b1 ->
  map_Forall (fun _ v => is_Some (v !! utf8 "quota")) b2 ->
  (forall k, b1 !! k ≫= (fun v : dict => v !! utf8 "quota")
             = b2 !! k ≫= (fun v : dict => v !! utf8 "quota")) ->
  generate_balance_hash w (Some b1) = generate_balance_hash w (Some b2)
  /\ generate_balance_hash w (Some b1)
     = match json_encode (int_max_str_digits w) (json_depth w)
               (PDict (omap (fun v : dict => v !! utf8 "quota") b1)) with
       | Ok balance_json => Ok (take 16 (sha256_hexdigest balance_json))
       | Raise e => Raise e
       end
  /\ forall digest,
       generate_balance_hash w (Some b1) = Ok digest ->
       length digest = 16%nat
       /\ Forall (fun c => is_hex_digit c = true) digest.
Proof.
  intros H1 H2 Heq. split; [|split].
  - rewrite !generate_balance_hash_json by done.
    replace (omap (fun v : dict => v !! utf8 "quota") b2)
      with (omap (fun v : dict => v !! utf8 "quota") b1); [done|].
    apply map_eq. intros k. by rewrite !quota_of_lookup.
  - by apply generate_balance_hash_json.
  - intros digest. apply generate_balance_hash_digits.
Qed.

Lemma generate_balance_hash_quota_only_witness :
  generate_balance_hash (world_as_written [])
    (Some {[ utf8 "A" := {[ utf8 "quota" := PInt 5;
                            utf8 "used_quota" := PInt 1 ]} ]})
  = generate_balance_hash (world_as_written [])
      (Some {[ utf8 "A" := {[ utf8 "quota" := PInt 5 ]} ]})
  /\ generate_balance_hash (world_as_written [])
       (Some {[ utf8 "A" := {[ utf8 "quota" := PInt 5;
                               utf8 "used_quota" := PInt 1 ]} ]})
     = Ok (utf8 "3b73a85e30910334").
Proof.
  destruct (generate_balance_hash_quota_only (world_as_written [])
              {[ utf8 "A" := {[ utf8 "quota" := PInt 5;
                                utf8 "used_quota" := PInt 1 ]} ]}
              {[ utf8 "A" := {[ utf8 "quota" := PInt 5 ]} ]})
    as (Hsame & _ & _).
  - by_decide.
  - by_decide.
  - intros k. rewrite <- !quota_of_lookup.
    apply (f_equal (fun m : dict => m !! k)). vm_compute. reflexivity.
  - split; [exact Hsame|]. vm_compute. reflexivity.
Defined.

Lemma elem_of_sorted_items (d : dict) (k : str) (q : pyval) :
  (k, q) ∈ sorted_items d <-> d !! k = Some q.
Proof.
  unfold sorted_items. rewrite merge_sort_Permutation.
  apply elem_of_map_to_list.
Qed.

(** A value that is no container is refused only as an integer with too
    many digits. *)
Lemma json_encode_scalar (max_digits : N) (depth : nat) (q : pyval)
    (e : exn) :
  is_scalar q = true ->
  json_encode max_digits depth q = Raise e
  <-> exceeds_digits max_digits q = true /\ e = int_digits_error max_digits.
Proof.
  intros Hq.
  destruct depth, q as [|b|z|f|x|l|d]; try done;
    cbn [json_encode exceeds_digits];
    try (split; [done|by intros [? _]]).
  all: unfold json_int;
    destruct ((0 <? max_digits)%N && (10 ^ Z.of_N max_digits <=? Z.abs z));
    (split; [intros ?; by simplify_eq|by intros [? ->]]).
Qed.

Lemma json_encode_flat (max_digits : N) (depth : nat) (d : dict) (e : exn) :
  (forall k q, d !! k = Some q -> is_scalar q = true) ->
  json_encode max_digits (S depth) (PDict d) = Raise e
  <-> e = int_digits_error max_digits
      /\ exists k q, d !! k = Some q /\ exceeds_digits max_digits q = true.
Proof.
  intros Hflat. cbn [json_encode].
  set (f := fun kv : str * pyval =>
              match json_encode max_digits depth kv.2 with
              | Ok s => Ok (json_string kv.1 ++ 58%N :: s)
              | Raise e => Raise e
              end).
  assert (forall e', Raise e' ∈ map f (sorted_items d) ->
            e' = int_digits_error max_digits
            /\ exists k q, d !! k = Some q
                           /\ exceeds_digits max_digits q = true) as Hin.
  { intros e' He'. change (map f (sorted_items d)) with (f <$> sorted_items d)
      in He'.
    apply list_elem_of_fmap in He' as ([k q] & Hf & Hkq).
    apply elem_of_sorted_items in Hkq. unfold f in Hf. simpl in Hf.
    destruct (json_encode max_digits depth q) as [s|e''] eqn:Hq; [done|].
    injection Hf as ->.
    apply json_encode_scalar in Hq as [Hex ->]; [|by eapply Hflat].
    split; [done|]. by exists k, q. }
  split.
  - intros H. destruct (json_join (map f (sorted_items d))) as [s|e'] eqn:Hj;
      [done|].
    injection H as ->. by apply Hin, json_join_raise.
  - intros (-> & k & q & Hkq & Hex).
    destruct (json_join (map f (sorted_items d))) as [s|e'] eqn:Hj; simpl.
    + apply json_join_ok in Hj.
      assert (f (k, q) ∈ map f (sorted_items d)) as Hfin.
      { change (map f (sorted_items d)) with (f <$> sorted_items d).
        apply list_elem_of_fmap_2. by apply elem_of_sorted_items. }
      apply (proj1 (Forall_forall _ _) Hj) in Hfin as [s' Hs'].
      unfold f in Hs'. simpl in Hs'.
      destruct (json_encode max_digits depth q) as [s''|e''] eqn:Hq; [|done].
      assert (json_encode max_digits depth q
              = Raise (int_digits_error max_digits)) as Hr
        by (apply json_encode_scalar; [by eapply Hflat|done]).
      congruence.
    + apply json_join_raise, Hin in Hj as [-> _]. done.
Qed.

(** X8.  When the quotas are numbers, strings, booleans or [None], and the
    encoder can enter one container, [generate_balance_hash] raises in two
    cases only: some entry has no [quota], and it is the [KeyError] of the
    subscript; or every entry has one and some quota is an integer with more
    digits than the interpreter converts, and it is the [ValueError] of the
    conversion.  No mapping at all is treated as the empty mapping, whose
    digest is that of [{}]. *)
Theorem generate_balance_hash_raises_iff (w : World) (b : gmap str dict)
    (e : exn) :
  json_depth w <> 0%nat ->
  (forall k v q,
     b !! k = Some v -> v !! utf8 "quota" = Some q -> is_scalar q = true) ->
  (generate_balance_hash w (Some b) = Raise e
   <-> (e = Exn KeyError (utf8 "'quota'")
        /\ exists k v, b !! k = Some v /\ v !! utf8 "quota" = None)
       \/ (e = int_digits_error (int_max_str_digits w)
           /\ (forall k v, b !! k = Some v -> is_Some (v !! utf8 "quota"))
           /\ exists k v q,
                b !! k = Some v /\ v !! utf8 "quota" = Some q
                /\ exceeds_digits (int_max_str_digits w) q = true))
  /\ generate_balance_hash w None = generate_balance_hash w (Some ∅)
  /\ generate_balance_hash w None = Ok (utf8 "44136fa355b3678a").
Proof.
  intros Hdepth Hflat. split; [|split].
  - destruct (decide (map_Forall (fun _ v => is_Some (v !! utf8 "quota")) b))
      as [Hall|Hnot].
    + rewrite generate_balance_hash_json by done.
      destruct (json_depth w) as [|depth]; [done|].
      assert (forall k q,
                omap (fun v : dict => v !! utf8 "quota") b !! k = Some q ->
                is_scalar q = true) as Hflat'.
      { intros k q. rewrite quota_of_lookup.
        destruct (b !! k) as [v|] eqn:Hk; [|done]. simpl.
        intros Hq. by apply (Hflat k v q). }
      destruct (json_encode _ _ _) as [s|e'] eqn:Hj.
      * split; [done|].
        intros [(_ & k & v & Hk & Hq)|(-> & _ & k & v & q & Hk & Hq & Hex)].
        { apply Hall in Hk. rewrite Hq in Hk. by destruct Hk. }
        assert (json_encode (int_max_str_digits w) (S depth)
                  (PDict (omap (fun v : dict => v !! utf8 "quota") b))
                = Raise (int_digits_error (int_max_str_digits w))) as Habs.
        { apply json_encode_flat; [done|]. split; [done|]. exists k, q.
          split; [|done]. by rewrite quota_of_lookup, Hk. }
        congruence.
      * apply json_encode_flat in Hj as (-> & k & q & Hkq & Hex); [|done].
        split.
        -- intros [= <-]. right. split; [done|]. split; [exact Hall|].
           rewrite quota_of_lookup in Hkq.
           destruct (b !! k) as [v|] eqn:Hk; [|done]. by exists k, v, q.
        -- intros [(_ & k' & v & Hk & Hq)|(-> & _)]; [|done].
           apply Hall in Hk. rewrite Hq in Hk. by destruct Hk.
    + unfold generate_balance_hash.
      destruct (decide (map_Forall _ b)); [done|]. split.
      * intros [= <-]. left. split; [done|].
        apply map_not_Forall in Hnot; [|apply _].
        destruct Hnot as (k & v & Hk & Hq). exists k, v. split; [done|].
        destruct (v !! utf8 "quota"); [|done]. destruct Hq. eauto.
      * intros [(-> & _)|(_ & Hall & _)]; [done|]. destruct Hnot.
        intros k v Hk. by eapply Hall.
  - unfold generate_balance_hash.
    destruct (decide (map_Forall _ ∅)) as [_|Hnot].
    + by rewrite omap_empty.
    + destruct Hnot. apply map_Forall_empty.
  - unfold generate_balance_hash.
    destruct (json_depth w) as [|depth]; [done|]. simpl.
    unfold sorted_items. rewrite map_to_list_empty.
    vm_compute. reflexivity.
Qed.

Lemma generate_balance_hash_raises_iff_witness :
  generate_balance_hash (world_as_written [])
    (Some {[ utf8 "A" := {[ utf8 "quota" := PInt (10 ^ 4300) ]};
             utf8 "B" := {[ utf8 "quota" := PStr (utf8 "none") ]} ]})
  = Raise (int_digits_error 4300)
  /\ generate_balance_hash (world_as_written []) None
     = Ok (utf8 "44136fa355b3678a").
Proof.
  destruct (generate_balance_hash_raises_iff (world_as_written [])
              {[ utf8 "A" := {[ utf8 "quota" := PInt (10 ^ 4300) ]};
                 utf8 "B" := {[ utf8 "quota" := PStr (utf8 "none") ]} ]}
              (int_digits_error 4300))
    as (Hiff & _ & Hnone).
  - discriminate.
  - intros k v q Hk Hq.
    apply lookup_insert_Some in Hk as [[_ <-]|[_ Hk]].
    + apply lookup_singleton_Some in Hq as [_ <-]. reflexivity.
    + apply lookup_singleton_Some in Hk as [_ <-].
      apply lookup_singleton_Some in Hq as [_ <-]. reflexivity.
  - split; [|exact Hnone]. apply Hiff. right. split; [reflexivity|]. split.
    + intros k v Hk.
      apply lookup_insert_Some in Hk as [[_ <-]|[_ Hk]].
      * exists (PInt (10 ^ 4300)). apply lookup_singleton_eq.
      * apply lookup_singleton_Some in Hk as [_ <-].
        exists (PStr (utf8 "none")). apply lookup_singleton_eq.
    + exists (utf8 "A"), {[ utf8 "quota" := PInt (10 ^ 4300) ]},
        (PInt (10 ^ 4300)).
      split; [apply lookup_insert_eq|]. split; [apply lookup_singleton_eq|].
      vm_compute. reflexivity.
Defined.

(** ** [get_user_info] *)

Lemma is_agentrouter_format_dict (d : dict) :
  is_agentrouter_format (PDict d)
  = Ok (py_eq_str (default PNone (d !! utf8 "status")) (utf8 "ok")
        || py_eq_str (default PNone (d !! utf8 "status")) (utf8 "success")
        || py_eq_int (default PNone (d !! utf8 "code")) 0).
Proof.
  unfold is_agentrouter_format. simpl.
  by destruct (py_eq_str _ (utf8 "ok") || py_eq_str _ (utf8 "success")).
Qed.

(** X9.  The failure about the HTTP status is returned for every answer
    with a status other than 200, and also for an answer with status 200
    whose document is of neither format: no true [success], a [status]
    that is neither ["ok"] nor ["success"], and a [code] other than 0.
    The text then reads [HTTP 200]. *)
Theorem user_info_unrecognised_is_http_failure (w : World) (jar : dict)
    (headers : gmap str str) (url : str) (t : list event) (h : option str)
    (resp : Response) :
  client_get w url headers jar = Ok resp ->
  status_code resp <> 200
  \/ (exists d,
        json resp = Ok (PDict d)
        /\ py_truthy (default PNone (d !! utf8 "success")) = false
        /\ py_eq_str (default PNone (d !! utf8 "status")) (utf8 "ok") = false
        /\ py_eq_str (default PNone (d !! utf8 "status")) (utf8 "success")
           = false
        /\ py_eq_int (default PNone (d !! utf8 "code")) 0 = false) ->
  get_user_info w jar headers url (State t h)
  = (Ok (Failure (http_failure_text (status_code resp))),
     State (t ++ [Get url headers jar]) h).
Proof.
  intros Hget Hcase. unfold get_user_info; run. rewrite Hget; simpl.
  destruct Hcase as [Hst|(d & Hjs & Hsucc & Hok & Hsuccess & Hcode)].
  - by destruct (Z.eqb_spec (status_code resp) 200).
  - destruct (status_code resp =? 200); [|done]. simpl.
    rewrite Hjs; simpl. rewrite Hsucc; simpl.
    rewrite is_agentrouter_format_dict, Hok, Hsuccess, Hcode. reflexivity.
Qed.

Lemma user_info_unrecognised_is_http_failure_witness :
  get_user_info (world_answering (Ok http_404)) ∅ ∅ [] (State [] None)
  = (Ok (Failure (http_failure_text 404)), State ([] ++ [Get [] ∅ ∅]) None)
  /\ get_user_info (world_answering (Ok (http_200 (PDict unauthorized_doc))))
       ∅ ∅ [] (State [] None)
     = (Ok (Failure (http_failure_text 200)),
        State ([] ++ [Get [] ∅ ∅]) None)
  /\ http_failure_text 200 = utf8 "获取用户信息失败: HTTP 200".
Proof.
  split; [|split; [|vm_compute; reflexivity]].
  - apply (user_info_unrecognised_is_http_failure
             (world_answering (Ok http_404)) ∅ ∅ [] [] None http_404 eq_refl).
    left. discriminate.
  - apply (user_info_unrecognised_is_http_failure
             (world_answering (Ok (http_200 (PDict unauthorized_doc))))
             ∅ ∅ [] [] None (http_200 (PDict unauthorized_doc)) eq_refl).
    right. exists unauthorized_doc. repeat split; vm_compute; reflexivity.
Defined.

(** X10.  In the first format the defaults of the two [get] calls apply: a
    document without [data], or with a [data] object that has neither
    [quota] nor [used_quota], is a success with both amounts [0.0]. *)
Theorem user_info_missing_data_is_zero (w : World) (jar : dict)
    (headers : gmap str str) (url : str) (t : list event) (h : option str)
    (resp : Response) (d user_data : dict) :
  client_get w url headers jar = Ok resp ->
  status_code resp = 200 ->
  json resp = Ok (PDict d) ->
  py_truthy (default PNone (d !! utf8 "success")) = true ->
  default (PDict ∅) (d !! utf8 "data") = PDict user_data ->
  user_data !! utf8 "quota" = None ->
  user_data !! utf8 "used_quota" = None ->
  get_user_info w jar headers url (State t h)
  = (Ok (Balance (FZero false) (FZero false)
                 (utf8 "💰 当前余额: $0.0，已使用: $0.0")),
     State (t ++ [Get url headers jar]) h).
Proof.
  intros Hget Hst Hjs Hsucc Hdata Hq Hu.
  unfold get_user_info; run.
  rewrite Hget; simpl. rewrite Hst; simpl. rewrite Hjs; simpl.
  rewrite Hsucc; simpl. rewrite Hdata; simpl. rewrite Hq, Hu; simpl.
  reflexivity.
Qed.

Lemma user_info_missing_data_is_zero_witness :
  get_user_info (world_answering (Ok (http_200 (PDict success_only_doc))))
    ∅ ∅ [] (State [] None)
  = (Ok (Balance (FZero false) (FZero false)
                 (utf8 "💰 当前余额: $0.0，已使用: $0.0")),
     State ([] ++ [Get [] ∅ ∅]) None).
Proof.
  apply (user_info_missing_data_is_zero
           (world_answering (Ok (http_200 (PDict success_only_doc))))
           ∅ ∅ [] [] None (http_200 (PDict success_only_doc))
           success_only_doc ∅); reflexivity.
Defined.

(** The exception of [v.get] on a value without the method. *)
Lemma py_get_not_dict (v : pyval) (key : str) (dflt : pyval) :
  (forall d, v <> PDict d) ->
  py_get v key dflt
  = Raise (Exn AttributeError
             (utf8 "'" ++ type_name v
              ++ utf8 "' object has no attribute 'get'")).
Proof. intros Hv. destruct v; try reflexivity. by destruct (Hv d). Qed.

(** X11.  A [get] on something that is not an object is an exception like
    any other: a document that is not an object (a list, a string, [null]),
    or a document of the first format whose [data] is not an object, comes
    back as the failure with the text of the [AttributeError]. *)
Theorem user_info_non_object_is_failure (w : World) (jar : dict)
    (headers : gmap str str) (url : str) (t : list event) (h : option str)
    (resp : Response) (v : pyval) :
  client_get w url headers jar = Ok resp ->
  status_code resp = 200 ->
  (forall d, v <> PDict d) ->
  json resp = Ok v
  \/ (exists d,
        json resp = Ok (PDict d)
        /\ py_truthy (default PNone (d !! utf8 "success")) = true
        /\ d !! utf8 "data" = Some v) ->
  get_user_info w jar headers url (State t h)
  = (Ok (Failure
           (exception_text
              (Exn AttributeError
                 (utf8 "'" ++ type_name v
                  ++ utf8 "' object has no attribute 'get'")))),
     State (t ++ [Get url headers jar]) h).
Proof.
  intros Hget Hst Hv Hcase. unfold get_user_info; run.
  rewrite Hget; simpl. rewrite Hst; simpl.
  destruct Hcase as [Hjs|(d & Hjs & Hsucc & Hdata)]; rewrite Hjs; simpl.
  - rewrite py_get_not_dict by done. reflexivity.
  - rewrite Hsucc; simpl. rewrite Hdata; simpl.
    rewrite py_get_not_dict by done. reflexivity.
Qed.

Lemma user_info_non_object_is_failure_witness :
  get_user_info (world_answering (Ok (http_200 (PList [])))) ∅ ∅ []
    (State [] None)
  = (Ok (Failure
           (exception_text
              (Exn AttributeError
                 (utf8 "'" ++ type_name (PList [])
                  ++ utf8 "' object has no attribute 'get'")))),
     State ([] ++ [Get [] ∅ ∅]) None)
  /\ get_user_info (world_answering (Ok (http_200 (PDict null_data_doc))))
       ∅ ∅ [] (State [] None)
     = (Ok (Failure
              (exception_text
                 (Exn AttributeError
                    (utf8 "'" ++ type_name PNone
                     ++ utf8 "' object has no attribute 'get'")))),
        State ([] ++ [Get [] ∅ ∅]) None)
  /\ exception_text
       (Exn AttributeError
          (utf8 "'" ++ type_name PNone
           ++ utf8 "' object has no attribute 'get'"))
     = utf8 "获取用户信息异常: 'NoneType' object has no attribute 'get'...".
Proof.
  split; [|split; [|vm_compute; reflexivity]].
  - apply (user_info_non_object_is_failure
             (world_answering (Ok (http_200 (PList [])))) ∅ ∅ [] [] None
             (http_200 (PList [])) (PList []) eq_refl eq_refl);
      [discriminate|by left].
  - apply (user_info_non_object_is_failure
             (world_answering (Ok (http_200 (PDict null_data_doc)))) ∅ ∅ []
             [] None (http_200 (PDict null_data_doc)) PNone eq_refl eq_refl);
      [discriminate|].
    right. exists null_data_doc. repeat split; vm_compute; reflexivity.
Defined.

(** Every integer of magnitude below 2500 is normalised to a zero: the
    4999 cases are checked by evaluation. *)
Lemma small_amounts_checked :
  forallb normalizes_to_zero (range_from (-2499) 4999) = true.
Proof. vm_compute. reflexivity. Qed.

Lemma small_amount_normalizes_to_zero (a : Z) :
  -2500 < a < 2500 -> exists neg, normalize (PInt a) = Ok (FZero neg).
Proof.
  intros Ha.
  assert (normalizes_to_zero a = true) as Hz.
  { apply (proj1 (forallb_forall _ _) small_amounts_checked).
    unfold range_from. apply in_map_iff. exists (Z.to_nat (a + 2499)).
    split; [lia|]. apply in_seq. lia. }
  unfold normalizes_to_zero in Hz.
  destruct (normalize (PInt a)) as [[]|]; try discriminate. eauto.
Qed.

(** X12.  In the second format, integer [credit] and [usage] of magnitude
    below 2500 units (half a cent) both round to zero, and the display says
    that the balance is unavailable; 2500 units are the first amount that
    is shown, as [0.01]. *)
Theorem agentrouter_small_amounts_unavailable (w : World) (jar : dict)
    (headers : gmap str str) (url : str) (t : list event) (h : option str)
    (resp : Response) (d : dict) (credit usage : Z) :
  client_get w url headers jar = Ok resp ->
  status_code resp = 200 ->
  json resp = Ok (PDict d) ->
  py_truthy (default PNone (d !! utf8 "success")) = false ->
  is_agentrouter_format (PDict d) = Ok true ->
  default (PInt 0) (d !! utf8 "credit") = PInt credit ->
  default (PInt 0) (d !! utf8 "usage") = PInt usage ->
  -2500 < credit < 2500 ->
  -2500 < usage < 2500 ->
  (exists neg neg',
     get_user_info w jar headers url (State t h)
     = (Ok (Balance (FZero neg) (FZero neg') balance_unavailable),
        State (t ++ [Get url headers jar]) h))
  /\ normalize (PInt 2500) = Ok (FFinite false 5764607523034235 (-59))
  /\ float_repr (FFinite false 5764607523034235 (-59)) = utf8 "0.01".
Proof.
  intros Hget Hst Hjs Hsucc Hfmt Hc Hu Hcb Hub.
  split; [|split; vm_compute; reflexivity].
  destruct (small_amount_normalizes_to_zero credit Hcb) as [neg Hnc].
  destruct (small_amount_normalizes_to_zero usage Hub) as [neg' Hnu].
  exists neg, neg'. unfold get_user_info; run.
  rewrite Hget; simpl. rewrite Hst; simpl. rewrite Hjs; simpl.
  rewrite Hsucc; simpl. rewrite Hfmt; simpl. rewrite Hc, Hnc; simpl.
  rewrite Hu, Hnu; simpl. reflexivity.
Qed.

Lemma agentrouter_small_amounts_unavailable_witness :
  exists neg neg',
    get_user_info
      (world_answering (Ok (http_200 (PDict agentrouter_small_doc))))
      ∅ ∅ [] (State [] None)
    = (Ok (Balance (FZero neg) (FZero neg') balance_unavailable),
       State ([] ++ [Get [] ∅ ∅]) None).
Proof.
  apply (agentrouter_small_amounts_unavailable
           (world_answering (Ok (http_200 (PDict agentrouter_small_doc))))
           ∅ ∅ [] [] None (http_200 (PDict agentrouter_small_doc))
           agentrouter_small_doc 2499 (-120));
    try reflexivity; lia.
Defined.

(** X13.  Where a balance comes from: [get_user_info] returns one only for
    an answer with status 200 whose document is an object of one of the two
    formats.  In the first format the display is the line with the two
    amounts; in the second it is that line, or the notice that the balance
    is unavailable when both amounts are zero. *)
Theorem balance_only_from_recognised_answer (w : World) (jar : dict)
    (headers : gmap str str) (url : str) (s : state) (quota used : float)
    (display : str) :
  fst (get_user_info w jar headers url s) = Ok (Balance quota used display) ->
  exists resp d,
    client_get w url headers jar = Ok resp
    /\ status_code resp = 200
    /\ json resp = Ok (PDict d)
    /\ (py_truthy (default PNone (d !! utf8 "success")) = true
        /\ display = balance_line quota used
        \/ py_truthy (default PNone (d !! utf8 "success")) = false
           /\ is_agentrouter_format (PDict d) = Ok true
           /\ (display = balance_line quota used
               /\ float_truthy quota || float_truthy used = true
               \/ display = balance_unavailable
                  /\ float_truthy quota = false
                  /\ float_truthy used = false)).
Proof.
  unfold get_user_info; run.
  destruct (client_get w url headers jar) as [resp|e] eqn:Hget; simpl;
    [|intros ?; simplify_eq].
  destruct (Z.eqb_spec (status_code resp) 200) as [Hst|]; simpl;
    [|intros ?; simplify_eq].
  destruct (json resp) as [data|e] eqn:Hjs; simpl; [|intros ?; simplify_eq].
  destruct data as [| | | | | |d]; simpl; try (intros ?; simplify_eq; fail).
  intros Hrun. exists resp, d. split; [done|]. split; [done|]. split; [done|].
  revert Hrun.
  destruct (py_truthy (default PNone (d !! utf8 "success"))); simpl.
  - repeat step; intros ?; simplify_eq. by left.
  - destruct (is_agentrouter_format (PDict d)) as [[]|]; simpl;
      try (intros ?; simplify_eq; fail).
    repeat step; intros ?; simplify_eq; right;
      (split; [done|]); (split; [done|]).
    all: match goal with
         | H : _ || _ = true |- _ => by left
         | H : _ || _ = false |- _ =>
             right; apply orb_false_iff in H; by destruct H
         end.
Qed.

Lemma balance_only_from_recognised_answer_witness :
  exists resp d,
    client_get (world_answering (Ok (http_200 agentrouter_zero_user_info)))
      [] ∅ ∅ = Ok resp
    /\ status_code resp = 200
    /\ json resp = Ok (PDict d)
    /\ (py_truthy (default PNone (d !! utf8 "success")) = true
        /\ balance_unavailable = balance_line (FZero false) (FZero false)
        \/ py_truthy (default PNone (d !! utf8 "success")) = false
           /\ is_agentrouter_format (PDict d) = Ok true
           /\ (balance_unavailable = balance_line (FZero false) (FZero false)
               /\ float_truthy (FZero false) || float_truthy (FZero false)
                  = true
               \/ balance_unavailable = balance_unavailable
                  /\ float_truthy (FZero false) = false
                  /\ float_truthy (FZero false) = false)).
Proof.
  apply (balance_only_from_recognised_answer
           (world_answering (Ok (http_200 agentrouter_zero_user_info)))
           ∅ ∅ [] start).
  reflexivity.
Defined.

(** ** [execute_check_in] *)

(** X14.  [execute_check_in] raises in three cases only: the request
    raises; the answer has status 200 and decoding it raises something
    other than [JSONDecodeError]; the answer has status 200 and decodes to
    something that is not an object, on which [get] does not exist.  Every
    other answer is classified. *)
Theorem execute_check_in_raises_iff (w : World) (jar : dict) (name : str)
    (pc : ProviderConfig) (headers : gmap str str) (t : list event)
    (h : option str) (e : exn) :
  fst (execute_check_in w jar name pc headers (State t h)) = Raise e
  <-> client_post w (sign_in_url_of pc) (with_checkin_headers headers) jar
      = Raise e
      \/ exists resp,
           client_post w (sign_in_url_of pc) (with_checkin_headers headers)
             jar = Ok resp
           /\ status_code resp = 200
           /\ (json resp = Raise e /\ is_json_decode_error e = false
               \/ exists v,
                    json resp = Ok v
                    /\ (forall d, v <> PDict d)
                    /\ e = Exn AttributeError
                             (utf8 "'" ++ type_name v
                              ++ utf8 "' object has no attribute 'get'")).
Proof.
  unfold execute_check_in, classify_check_in, checkin_success; run.
  destruct (client_post w (sign_in_url_of pc) (with_checkin_headers headers)
              jar) as [resp|e0] eqn:Hpost; simpl.
  { destruct (Z.eqb_spec (status_code resp) 200) as [Hst|Hst]; simpl.
    - destruct (json resp) as [v|e0] eqn:Hjs; simpl.
      + assert ((exists d, v = PDict d) \/ forall d, v <> PDict d)
          as [[d ->]|Hv'] by (destruct v; first [by right|left; eauto]).
        * simpl. split; [repeat step; intros [=]|].
          intros [?|(? & ? & _ & [[? _]|(v & ? & Hv & _)])];
            [congruence|congruence|].
          assert (v = PDict d) as -> by congruence. by destruct (Hv d).
        * rewrite (py_get_not_dict v _ _ Hv'). simpl. split.
          -- intros [= <-]. right. exists resp. do 2 (split; [done|]).
             right. by exists v.
          -- intros [?|(? & ? & _ & [[? _]|(v' & ? & _ & ->)])];
               [congruence|congruence|].
             by assert (v' = v) as -> by congruence.
      + destruct (is_json_decode_error e0) eqn:Hde; simpl.
        * split; [destruct (str_contains _ _); simpl; intros [=]|].
          intros [?|(? & ? & _ & [[? ?]|(v & ? & _)])]; congruence.
        * split.
          -- intros [= <-]. right. exists resp. do 2 (split; [done|]).
             by left.
          -- intros [?|(? & ? & _ & [[? ?]|(v & ? & _)])]; congruence.
    - split; [intros [=]|].
      intros [?|(? & ? & ? & _)]; congruence. }
  split; [intros [= ->]; by left|].
  intros [?|(? & ? & _)]; congruence.
Qed.

(** ** The session of one account *)

Section Events.
Context (P : event -> Prop) (Hprint : forall line, P (Print line)).

Lemma execute_check_in_events (w : World) (jar : dict) (name : str)
    (pc : ProviderConfig) (headers : gmap str str) :
  P (Post (sign_in_url_of pc) (with_checkin_headers headers) jar) ->
  appends P (fun _ => True) (execute_check_in w jar name pc headers).
Proof.
  intros HP.
  unfold execute_check_in, classify_check_in, checkin_success. appends_auto.
Qed.
End Events.

(** The [try] statement of [check_in_account], written out: the balance
    request, the line about the balance, and then the check-in or the
    notice that none is needed; the client is closed last. *)
Lemma check_in_session_run (w : World) (name : str) (account : AccountConfig)
    (pc : ProviderConfig) (all_cookies : dict) (t : list event)
    (h : option str) :
  exists info,
    fst (get_user_info w all_cookies (session_headers pc account)
           (info_url_of pc) (State t h)) = Ok info
    /\ check_in_session w name account pc all_cookies (State t h)
       = let t1 :=
           t ++ [Get (info_url_of pc) (session_headers pc account)
                     all_cookies;
                 Print (balance_report name info)] in
         if needs_manual_check_in pc then
           match execute_check_in w all_cookies name pc
                   (session_headers pc account) (State t1 h) with
           | (Ok success, s') =>
               (Ok (success, Some info),
                State (trace s' ++ [ClientClose]) (hash_file s'))
           | (Raise e, s') =>
               (Ok (false, None),
                State (trace s'
                       ++ [Print [Lit "[FAILED] "; Str name;
                                  Lit ": 签到过程异常 - "; Err e];
                           ClientClose]) (hash_file s'))
           end
         else
           (Ok (true, Some info),
            State (t1 ++ [Print [Lit "[INFO] "; Str name;
                                 Lit ": 自动签到完成"];
                          ClientClose]) h).
Proof.
  destruct (get_user_info_runs w all_cookies (session_headers pc account)
              (info_url_of pc) t h) as (info & Hrun).
  exists info. rewrite Hrun. split; [done|].
  unfold check_in_session. rewrite dict_update_empty.
  unfold finally, try_except, bind at 1. rewrite Hrun.
  assert ((match info with
           | Balance _ _ display => print [Str display]
           | Failure _ =>
               print [Lit "[INFO] "; Str name; Lit ": 未能获取余额信息"]
           end) = print (balance_report name info)) as ->
    by (by destruct info).
  unfold bind at 1. unfold print at 1, emit at 1. simpl.
  rewrite <- (app_assoc t [_] [_]). simpl ([_] ++ [_]).
  destruct (needs_manual_check_in pc).
  - unfold bind at 1.
    destruct (execute_check_in w all_cookies name pc
                (session_headers pc account) _) as [[b|e] [t' h']]; run;
      rewrite <- ?app_assoc; reflexivity.
  - run. rewrite <- !app_assoc. reflexivity.
Qed.

(** X15.  For a provider that needs no manual check-in, the session is the
    balance request and nothing else: no POST is sent, the account counts
    as checked in whatever the balance request gave, and the balance
    information is returned with it. *)
Theorem automatic_check_in_sends_no_post (w : World) (name : str)
    (account : AccountConfig) (pc : ProviderConfig) (all_cookies : dict)
    (t : list event) (h : option str) :
  needs_manual_check_in pc = false ->
  exists info,
    fst (get_user_info w all_cookies (session_headers pc account)
           (info_url_of pc) (State t h)) = Ok info
    /\ check_in_session w name account pc all_cookies (State t h)
       = (Ok (true, Some info),
          State (t ++ [Get (info_url_of pc) (session_headers pc account)
                           all_cookies;
                       Print (balance_report name info);
                       Print [Lit "[INFO] "; Str name; Lit ": 自动签到完成"];
                       ClientClose]) h).
Proof.
  intros Hauto.
  destruct (check_in_session_run w name account pc all_cookies t h)
    as (info & Hinfo & Hrun).
  exists info. split; [done|]. rewrite Hrun, Hauto. simpl.
  by rewrite <- app_assoc.
Qed.

Lemma automatic_check_in_sends_no_post_witness :
  exists info,
    fst (get_user_info world_offline_balance account_b_cookies
           (session_headers automatic account_b) (info_url_of automatic)
           (State [] None)) = Ok info
    /\ check_in_session world_offline_balance (utf8 "B") account_b automatic
         account_b_cookies (State [] None)
       = (Ok (true, Some info),
          State ([] ++ [Get (info_url_of automatic)
                            (session_headers automatic account_b)
                            account_b_cookies;
                        Print (balance_report (utf8 "B") info);
                        Print [Lit "[INFO] "; Str (utf8 "B");
                               Lit ": 自动签到完成"];
                        ClientClose]) None).
Proof.
  apply (automatic_check_in_sends_no_post world_offline_balance (utf8 "B")
           account_b automatic account_b_cookies [] None).
  reflexivity.
Defined.

(** X16.  The session never raises and has one shape: the balance request
    with the session headers and cookies comes first, the line about the
    balance second, the closing of the client last and only once; between
    them there are printed lines and at most the check-in request, sent
    with the check-in headers and the same cookies. *)
Theorem session_shape (w : World) (name : str) (account : AccountConfig)
    (pc : ProviderConfig) (all_cookies : dict) (t : list event)
    (h : option str) :
  exists outcome info rest,
    fst (get_user_info w all_cookies (session_headers pc account)
           (info_url_of pc) (State t h)) = Ok info
    /\ check_in_session w name account pc all_cookies (State t h)
       = (Ok outcome,
          State (t ++ Get (info_url_of pc) (session_headers pc account)
                          all_cookies
                   :: Print (balance_report name info)
                   :: rest ++ [ClientClose]) h)
    /\ Forall (fun ev =>
                 is_print ev = true
                 \/ ev = Post (sign_in_url_of pc)
                              (with_checkin_headers
                                 (session_headers pc account))
                              all_cookies) rest
    /\ (snd outcome = None \/ snd outcome = Some info).
Proof.
  destruct (check_in_session_run w name account pc all_cookies t h)
    as (info & Hinfo & ->). simpl.
  destruct (needs_manual_check_in pc).
  - destruct (execute_check_in_events
                (fun ev =>
                   is_print ev = true
                   \/ ev = Post (sign_in_url_of pc)
                                (with_checkin_headers
                                   (session_headers pc account))
                                all_cookies)
                (fun _ => or_introl eq_refl) w all_cookies name pc
                (session_headers pc account) (or_intror eq_refl)
                (t ++ [Get (info_url_of pc) (session_headers pc account)
                           all_cookies;
                       Print (balance_report name info)]) h)
      as (r & evs & -> & Hevs & _).
    destruct r as [success|e]; simpl.
    + exists (success, Some info), info, evs. split; [done|].
      rewrite <- !app_assoc. simpl. split; [done|]. split; [done|by right].
    + exists (false, None), info,
        (evs ++ [Print [Lit "[FAILED] "; Str name; Lit ": 签到过程异常 - ";
                        Err e]]).
      split; [done|].
      rewrite <- !app_assoc. simpl. split; [done|].
      split; [|by left]. apply Forall_app. split; [done|].
      repeat constructor.
  - exists (true, Some info), info,
      [Print [Lit "[INFO] "; Str name; Lit ": 自动签到完成"]].
    split; [done|].
    rewrite <- !app_assoc. simpl. split; [done|].
    split; [repeat constructor|by right].
Qed.

(** X17.  An exception of the check-in costs the balance: when the request
    of [execute_check_in] raises, the account ends as [(False, None)],
    although the balance request had been answered and its line printed;
    the exception is printed and the client closed. *)
Theorem check_in_exception_drops_balance (w : World) (name : str)
    (account : AccountConfig) (pc : ProviderConfig) (all_cookies : dict)
    (t : list event) (h : option str) (e : exn) :
  needs_manual_check_in pc = true ->
  client_post w (sign_in_url_of pc)
    (with_checkin_headers (session_headers pc account)) all_cookies
  = Raise e ->
  exists info,
    fst (get_user_info w all_cookies (session_headers pc account)
           (info_url_of pc) (State t h)) = Ok info
    /\ check_in_session w name account pc all_cookies (State t h)
       = (Ok (false, None),
          State (t ++ [Get (info_url_of pc) (session_headers pc account)
                           all_cookies;
                       Print (balance_report name info);
                       Print [Lit "[NETWORK] "; Str name;
                              Lit ": Executing check-in"];
                       Post (sign_in_url_of pc)
                            (with_checkin_headers
                               (session_headers pc account)) all_cookies;
                       Print [Lit "[FAILED] "; Str name;
                              Lit ": 签到过程异常 - "; Err e];
                       ClientClose]) h).
Proof.
  intros Hmanual Hpost.
  destruct (check_in_session_run w name account pc all_cookies t h)
    as (info & Hinfo & Hrun).
  exists info. split; [done|]. rewrite Hrun, Hmanual. simpl.
  unfold execute_check_in; run. rewrite Hpost; simpl.
  by rewrite <- !app_assoc.
Qed.

Lemma check_in_exception_drops_balance_witness :
  fst (get_user_info world_offline_check_in account_b_cookies
         (session_headers agentrouter account_b) (info_url_of agentrouter)
         (State [] None))
  = Ok (Balance (FFinite false 5561945539802563 (-51))
                (FFinite false 5764607523034235 (-59))
                (utf8 "💰 当前余额: $2.47，已使用: $0.01"))
  /\ exists info,
       fst (get_user_info world_offline_check_in account_b_cookies
              (session_headers agentrouter account_b)
              (info_url_of agentrouter) (State [] None)) = Ok info
       /\ check_in_session world_offline_check_in (utf8 "B") account_b
            agentrouter account_b_cookies (State [] None)
          = (Ok (false, None),
             State ([] ++ [Get (info_url_of agentrouter)
                               (session_headers agentrouter account_b)
                               account_b_cookies;
                           Print (balance_report (utf8 "B") info);
                           Print [Lit "[NETWORK] "; Str (utf8 "B");
                                  Lit ": Executing check-in"];
                           Post (sign_in_url_of agentrouter)
                                (with_checkin_headers
                                   (session_headers agentrouter account_b))
                                account_b_cookies;
                           Print [Lit "[FAILED] "; Str (utf8 "B");
                                  Lit ": 签到过程异常 - ";
                                  Err connection_error];
                           ClientClose]) None).
Proof.
  split; [vm_compute; reflexivity|].
  apply (check_in_exception_drops_balance world_offline_check_in (utf8 "B")
           account_b agentrouter account_b_cookies [] None connection_error);
    reflexivity.
Defined.

(** X18.  The header that identifies the user is on both requests: the
    dict literal of [check_in_account] binds the provider's key to the
    account's user, and the copy that [execute_check_in] updates keeps the
    binding unless the key is one of the two headers the update sets;
    those two are set on the check-in request whatever was there. *)
Theorem identity_header_on_both_requests (pc : ProviderConfig)
    (account : AccountConfig) :
  api_user_key pc <> utf8 "Content-Type" ->
  api_user_key pc <> utf8 "X-Requested-With" ->
  session_headers pc account !! api_user_key pc = Some (api_user account)
  /\ with_checkin_headers (session_headers pc account) !! api_user_key pc
     = Some (api_user account)
  /\ with_checkin_headers (session_headers pc account)
       !! utf8 "Content-Type" = Some (utf8 "application/json")
  /\ with_checkin_headers (session_headers pc account)
       !! utf8 "X-Requested-With" = Some (utf8 "XMLHttpRequest")
  /\ forall k,
       k <> utf8 "Content-Type" -> k <> utf8 "X-Requested-With" ->
       with_checkin_headers (session_headers pc account) !! k
       = session_headers pc account !! k.
Proof.
  intros Hct Hxrw. unfold with_checkin_headers, session_headers.
  split; [by rewrite lookup_insert_eq|].
  split; [by rewrite !lookup_insert_ne, lookup_insert_eq by done|].
  split; [by rewrite lookup_insert_ne, lookup_insert_eq by done|].
  split; [by rewrite lookup_insert_eq|].
  intros k ? ?. by rewrite !lookup_insert_ne by done.
Qed.

Lemma identity_header_on_both_requests_witness :
  session_headers anyrouter account_a !! utf8 "new-api-user"
  = Some (utf8 "42")
  /\ with_checkin_headers (session_headers anyrouter account_a)
       !! utf8 "new-api-user" = Some (utf8 "42").
Proof.
  destruct (identity_header_on_both_requests anyrouter account_a)
    as (H1 & H2 & _); [by_decide|by_decide|].
  split; [exact H1|exact H2].
Defined.

(** ** [get_waf_cookies_with_playwright] *)

Lemma keep_waf_cookie_lookup (acc cookie : dict) (k : str) (v : pyval) :
  keep_waf_cookie acc cookie !! k = Some v ->
  acc !! k = Some v
  \/ (k ∈ required /\ py_truthy v = true
      /\ cookie !! utf8 "name" = Some (PStr k)
      /\ cookie !! utf8 "value" = Some v).
Proof.
  unfold keep_waf_cookie.
  destruct (cookie !! utf8 "name") as [[| | | |n| |]|] eqn:Hn; simpl; auto.
  destruct (bool_decide (n ∈ required)) eqn:Hreq; simpl; auto.
  destruct (py_truthy (default PNone (cookie !! utf8 "value"))) eqn:Htr; auto.
  destruct (decide (n = k)) as [->|Hne].
  - rewrite lookup_insert_eq. intros [= <-]. right.
    apply bool_decide_eq_true in Hreq.
    split; [done|]. split; [done|]. split; [done|].
    destruct (cookie !! utf8 "value"); [done|]. discriminate.
  - rewrite lookup_insert_ne by done. auto.
Qed.

(** What the loop over the browser's cookies collects: every entry has one
    of the three names and a true value, and is the name and value of one
    of the cookies. *)
Lemma foldl_keep_waf_cookie_lookup (cs : list dict) (acc : dict) (k : str)
    (v : pyval) :
  foldl keep_waf_cookie acc cs !! k = Some v ->
  acc !! k = Some v
  \/ (k ∈ required /\ py_truthy v = true
      /\ exists cookie,
           cookie ∈ cs
           /\ cookie !! utf8 "name" = Some (PStr k)
           /\ cookie !! utf8 "value" = Some v).
Proof.
  revert acc. induction cs as [|c cs IH]; simpl; intros acc H; [auto|].
  apply IH in H as [H|(? & ? & c' & ? & ? & ?)].
  - apply keep_waf_cookie_lookup in H as [?|(? & ? & ? & ?)]; [auto|].
    right. do 2 (split; [done|]). exists c. split; [left|done].
  - right. do 2 (split; [done|]). exists c'. split; [by right|done].
Qed.

Lemma waf_page_visit_result (br : Browser) (name url : str) :
  appends (fun _ => True)
    (fun r => forall waf, r = Some waf ->
       exists cs,
         context_cookies br = Ok cs
         /\ waf = foldl keep_waf_cookie ∅ cs
         /\ missing_from waf = [])
    (waf_page_visit br name url).
Proof.
  unfold waf_page_visit.
  apply appends_try_except.
  - eapply (appends_bind _ (fun _ => True)); [appends_auto|intros _ _].
    eapply (appends_bind _ (fun _ => True)); [appends_auto|intros _ _].
    eapply (appends_bind _ (fun _ => True)); [appends_auto|intros _ _].
    eapply (appends_bind _ (fun cs => context_cookies br = Ok cs));
      [by apply appends_call|intros cs Hcs].
    eapply (appends_bind _ (fun _ => True)); [appends_auto|intros _ _].
    destruct (missing_from (foldl keep_waf_cookie ∅ cs)) eqn:Hm.
    + eapply (appends_bind _ (fun _ => True)); [appends_auto|intros _ _].
      eapply (appends_bind _ (fun _ => True)); [appends_auto|intros _ _].
      apply appends_ret. intros waf [= <-]. eauto.
    + eapply (appends_bind _ (fun _ => True)); [appends_auto|intros _ _].
      eapply (appends_bind _ (fun _ => True)); [appends_auto|intros _ _].
      apply appends_ret. by intros waf [=].
  - intros e.
    eapply (appends_bind _ (fun _ => True)); [appends_auto|intros _ _].
    eapply (appends_bind _ (fun _ => True)); [appends_auto|intros _ _].
    apply appends_ret. by intros waf [=].
Qed.

Lemma get_waf_cookies_result (w : World) (name url : str) :
  appends (fun _ => True)
    (fun r => forall waf, r = Some waf ->
       exists cs,
         context_cookies (browser w url) = Ok cs
         /\ waf = foldl keep_waf_cookie ∅ cs
         /\ missing_from waf = [])
    (get_waf_cookies_with_playwright w name url).
Proof.
  unfold get_waf_cookies_with_playwright.
  eapply (appends_bind _ (fun _ => True)); [appends_auto|intros _ _].
  eapply (appends_bind _ (fun _ => True)); [appends_auto|intros _ _].
  apply appends_finally; [|appends_auto].
  eapply (appends_bind _ (fun _ => True)); [appends_auto|intros _ _].
  apply appends_finally; [|appends_auto].
  eapply (appends_bind _ (fun _ => True)); [appends_auto|intros _ _].
  eapply (appends_bind _ (fun _ => True)); [appends_auto|intros _ _].
  eapply (appends_bind _ (fun _ => True)); [appends_auto|intros _ _].
  apply waf_page_visit_result.
Qed.

Lemma required_no_dup : NoDup required.
Proof. by_decide. Qed.

(** X19.  A dict that [get_waf_cookies_with_playwright] returns has the
    three required names and no other: nothing else the browser holds gets
    into the session.  Every value is true (not empty) and is the value of
    a browser cookie of that name; the count printed is 3. *)
Theorem waf_result_exactly_required (w : World) (name url : str) (s : state)
    (waf : dict) :
  fst (get_waf_cookies_with_playwright w name url s) = Ok (Some waf) ->
  exists cs,
    context_cookies (browser w url) = Ok cs
    /\ (forall k, is_Some (waf !! k) <-> k ∈ required)
    /\ (forall k v,
          waf !! k = Some v ->
          py_truthy v = true
          /\ exists cookie,
               cookie ∈ cs
               /\ cookie !! utf8 "name" = Some (PStr k)
               /\ cookie !! utf8 "value" = Some v)
    /\ size waf = 3%nat.
Proof.
  destruct s as [t h]. intros Hrun.
  destruct (get_waf_cookies_result w name url t h)
    as (r & evs & Hr & _ & Hq).
  rewrite Hr in Hrun. simpl in Hrun.
  destruct (Hq _ Hrun waf eq_refl) as (cs & Hcs & -> & Hmiss).
  exists cs. split; [done|].
  assert (forall k, is_Some (foldl keep_waf_cookie ∅ cs !! k)
                    <-> k ∈ required) as Hdom.
  { intros k. split.
    - intros [v Hv].
      apply foldl_keep_waf_cookie_lookup in Hv as [Hv|(? & _)]; [|done].
      by rewrite lookup_empty in Hv.
    - by apply missing_from_nil. }
  split; [done|]. split.
  - intros k v Hv.
    apply foldl_keep_waf_cookie_lookup in Hv as [Hv|(_ & ? & ?)]; [|done].
    by rewrite lookup_empty in Hv.
  - rewrite <- size_dom.
    assert (dom (foldl keep_waf_cookie ∅ cs) = list_to_set required) as ->.
    { apply set_eq. intros k.
      by rewrite elem_of_dom, elem_of_list_to_set. }
    rewrite size_list_to_set by apply required_no_dup. reflexivity.
Qed.

Lemma waf_result_exactly_required_witness :
  exists cs,
    context_cookies
      (browser (world_with_cookies three_waf_cookies) (utf8 "/login"))
    = Ok cs
    /\ (forall k,
          is_Some (foldl keep_waf_cookie ∅ three_waf_cookies !! k)
          <-> k ∈ required)
    /\ (forall k v,
          foldl keep_waf_cookie ∅ three_waf_cookies !! k = Some v ->
          py_truthy v = true
          /\ exists cookie,
               cookie ∈ cs
               /\ cookie !! utf8 "name" = Some (PStr k)
               /\ cookie !! utf8 "value" = Some v)
    /\ size (foldl keep_waf_cookie ∅ three_waf_cookies) = 3%nat.
Proof.
  apply (waf_result_exactly_required (world_with_cookies three_waf_cookies)
           (utf8 "A") (utf8 "/login") start).
  vm_compute. reflexivity.
Defined.

(** Whatever the page does, the [try] statement closes the browser context,
    and it returns a value when the closing works. *)
Lemma waf_page_visit_closes (br : Browser) (name url : str) (t : list event)
    (h : option str) :
  exists r evs,
    waf_page_visit br name url (State t h) = (r, State (t ++ evs) h)
    /\ ContextClose ∈ evs
    /\ (context_close br = Ok tt -> exists res, r = Ok res).
Proof.
  unfold waf_page_visit; run.
  repeat step; eexists _, _; rewrite <- !app_assoc; simpl;
    (split; [reflexivity|]); (split; [in_list|]);
    intros ?; first [congruence|eauto].
Qed.

(** X20.  The two [with] blocks release what they acquired: once
    Playwright has started and the temporary directory exists, the
    directory is cleaned up and Playwright stopped at the end, in this
    order, whatever happens in between.  When the context is launched and
    the page opened, the context is closed, and the function returns a
    value if the closing works.  When opening the page raises, the
    exception leaves the function and the context is not closed. *)
Theorem browser_resources_released (w : World) (name url : str)
    (t : list event) (h : option str) :
  playwright_start (browser w url) = Ok tt ->
  temp_dir (browser w url) = Ok tt ->
  exists r inner,
    get_waf_cookies_with_playwright w name url (State t h)
    = (r,
       State (t ++ [Print [Lit "[PROCESSING] "; Str name;
                           Lit ": Starting browser to get WAF cookies..."];
                    PlaywrightStart; TempDirCreate]
                ++ inner ++ [TempDirCleanup; PlaywrightStop]) h)
    /\ (forall v,
          global_true w = Ok v ->
          launch_persistent_context (browser w url) = Ok tt ->
          new_page (browser w url) = Ok tt ->
          ContextClose ∈ inner
          /\ (context_close (browser w url) = Ok tt ->
              exists res, r = Ok res))
    /\ (forall v e,
          global_true w = Ok v ->
          launch_persistent_context (browser w url) = Ok tt ->
          new_page (browser w url) = Raise e ->
          r = Raise e /\ inner = [Launch; NewPage]).
Proof.
  intros Hstart Htmp.
  unfold get_waf_cookies_with_playwright; run.
  rewrite Hstart, Htmp; simpl.
  destruct (global_true w) as [v|e] eqn:Htrue; simpl.
  2: { exists (Raise e), []. rewrite <- !app_assoc. simpl.
       split; [reflexivity|]. split; intros; congruence. }
  destruct (launch_persistent_context (browser w url)) as [[]|e] eqn:Hlaunch;
    simpl.
  2: { exists (Raise e), [Launch]. rewrite <- !app_assoc. simpl.
       split; [reflexivity|]. split; intros; congruence. }
  destruct (new_page (browser w url)) as [[]|e] eqn:Hpage; simpl.
  2: { exists (Raise e), [Launch; NewPage]. rewrite <- !app_assoc. simpl.
       split; [reflexivity|]. split; [intros; congruence|].
       by intros ? ? _ _ [= <-]. }
  match goal with
  | |- context [waf_page_visit (browser w url) name url (State ?t0 h)] =>
      destruct (waf_page_visit_closes (browser w url) name url t0 h)
        as (r & evs & -> & Hin & Hok)
  end.
  simpl. exists r, (Launch :: NewPage :: evs).
  rewrite <- !app_assoc. simpl. split; [reflexivity|].
  split; [|intros; congruence].
  intros _ _ _ _. split; [|done]. by do 2 apply list_elem_of_further.
Qed.

Lemma browser_resources_released_witness :
  exists r inner,
    get_waf_cookies_with_playwright (world_with_cookies two_waf_cookies)
      (utf8 "A") (utf8 "/login") (State [] None)
    = (r,
       State ([] ++ [Print [Lit "[PROCESSING] "; Str (utf8 "A");
                            Lit ": Starting browser to get WAF cookies..."];
                     PlaywrightStart; TempDirCreate]
                 ++ inner ++ [TempDirCleanup; PlaywrightStop]) None)
    /\ ContextClose ∈ inner
    /\ exists res, r = Ok res.
Proof.
  destruct (browser_resources_released (world_with_cookies two_waf_cookies)
              (utf8 "A") (utf8 "/login") [] None eq_refl eq_refl)
    as (r & inner & Hrun & Hclose & _).
  exists r, inner. split; [exact Hrun|].
  destruct (Hclose (PBool true) eq_refl eq_refl eq_refl) as [Hin Hok].
  split; [exact Hin|exact (Hok eq_refl)].
Defined.

(** ** [check_in_account] *)

(** The session, event by event: what is printed, the two requests, the
    closing of the client; and an outcome that says [True] carries the
    balance information. *)
Lemma check_in_session_events (P : event -> Prop) (w : World) (name : str)
    (account : AccountConfig) (pc : ProviderConfig) (all_cookies : dict) :
  (forall line, P (Print line)) ->
  P (Get (info_url_of pc) (session_headers pc account) all_cookies) ->
  P (Post (sign_in_url_of pc) (with_checkin_headers (session_headers pc account))
          all_cookies) ->
  P ClientClose ->
  appends P (fun r => fst r = true -> is_Some (snd r))
          (check_in_session w name account pc all_cookies).
Proof.
  intros Hprint Hget Hpost Hclose t h.
  destruct (check_in_session_run w name account pc all_cookies t h)
    as (info & _ & ->). simpl.
  destruct (needs_manual_check_in pc).
  - destruct (execute_check_in_events P Hprint w all_cookies name pc
                (session_headers pc account) Hpost
                (t ++ [Get (info_url_of pc) (session_headers pc account)
                           all_cookies;
                       Print (balance_report name info)]) h)
      as (r & evs & -> & Hevs & _).
    destruct r as [success|e]; simpl.
    + eexists _, (_ :: _ :: evs ++ [ClientClose]).
      split; [by rewrite <- !app_assoc|]. split.
      * do 2 (apply Forall_cons; split; [done|]).
        apply Forall_app. split; [done|]. by repeat constructor.
      * intros ? [= <-]. simpl. eauto.
    + eexists _, (_ :: _ :: evs ++ [_; ClientClose]).
      split; [by rewrite <- !app_assoc|]. split.
      * do 2 (apply Forall_cons; split; [done|]).
        apply Forall_app. split; [done|]. by repeat constructor.
      * by intros ? [= <-].
  - eexists _, [_; _; _; ClientClose].
    split; [by rewrite <- !app_assoc|]. split.
    + by repeat constructor.
    + intros ? [= <-]. simpl. eauto.
Qed.

(** X21.  For a provider that needs no WAF cookies the browser is never
    used, and every request of the account is sent with exactly the cookies
    parsed from the account's payload. *)
Theorem no_browser_without_waf (w : World) (account : AccountConfig)
    (idx : nat) (cfg : AppConfig) (pc : ProviderConfig) (t : list event)
    (h : option str) :
  get_provider cfg (provider account) = Some pc ->
  needs_waf_cookies pc = false ->
  exists r evs,
    check_in_account w account idx cfg (State t h) = (r, State (t ++ evs) h)
    /\ Forall (fun ev =>
                 is_browser_event ev = false
                 /\ forall jar, request_jar ev = Some jar ->
                                jar = parse_cookies (cookies account)) evs.
Proof.
  intros Hpc Hwaf.
  set (P := fun ev =>
              is_browser_event ev = false
              /\ forall jar, request_jar ev = Some jar ->
                             jar = parse_cookies (cookies account)).
  assert (forall line, P (Print line)) as Hprint by (by split).
  unfold check_in_account; run. rewrite Hpc; simpl.
  case_bool_decide as Hempty; simpl.
  { eexists _, [_; _; _]. rewrite <- !app_assoc. simpl.
    split; [reflexivity|]. by repeat constructor. }
  unfold prepare_cookies. rewrite Hwaf; run.
  rewrite dict_unpack2_union, (right_id_L ∅ (∪)).
  case_bool_decide; [done|]. simpl.
  destruct (new_client w) as [[]|e]; simpl.
  - match goal with
    | |- context [check_in_session w ?name account pc _ (State ?t0 h)] =>
        destruct (check_in_session_events P w name account pc
                    (parse_cookies (cookies account)) Hprint
                    ltac:(by split; [|intros ? [= <-]])
                    ltac:(by split; [|intros ? [= <-]])
                    ltac:(by split) t0 h)
          as (r & evs & -> & Hevs & _)
    end.
    eexists r, (_ :: _ :: _ :: _ :: evs). rewrite <- !app_assoc. simpl.
    split; [reflexivity|].
    do 4 (apply Forall_cons; split; [by split|]). done.
  - eexists _, [_; _; _; _]. rewrite <- !app_assoc. simpl.
    split; [reflexivity|]. by repeat constructor.
Qed.

Lemma no_browser_without_waf_witness :
  exists r evs,
    check_in_account (world_as_written [account_b]) account_b 0 sample_config
      (State [] None) = (r, State ([] ++ evs) None)
    /\ Forall (fun ev =>
                 is_browser_event ev = false
                 /\ forall jar, request_jar ev = Some jar ->
                                jar = parse_cookies (cookies account_b)) evs.
Proof.
  apply (no_browser_without_waf (world_as_written [account_b]) account_b 0
           sample_config agentrouter [] None); reflexivity.
Defined.

Lemma check_in_account_outcome (w : World) (account : AccountConfig)
    (idx : nat) (cfg : AppConfig) :
  appends (fun _ => True)
    (fun r => fst r = true ->
              is_Some (snd r)
              /\ is_Some (get_provider cfg (provider account))
              /\ parse_cookies (cookies account) <> ∅)
    (check_in_account w account idx cfg).
Proof.
  unfold check_in_account.
  eapply (appends_bind _ (fun _ => True)); [appends_auto|intros _ _].
  destruct (get_provider cfg (provider account)) as [pc|].
  2: { eapply (appends_bind _ (fun _ => True)); [appends_auto|intros _ _].
       by apply appends_ret. }
  eapply (appends_bind _ (fun _ => True)); [appends_auto|intros _ _].
  case_bool_decide as Hempty.
  { eapply (appends_bind _ (fun _ => True)); [appends_auto|intros _ _].
    by apply appends_ret. }
  eapply (appends_bind _ (fun _ => True)).
  { eapply appends_weaken; [|by apply prepare_cookies_appends]. done. }
  intros [all_cookies|] _; simpl; [|by apply appends_ret].
  destruct (bool_decide (all_cookies = ∅)); [by apply appends_ret|].
  eapply (appends_bind _ (fun _ => True)); [appends_auto|intros _ _].
  eapply appends_weaken; [|by apply check_in_session_events].
  simpl. intros r Hr Hok. split; [by apply Hr|]. split; [eauto|done].
Qed.

(** X22.  An account is counted as checked in only when its provider is
    configured and its cookie payload parsed to at least one cookie, and a
    result that says [True] always carries the balance information:
    [(True, None)] is never returned. *)
Theorem success_has_info (w : World) (account : AccountConfig) (idx : nat)
    (cfg : AppConfig) (s s' : state) (info : option BalanceInfo) :
  check_in_account w account idx cfg s = (Ok (true, info), s') ->
  is_Some info
  /\ is_Some (get_provider cfg (provider account))
  /\ parse_cookies (cookies account) <> ∅.
Proof.
  destruct s as [t h]. intros Hrun.
  destruct (check_in_account_outcome w account idx cfg t h)
    as (r & evs & Hr & _ & Hq).
  rewrite Hr in Hrun. injection Hrun as -> _.
  by apply (Hq (true, info)).
Qed.

Lemma success_has_info_witness :
  is_Some (Some (Failure (exception_text connection_error)))
  /\ is_Some (get_provider sample_config (provider account_b))
  /\ parse_cookies (cookies account_b) <> ∅.
Proof.
  apply (success_has_info world_offline_balance account_b 0 sample_config
           start
           (snd (check_in_account world_offline_balance account_b 0
                   sample_config start))).
  vm_compute. reflexivity.
Defined.

(** ** [send_dingtalk_message] *)

(** X23.  [send_dingtalk_message] never raises and prints exactly one
    line.  Without a webhook (the variable unset or empty) nothing is
    sent; with one, one request goes to it, and the line tells whether the
    answer had status 200, another status, or the request raised. *)
Theorem dingtalk_never_raises (w : World) (rows : list Row)
    (success fail total : Z) (t : list event) (h : option str) :
  exists evs,
    send_dingtalk_message w rows success fail total (State t h)
    = (Ok tt, State (t ++ evs) h)
    /\ match getenv_webhook w with
       | None | Some [] =>
           evs = [Print [Lit "***DingTalk***: 未配置 DINGDING_WEBHOOK，跳过推送"]]
       | Some webhook =>
           exists content,
             evs = [WebhookPost webhook content;
                    Print match requests_post w webhook content with
                          | Ok status =>
                              if status =? 200
                              then [Lit "***DingTalk***: ✅ 推送成功"]
                              else [Lit "***DingTalk***: ❌ 推送失败 ";
                                    Num status]
                          | Raise e =>
                              [Lit "***DingTalk***: ❌ 推送异常: "; Err e]
                          end]
       end.
Proof.
  unfold send_dingtalk_message.
  destruct (getenv_webhook w) as [[|c url]|].
  - eexists. split; reflexivity.
  - cbv zeta.
    match goal with
    | |- context [requests_post w ?u ?c0] => set (content := c0)
    end.
    eexists. split; [|exists content; reflexivity].
    run. destruct (requests_post w (c :: url) content) as [status|e]; simpl.
    + destruct (status =? 200); simpl; by rewrite <- app_assoc.
    + by rewrite <- app_assoc.
  - eexists. split; reflexivity.
Qed.

(** ** [main] *)

(** X24.  The loop of [main] keeps its counts in range: after the
    accounts, the number of successes has grown by at most one per account
    and never shrunk, so [fail = total - success] lies between 0 and
    [total]; the rows already collected are kept in order and at most one
    is appended per account, named after an account of the list at the
    index [enumerate] gives it. *)
Theorem check_in_all_tally (w : World) (cfg : AppConfig)
    (accounts : list AccountConfig) (i : nat) (success : Z)
    (balances : list Row) (s s' : state) (n : Z) (rows : list Row) :
  check_in_all w cfg accounts i success balances s = (Ok (n, rows), s') ->
  success <= n <= success + Z.of_nat (length accounts)
  /\ exists new,
       rows = balances ++ new
       /\ (length new <= length accounts)%nat
       /\ Forall (fun row =>
                    exists j account,
                      accounts !! j = Some account
                      /\ row_name row
                         = get_display_name account (i + j)%nat) new.
Proof.
  revert i success balances s.
  induction accounts as [|account rest IH]; intros i success balances s; simpl.
  - intros [= <- <- _]. split; [lia|].
    exists []. by rewrite app_nil_r.
  - unfold bind at 1.
    destruct (check_in_account w account i cfg s) as [[[ok info]|e] s1];
      [|intros [=]].
    intros Hrest. apply IH in Hrest as (Hn & new & -> & Hlen & Hnames).
    assert (Forall (fun row =>
                      exists j account0,
                        (account :: rest) !! j = Some account0
                        /\ row_name row
                           = get_display_name account0 (i + j)%nat) new)
      as Hnames'.
    { eapply Forall_impl; [exact Hnames|].
      intros row (j & a & Hj & Hrow). exists (S j), a. split; [done|].
      rewrite Hrow. f_equal. lia. }
    split; [destruct ok; lia|].
    destruct info as [[quota used display|err]|].
    + eexists (_ :: new). rewrite <- app_assoc. simpl.
      split; [reflexivity|]. split; [lia|].
      apply Forall_cons. split; [|done].
      exists 0%nat, account. split; [done|]. simpl. f_equal. lia.
    + exists new. split; [done|]. split; [lia|done].
    + exists new. split; [done|]. split; [lia|done].
Qed.

Lemma check_in_all_tally_witness :
  fst (check_in_all (world_with_webhook (Ok 200)) sample_config
         [account_b; account_unknown] 0 0 [] start)
  = Ok (1, [{| row_name := utf8 "B";
               row_balance := FFinite false 5561945539802563 (-51);
               row_used := FFinite false 5764607523034235 (-59) |}])
  /\ 0 <= 1 <= 0 + Z.of_nat (length [account_b; account_unknown])
  /\ exists new,
       [{| row_name := utf8 "B";
           row_balance := FFinite false 5561945539802563 (-51);
           row_used := FFinite false 5764607523034235 (-59) |}]
       = [] ++ new
       /\ (length new <= length [account_b; account_unknown])%nat
       /\ Forall (fun row =>
                    exists j account,
                      [account_b; account_unknown] !! j = Some account
                      /\ row_name row
                         = get_display_name account (0 + j)%nat) new.
Proof.
  split; [vm_compute; reflexivity|].
  apply (check_in_all_tally (world_with_webhook (Ok 200)) sample_config
           [account_b; account_unknown] 0 0 [] start
           (snd (check_in_all (world_with_webhook (Ok 200)) sample_config
                   [account_b; account_unknown] 0 0 [] start))).
  vm_compute. reflexivity.
Defined.

(** X25.  Without accounts nothing is processed: when the account loader
    returns nothing or an empty list, [main] prints its two opening lines
    and the failure, and exits with 1. *)
Theorem main_without_accounts (w : World) (cfg : AppConfig)
    (t : list event) (h : option str) :
  load_from_env w = Ok cfg ->
  load_accounts_config w = Ok None \/ load_accounts_config w = Ok (Some []) ->
  main w (State t h)
  = (Ok 1,
     State (t ++ [Print [Lit "[SYSTEM] AnyRouter.top 多账号自动签到脚本启动"];
                  Print [Lit "[TIME] 当前执行时间: "; Str (now w)];
                  Print [Lit "[FAILED] 无法加载账户配置，程序退出"]]) h)
  /\ fst (run_main w (State t h)) = 1.
Proof.
  intros Hcfg Hacc.
  assert (main w (State t h)
          = (Ok 1,
             State (t ++ [Print [Lit "[SYSTEM] AnyRouter.top 多账号自动签到脚本启动"];
                          Print [Lit "[TIME] 当前执行时间: "; Str (now w)];
                          Print [Lit "[FAILED] 无法加载账户配置，程序退出"]])
                   h)) as Hmain.
  { unfold main; run. rewrite Hcfg; simpl.
    destruct Hacc as [-> | ->]; simpl; by rewrite <- !app_assoc. }
  split; [done|]. unfold run_main. by rewrite Hmain.
Qed.

Lemma main_without_accounts_witness :
  main world_without_accounts (State [] None)
  = (Ok 1,
     State ([] ++ [Print [Lit "[SYSTEM] AnyRouter.top 多账号自动签到脚本启动"];
                   Print [Lit "[TIME] 当前执行时间: ";
                          Str (now world_without_accounts)];
                   Print [Lit "[FAILED] 无法加载账户配置，程序退出"]]) None)
  /\ fst (run_main world_without_accounts (State [] None)) = 1.
Proof.
  apply (main_without_accounts world_without_accounts sample_config [] None);
    [reflexivity|by left].
Defined.

Ltac find_event :=
  repeat first [apply list_elem_of_here
               |apply list_elem_of_further
               |apply elem_of_app; right].

(** An account that comes back as checked in has sent its balance
    request. *)
Lemma check_in_account_ok_sends (w : World) (account : AccountConfig)
    (idx : nat) (cfg : AppConfig) (t : list event) (h : option str)
    (info : option BalanceInfo) (s' : state) :
  check_in_account w account idx cfg (State t h) = (Ok (true, info), s') ->
  exists evs u hd jar, s' = State (t ++ evs) h /\ Get u hd jar ∈ evs.
Proof.
  unfold check_in_account; run.
  destruct (get_provider cfg (provider account)) as [pc|]; simpl;
    [|intros ?; simplify_eq].
  case_bool_decide; simpl; [intros ?; simplify_eq|].
  match goal with
  | |- context [prepare_cookies w ?name pc ?c (State ?t0 h)] =>
      destruct (prepare_cookies_appends (fun _ => True) w name pc c
                  (fun _ _ => I) t0 h) as (r & evs & -> & _ & _)
  end.
  destruct r as [[all_cookies|]|e]; simpl; try (intros ?; simplify_eq; fail).
  case_bool_decide; simpl; [intros ?; simplify_eq|].
  destruct (new_client w) as [[]|e]; simpl; [|intros ?; simplify_eq].
  match goal with
  | |- context [check_in_session w ?name account pc all_cookies
                  (State ?t0 h)] =>
      destruct (check_in_session_run w name account pc all_cookies t0 h)
        as (info' & _ & ->)
  end.
  simpl. destruct (needs_manual_check_in pc).
  - match goal with
    | |- context [execute_check_in w all_cookies ?name pc ?hd
                    (State ?t1 h)] =>
        destruct (execute_check_in_events (fun _ => True) (fun _ => I) w
                    all_cookies name pc hd I t1 h)
          as (r & evs' & -> & _ & _)
    end.
    destruct r; simpl; intros ?; simplify_eq.
    eexists _, (info_url_of pc), (session_headers pc account), all_cookies.
    rewrite <- !app_assoc. simpl. split; [reflexivity|]. find_event.
  - intros ?; simplify_eq.
    eexists _, (info_url_of pc), (session_headers pc account), all_cookies.
    rewrite <- !app_assoc. simpl. split; [reflexivity|]. find_event.
Qed.

Lemma check_in_all_sends (w : World) (cfg : AppConfig)
    (accounts : list AccountConfig) :
  forall i success balances t h n rows s',
    check_in_all w cfg accounts i success balances (State t h)
    = (Ok (n, rows), s') ->
    exists evs,
      s' = State (t ++ evs) h
      /\ (success < n -> exists u hd jar, Get u hd jar ∈ evs).
Proof.
  induction accounts as [|account rest IH];
    intros i success balances t h n rows s'; simpl.
  - intros [= <- _ <-]. exists []. rewrite app_nil_r. split; [done|lia].
  - unfold bind at 1.
    destruct (check_in_account_appends (fun _ => True) w account i cfg
                (fun _ _ => I) (fun _ _ _ _ _ _ => conj I I) t h)
      as (r & evs1 & Hr & _ & _).
    rewrite Hr. destruct r as [[ok info]|e]; [|intros [=]].
    intros Hrest. apply IH in Hrest as (evs2 & -> & Hget).
    exists (evs1 ++ evs2). split; [by rewrite app_assoc|].
    intros Hlt. destruct ok.
    + apply check_in_account_ok_sends in Hr
        as (evs1' & u & hd & jar & Heq & Hin).
      injection Heq as Heq. apply app_inv_head in Heq as ->.
      exists u, hd, jar. apply elem_of_app. by left.
    + destruct (Hget Hlt) as (u & hd & jar & Hin).
      exists u, hd, jar. apply elem_of_app. by right.
Qed.

Arguments check_in_all : simpl never.

Lemma main_exit (w : World) (t : list event) (h : option str) (code : Z)
    (s' : state) :
  main w (State t h) = (Ok code, s') ->
  (code = 0 \/ code = 1)
  /\ (code = 0 ->
      exists evs u hd jar, s' = State (t ++ evs) h /\ Get u hd jar ∈ evs).
Proof.
  unfold main; run.
  destruct (load_from_env w) as [cfg|e]; simpl; [|intros ?; simplify_eq].
  destruct (load_accounts_config w) as [[[|a l]|]|e]; simpl;
    try (intros ?; simplify_eq; fail);
    try (intros ?; simplify_eq; split; [by right|done]).
  match goal with
  | |- context [check_in_all w cfg (a :: l) ?i ?n0 ?b0 (State ?t0 h)] =>
      destruct (check_in_all w cfg (a :: l) i n0 b0 (State t0 h))
        as [[[n rows]|e] s1] eqn:Hall; [|intros ?; simplify_eq]
  end.
  apply check_in_all_sends in Hall as (evs & -> & Hget).
  match goal with
  | |- context [send_dingtalk_message w rows n ?f ?tot (State ?t1 h)] =>
      destruct (send_dingtalk_message_appends (fun _ => True) w rows n f tot
                  (fun _ _ => I) t1 h) as (r & evs' & -> & _ & _)
  end.
  destruct r as [[]|e]; simpl; intros ?; simplify_eq.
  destruct (Z.ltb_spec 0 n) as [Hpos|Hneg].
  - split; [by left|]. intros _.
    destruct (Hget Hpos) as (u & hd & jar & Hin).
    eexists _, u, hd, jar. rewrite <- !app_assoc. simpl.
    split; [reflexivity|].
    do 2 apply list_elem_of_further. apply elem_of_app. by left.
  - split; [by right|done].
Qed.

(** X26.  The process exits with 0 or 1, and with 0 only when a balance
    request was sent: a run in which no account got as far as its HTTP
    session cannot report success. *)
Theorem exit_zero_needs_request (w : World) (t : list event)
    (h : option str) :
  (fst (run_main w (State t h)) = 0 \/ fst (run_main w (State t h)) = 1)
  /\ (fst (run_main w (State t h)) = 0 ->
      exists evs u hd jar,
        snd (run_main w (State t h)) = State (t ++ evs) h
        /\ Get u hd jar ∈ evs).
Proof.
  unfold run_main.
  destruct (main w (State t h)) as [[code|e] s'] eqn:Hmain; simpl.
  - by apply main_exit in Hmain.
  - split; [by right|done].
Qed.
